(** * Points3DTileContent

    A shallow embedding of [Source/Scene/Points3DTileContent.js]: the content
    object of a 3D Tiles point-cloud tile.  The file follows the source from
    top to bottom: the constructor, [request] with its two promise handlers,
    [initialize] (header, feature table, attribute variants, shader text,
    vertex layout, render state, draw command), [isDestroyed] and [destroy].

    The source is embedded as it is written, with the checks between the
    [//>>includeStart('debug')] pragmas in place. *)

From Stdlib Require Import ZArith NArith Lia QArith.
From Stdlib Require Import Strings.String Strings.Ascii Strings.Byte.
From stdpp Require Import base option gmap strings list fin_maps pretty.

Local Open Scope string_scope.
Local Open Scope N_scope.
Local Open Scope list_scope.

(** ** JavaScript values and completions *)

(** [ComponentDatatype] is imported by the source from
    [../Core/ComponentDatatype]; these are the members the source names. *)
Inductive ComponentDatatypeValue : Type :=
  | UNSIGNED_BYTE | UNSIGNED_SHORT | UNSIGNED_INT | FLOAT.

(** Modelled from the spec: the [ComponentDatatype] table, which is not part of
    this file (unsigned byte, unsigned 16-bit, unsigned 32-bit and float
    elements).  A member access [ComponentDatatype.X] is a property read on a
    plain object, so a name that is not a member reads as [undefined]
    ([None]). *)
Definition ComponentDatatype (member : string) : option ComponentDatatypeValue :=
  if String.eqb member "UNSIGNED_BYTE" then Some UNSIGNED_BYTE
  else if String.eqb member "UNSIGNED_SHORT" then Some UNSIGNED_SHORT
  else if String.eqb member "UNSIGNED_INT" then Some UNSIGNED_INT
  else if String.eqb member "FLOAT" then Some FLOAT
  else None.

(** The values the feature table and its accessor traffic in.  Numbers are
    integers ([JNum]) or [JNaN]; a typed array is kept as the view it is:
    element type, byte offset into the feature table binary, and count. *)
#[warnings="-register-all"]
Inductive jsval : Type :=
  | JUndefined
  | JNull
  | JBool (b : bool)
  | JNum (n : Z)
  | JNaN
  | JStr (s : string)
  | JArr (elements : list jsval)
  | JObj (properties : gmap string jsval)
  | JTypedArray (componentType : option ComponentDatatypeValue)
                (byteOffset : jsval) (count : jsval).

(** [defined(value)] of [../Core/defined]: neither [undefined] nor [null]. *)
Definition defined (value : jsval) : bool :=
  match value with
  | JUndefined | JNull => false
  | _ => true
  end.

(** [defaultValue(a, b)] of [../Core/defaultValue]. *)
Definition defaultValue (a b : jsval) : jsval :=
  if defined a then a else b.

Inductive error : Type :=
  | DeveloperError (message : string)
  | RangeError
  | SyntaxError
  | TypeError
  | ReferenceError (name : string).

(** How a statement or call ends: normally with a value, or by [throw]. *)
Inductive completion (A : Type) : Type :=
  | Normal (a : A)
  | Throw (e : error).
Arguments Normal {A} a.
Arguments Throw {A} e.

(** The spec's [FormatError] is the [DeveloperError] the source throws when a
    tile does not meet the format. *)
Definition FormatError (e : error) : Prop :=
  ∃ message, e = DeveloperError message.

(** A property read [value[name]] ([value.name]).  Reading from [undefined] or
    [null] throws; the primitives and arrays of a parsed feature table have no
    own property under the names the source reads. *)
Definition getProperty (value : jsval) (name : string) : completion jsval :=
  match value with
  | JUndefined | JNull => Throw TypeError
  | JObj properties => Normal (default JUndefined (properties !! name))
  | _ => Normal JUndefined
  end.

(** Whether a parsed table carries the property at all (whatever its value). *)
Definition hasOwnProperty (value : jsval) (name : string) : bool :=
  match value with
  | JObj properties => bool_decide (is_Some (properties !! name))
  | _ => false
  end.

(** The product [value * k] for a numeric [value], as an exact integer: it is
    the product JavaScript computes as long as that stays within 2^53.
    Operands that are not numbers give [NaN] here: their conversion to a
    number is not modelled. *)
Definition js_times (value : jsval) (k : Z) : jsval :=
  match value with
  | JNum n => JNum (n * k)
  | _ => JNaN
  end.

(** ** Byte buffers *)

(** An [ArrayBuffer] and the [Uint8Array] over it. *)
Abbreviation ArrayBuffer := (list byte).

Definition sizeOfUint32 : N := 4.

(** Modelled from the spec: [getStringFromTypedArray] of [../Core], the text of
    [byteLength] bytes from [byteOffset] on ([subarray] clamps to the array);
    one character per byte. *)
Definition getStringFromTypedArray
    (uint8Array : ArrayBuffer) (byteOffset byteLength : N) : string :=
  string_of_list_byte
    (take (N.to_nat byteLength) (drop (N.to_nat byteOffset) uint8Array)).

(** Modelled from the spec: [getMagic] of [../Core], the 4-character tag at
    [byteOffset]. *)
Definition getMagic (uint8Array : ArrayBuffer) (byteOffset : N) : string :=
  getStringFromTypedArray uint8Array byteOffset 4.

(** [DataView.prototype.getUint32(byteOffset, littleEndian)]: four bytes
    combined into an unsigned 32-bit integer, [RangeError] when they do not all
    lie in the buffer. *)
Definition getUint32
    (view : ArrayBuffer) (byteOffset : N) (littleEndian : bool) : completion N :=
  match drop (N.to_nat byteOffset) view with
  | b0 :: b1 :: b2 :: b3 :: _ =>
      let '(l0, l1, l2, l3) :=
        if littleEndian then (b0, b1, b2, b3) else (b3, b2, b1, b0) in
      Normal (N.lor (Byte.to_N l0)
             (N.lor (N.shiftl (Byte.to_N l1) 8)
             (N.lor (N.shiftl (Byte.to_N l2) 16)
                    (N.shiftl (Byte.to_N l3) 24))))
  | _ => Throw RangeError
  end.

(** [new Uint8Array(arrayBuffer, byteOffset, length)]: the view of [length]
    bytes at [byteOffset], [RangeError] when it leaves the buffer. *)
Definition Uint8Array_view
    (arrayBuffer : ArrayBuffer) (byteOffset length : N) : completion (list byte) :=
  if N.of_nat (List.length arrayBuffer) <? byteOffset + length
  then Throw RangeError
  else Normal (take (N.to_nat length) (drop (N.to_nat byteOffset) arrayBuffer)).

(** ** Colors *)

(** A JavaScript number as the color code computes with it: a rational, or
    [NaN]. *)
Inductive jsnum : Type :=
  | Num (q : Q)
  | NaN.

(** [a < b] on numbers; any comparison with [NaN] is false. *)
Definition js_lt (a : jsnum) (b : Q) : bool :=
  match a with
  | Num q => (Qnum q * Zpos (Qden b) <? Qnum b * Zpos (Qden q))%Z
  | NaN => false
  end.

Record Color : Type := mkColor {
  red : jsnum;
  green : jsnum;
  blue : jsnum;
  alpha : jsnum
}.

(** [Color.WHITE] and [Color.DARKGRAY] (CSS [#A9A9A9]) of [../Core/Color]. *)
Module ColorConstants.
Definition WHITE : Color :=
  mkColor (Num 1) (Num 1) (Num 1) (Num 1).
Definition DARKGRAY : Color :=
  mkColor (Num (169 # 255)) (Num (169 # 255)) (Num (169 # 255)) (Num 1).
End ColorConstants.

(** [Color.byteToFloat(number)]: [number / 255.0].  Only numbers and booleans
    are converted; other operands (strings among them) give [NaN] here: their
    conversion to a number is not modelled. *)
Definition byteToFloat (number : jsval) : jsnum :=
  match number with
  | JNum n => Num (n # 255)
  | JBool true => Num (1 # 255)
  | JBool false => Num 0
  | _ => NaN
  end.

(** [Color.fromBytes(red, green, blue, alpha, result)]: each channel defaults
    to 255 and is scaled to 0..1; the channels are stored in [result]. *)
Definition Color_fromBytes (r g b a : jsval) (result : Color) : Color :=
  {| red := byteToFloat (defaultValue r (JNum 255));
     green := byteToFloat (defaultValue g (JNum 255));
     blue := byteToFloat (defaultValue b (JNum 255));
     alpha := byteToFloat (defaultValue a (JNum 255)) |}.

(** ** The renderer's data *)

(** The members of [PrimitiveType] and [BlendingState] the source names. *)
Inductive PrimitiveTypeValue : Type :=
  | POINTS.

Inductive BlendingStateValue : Type :=
  | ALPHA_BLEND.

Inductive PassValue : Type :=
  | OPAQUE | TRANSLUCENT.

(** Modelled from the spec: the [Pass] table of [./Pass], the render passes a
    draw command is placed in, opaque or translucent.  As with
    [ComponentDatatype], a name that is not a member reads as [undefined]. *)
Definition Pass (member : string) : option PassValue :=
  if String.eqb member "OPAQUE" then Some OPAQUE
  else if String.eqb member "TRANSLUCENT" then Some TRANSLUCENT
  else None.

(** One entry of the [attributes] array handed to [VertexArray]. *)
Record VertexAttribute : Type := mkVertexAttribute {
  index : N;
  vertexBuffer : jsval;
  componentsPerAttribute : N;
  componentDatatype : option ComponentDatatypeValue;
  normalize : bool;
  offsetInBytes : N;
  strideInBytes : N
}.

(** The rendering context; the source reads it from a free variable. *)
Inductive Context : Type := TheContext.

Record VertexArray : Type := mkVertexArray {
  va_context : Context;
  va_attributes : list VertexAttribute
}.

Record ShaderProgram : Type := mkShaderProgram {
  sp_context : Context;
  vertexShaderSource : string;
  fragmentShaderSource : string;
  attributeLocations : gmap string N
}.

(** The object literal [rs] given to [RenderState.fromCache]; a key that was
    never written is [None]. *)
Record RenderState : Type := mkRenderState {
  depthTest_enabled : option bool;
  depthMask : option bool;
  blending : option BlendingStateValue
}.

(** The closures of [uniformMap]: each reads one field of the content every
    time the renderer calls it. *)
Inductive UniformFunction : Type :=
  | read_pointSize
  | read_constantColor
  | read_quantizedVolumeScale.

Record BoundingSphere : Type := mkBoundingSphere {
  center : Q * Q * Q;
  radius : Q
}.

(** [new Matrix4()]: sixteen entries, all defaulting to 0. *)
Definition Matrix4 : Type := list Q.
Definition Matrix4_new : Matrix4 := replicate 16 (0 : Q).

(** [DrawCommand]: the options it was constructed from.  [owner_is_this]
    stands for the back-reference [owner : this]. *)
Record DrawCommand : Type := mkDrawCommand {
  boundingVolume : option BoundingSphere;
  cull : bool;
  modelMatrix : option Matrix4;
  primitiveType : option PrimitiveTypeValue;
  vertexArray : option VertexArray;
  count : jsval;
  shaderProgram : option ShaderProgram;
  uniformMap : gmap string UniformFunction;
  renderState : option RenderState;
  pass : option PassValue;
  owner_is_this : bool
}.

(** [new DrawCommand()], as the constructor of the content calls it. *)
Definition DrawCommand_empty : DrawCommand :=
  {| boundingVolume := None; cull := true; modelMatrix := None;
     primitiveType := None; vertexArray := None; count := JUndefined;
     shaderProgram := None; uniformMap := ∅; renderState := None;
     pass := None; owner_is_this := false |}.

(** What the renderer has been asked to build so far, oldest first. *)
Inductive GpuResource : Type :=
  | CreatedVertexArray (va : VertexArray)
  | CreatedShaderProgram (sp : ShaderProgram)
  | CreatedRenderState (rs : RenderState)
  | CreatedDrawCommand (dc : DrawCommand).

(** ** The content object *)

Inductive Cesium3DTileContentState : Type :=
  | UNLOADED | LOADING | PROCESSING | READY | FAILED.

(** Why a promise was rejected: an exception caught by the promise chain, or a
    plain reason value. *)
Inductive rejection : Type :=
  | Exception (e : error)
  | Reason (text : string).

(** A deferred of [when.defer()]; settling a settled one changes nothing. *)
Inductive deferred : Type :=
  | Pending
  | Resolved
  | Rejected (why : rejection).

Definition deferred_resolve (d : deferred) : deferred :=
  match d with Pending => Resolved | _ => d end.

Definition deferred_reject (why : rejection) (d : deferred) : deferred :=
  match d with Pending => Rejected why | _ => d end.

(** The owning tile, as far as the content reads it. *)
Record Cesium3DTile : Type := mkTile {
  distanceToCamera : Q;
  requestServer : string;
  contentBoundingSphere : BoundingSphere
}.

(** The fields of the content.  The reference to the tileset, which the
    methods below never read, is left out. *)
Record Points3DTileContent : Type := mkContent {
  _url : string;
  _tile : Cesium3DTile;
  _constantColor : Color;
  _pointSize : Q;
  _quantizedVolumeScale : jsval;
  _drawCommand : DrawCommand;
  state : Cesium3DTileContentState;
  contentReadyToProcessPromise : deferred;
  readyPromise : deferred;
  batchTableResources : jsval;
  featurePropertiesDirty : bool;
  (** set once [destroyObject] has run on the object *)
  destroyed : bool
}.

(** The constructor (lines 68-85). *)
Definition Points3DTileContent_new (tile : Cesium3DTile) (url : string)
    : Points3DTileContent :=
  {| _url := url;
     _tile := tile;
     _constantColor := ColorConstants.WHITE;
     _pointSize := 2;
     _quantizedVolumeScale := JUndefined;
     _drawCommand := DrawCommand_empty;
     state := UNLOADED;
     contentReadyToProcessPromise := Pending;
     readyPromise := Pending;
     batchTableResources := JUndefined;
     featurePropertiesDirty := false;
     destroyed := false |}.

Definition set_state (s : Cesium3DTileContentState) (c : Points3DTileContent)
    : Points3DTileContent :=
  mkContent (_url c) (_tile c) (_constantColor c) (_pointSize c)
    (_quantizedVolumeScale c) (_drawCommand c) s
    (contentReadyToProcessPromise c) (readyPromise c)
    (batchTableResources c) (featurePropertiesDirty c) (destroyed c).

Definition set_constantColor (k : Color) (c : Points3DTileContent)
    : Points3DTileContent :=
  mkContent (_url c) (_tile c) k (_pointSize c)
    (_quantizedVolumeScale c) (_drawCommand c) (state c)
    (contentReadyToProcessPromise c) (readyPromise c)
    (batchTableResources c) (featurePropertiesDirty c) (destroyed c).

Definition set_quantizedVolumeScale (v : jsval) (c : Points3DTileContent)
    : Points3DTileContent :=
  mkContent (_url c) (_tile c) (_constantColor c) (_pointSize c)
    v (_drawCommand c) (state c)
    (contentReadyToProcessPromise c) (readyPromise c)
    (batchTableResources c) (featurePropertiesDirty c) (destroyed c).

Definition set_drawCommand (d : DrawCommand) (c : Points3DTileContent)
    : Points3DTileContent :=
  mkContent (_url c) (_tile c) (_constantColor c) (_pointSize c)
    (_quantizedVolumeScale c) d (state c)
    (contentReadyToProcessPromise c) (readyPromise c)
    (batchTableResources c) (featurePropertiesDirty c) (destroyed c).

Definition set_contentReadyToProcessPromise (d : deferred)
    (c : Points3DTileContent) : Points3DTileContent :=
  mkContent (_url c) (_tile c) (_constantColor c) (_pointSize c)
    (_quantizedVolumeScale c) (_drawCommand c) (state c)
    d (readyPromise c)
    (batchTableResources c) (featurePropertiesDirty c) (destroyed c).

Definition set_readyPromise (d : deferred) (c : Points3DTileContent)
    : Points3DTileContent :=
  mkContent (_url c) (_tile c) (_constantColor c) (_pointSize c)
    (_quantizedVolumeScale c) (_drawCommand c) (state c)
    (contentReadyToProcessPromise c) d
    (batchTableResources c) (featurePropertiesDirty c) (destroyed c).

Definition set_destroyed (b : bool) (c : Points3DTileContent)
    : Points3DTileContent :=
  mkContent (_url c) (_tile c) (_constantColor c) (_pointSize c)
    (_quantizedVolumeScale c) (_drawCommand c) (state c)
    (contentReadyToProcessPromise c) (readyPromise c)
    (batchTableResources c) (featurePropertiesDirty c) b.

(** ** Statements with effects

    A method body runs against the object [this] and the renderer; it ends
    normally or by a throw, and in both cases the writes made so far stay. *)

Record World : Type := mkWorld {
  this : Points3DTileContent;
  gpu : list GpuResource
}.

Definition JS (A : Type) : Type := World → completion A * World.

#[global] Instance JS_ret : MRet JS := λ A a w, (Normal a, w).

#[global] Instance JS_bind : MBind JS := λ A B k m w,
  match m w with
  | (Normal a, w') => k a w'
  | (Throw e, w') => (Throw e, w')
  end.

#[global] Instance completion_ret : MRet completion := λ A a, Normal a.

#[global] Instance completion_bind : MBind completion := λ A B k m,
  match m with
  | Normal a => k a
  | Throw e => Throw e
  end.

Definition throw {A : Type} (e : error) : JS A := λ w, (Throw e, w).

Definition liftC {A : Type} (c : completion A) : JS A := λ w, (c, w).

Definition getThis : JS Points3DTileContent := λ w, (Normal (this w), w).

Definition modifyThis (f : Points3DTileContent → Points3DTileContent) : JS unit :=
  λ w, (Normal tt, mkWorld (f (this w)) (gpu w)).

(** A renderer object is built: it is appended to the record of them. *)
Definition created (r : GpuResource) : JS unit :=
  λ w, (Normal tt, mkWorld (this w) (gpu w ++ [r])).

(** [if (cond) { throw e; }] *)
Definition throwIf (cond : bool) (e : error) : JS unit :=
  if cond then throw e else mret tt.

Definition throwIfC (cond : bool) (e : error) : completion unit :=
  if cond then Throw e else Normal tt.

(** ** The feature table accessor *)

Record Cesium3DTileFeatureTableResources : Type := mkFeatureTableResources {
  json : jsval;
  buffer : list byte;
  featuresLength : jsval
}.

(** Modelled from the spec: the constructor of the feature table accessor
    ([./Cesium3DTileFeatureTableResources], not part of this file), which keeps
    the JSON header and the binary blob. *)
Definition Cesium3DTileFeatureTableResources_new
    (featureTableJSON : jsval) (featureTableBinary : list byte)
    : Cesium3DTileFeatureTableResources :=
  mkFeatureTableResources featureTableJSON featureTableBinary (JNum 0).

(** Modelled from the spec: [getGlobalProperty(name, componentType, count)] of
    the feature table accessor.  The header maps a key to an inline value or to
    a descriptor with a [byteOffset] into the binary blob; the accessor answers
    [undefined] for a key that is not there, the inline value as it is, and for
    a descriptor a typed view of [count] elements of [componentType] at that
    offset.  The view keeps the element type it was asked for. *)
Definition getGlobalProperty
    (resources : Cesium3DTileFeatureTableResources) (semantic : string)
    (componentType : option ComponentDatatypeValue) (count : jsval)
    : completion jsval :=
  jsonValue ← getProperty (json resources) semantic;
  if defined jsonValue then
    byteOffset ← getProperty jsonValue "byteOffset";
    if defined byteOffset
    then mret (JTypedArray componentType byteOffset (defaultValue count (JNum 1)))
    else mret jsonValue
  else mret jsonValue.

(** The element read [array[i]]: an element of an inline array, a character
    of a string, or a byte of the binary blob seen through a view of unsigned
    bytes; reading from [undefined] or [null] throws.  Elements of views of
    other types are not modelled ([undefined]). *)
Definition getElement (binary : list byte) (array : jsval) (i : nat)
    : completion jsval :=
  match array with
  | JUndefined | JNull => Throw TypeError
  | JArr elements => Normal (default JUndefined (elements !! i))
  | JStr s =>
      match String.get i s with
      | Some ch => Normal (JStr (String ch EmptyString))
      | None => Normal JUndefined
      end
  | JTypedArray (Some UNSIGNED_BYTE) (JNum byteOffset) (JNum count) =>
      if ((0 <=? byteOffset) && (Z.of_nat i <? count))%Z
      then match binary !! (Z.to_nat byteOffset + i)%nat with
           | Some b => Normal (JNum (Z.of_N (Byte.to_N b)))
           | None => Normal JUndefined
           end
      else Normal JUndefined
  | _ => Normal JUndefined
  end.

(** ** The variant flags and the shader text (lines 270-333) *)

Record VariantFlags : Type := mkFlags {
  isQuantized : bool;
  hasColors : bool;
  isTranslucent : bool;
  hasNormals : bool;
  isOctEncoded16P : bool
}.

(** The line feed the source writes as ['\n']. *)
Definition LF : string := String "010"%char EmptyString.

(** The string [vs], built by the same sequence of appends. *)
Definition vertexShader (f : VariantFlags) : string :=
  let vs := "attribute vec3 a_position; " +:+ LF +:+
            "varying vec4 v_color; " +:+ LF +:+
            "uniform float u_pointSize; " +:+ LF +:+
            "uniform vec4 u_constantColor; " +:+ LF in
  let vs :=
    if hasColors f then
      if isTranslucent f
      then vs +:+ "attribute vec4 a_color; " +:+ LF
      else vs +:+ "attribute vec3 a_color; " +:+ LF
    else vs in
  let vs :=
    if hasNormals f then
      if isOctEncoded16P f
      then vs +:+ "attribute vec2 a_normal; " +:+ LF
      else vs +:+ "attribute vec3 a_normal; " +:+ LF
    else vs in
  let vs :=
    if isQuantized f
    then vs +:+ "uniform vec3 u_quantizedVolumeScale; " +:+ LF
    else vs in
  let vs := vs +:+ "void main() " +:+ LF +:+
                   "{ " +:+ LF in
  let vs :=
    if hasColors f then
      if isTranslucent f
      then vs +:+ "    vec4 color = a_color * u_constantColor; " +:+ LF
      else vs +:+ "    vec4 color =  vec4(a_color * u_constantColor.rgb, u_constantColor.a); " +:+ LF
    else vs +:+ "    vec4 color = u_constantColor; " +:+ LF in
  let vs :=
    if hasNormals f then
      let vs :=
        if isOctEncoded16P f
        then vs +:+ "    vec3 normal = czm_octDecode(a_normal); " +:+ LF
        else vs +:+ "    vec3 normal = a_normal; " +:+ LF in
      vs +:+ "    normal = czm_normal * normal; " +:+ LF +:+
             "    color *= max(dot(normal, czm_sunDirectionEC), 0.0); " +:+ LF
    else vs in
  let vs :=
    if isQuantized f
    then vs +:+ "    vec3 position = a_position * u_quantizedVolumeScale; " +:+ LF
    else vs +:+ "    vec3 position = a_position; " +:+ LF in
  vs +:+ "    v_color = color; " +:+ LF +:+
         "    gl_Position = czm_modelViewProjection * vec4(position, 1.0); " +:+ LF +:+
         "    gl_PointSize = pointSize; " +:+ LF +:+
         "} " +:+ LF.

(** The string [fs]. *)
Definition fragmentShader : string :=
  "varying vec4 v_color; " +:+ LF +:+
  "void main() " +:+ LF +:+
  "{ " +:+ LF +:+
  "    gl_FragColor = v_color; " +:+ LF +:+
  "} " +:+ LF.

(** ** The uniform map (lines 335-351) *)

(** [combine(object1, object2)] of [../Core/combine]: the properties of both,
    those of [object1] first. *)
Definition combine {V : Type} (object1 object2 : gmap string V) : gmap string V :=
  object1 ∪ object2.

Definition buildUniformMap (isQuantized : bool) : gmap string UniformFunction :=
  let uniformMap : gmap string UniformFunction :=
    <["u_pointSize" := read_pointSize]>
      (<["u_constantColor" := read_constantColor]> ∅) in
  if isQuantized
  then combine uniformMap
         (<["u_quantizedVolumeScale" := read_quantizedVolumeScale]> ∅)
  else uniformMap.

(** What a uniform function returns when the renderer calls it. *)
Inductive UniformValue : Type :=
  | UFloat (x : Q)
  | UColor (k : Color)
  | UValue (v : jsval).

Definition callUniform (that : Points3DTileContent) (u : UniformFunction)
    : UniformValue :=
  match u with
  | read_pointSize => UFloat (_pointSize that)
  | read_constantColor => UColor (_constantColor that)
  | read_quantizedVolumeScale => UValue (_quantizedVolumeScale that)
  end.

(** ** The vertex attributes (lines 353-415) *)

Definition positionAttributeLocation : N := 0.
Definition colorAttributeLocation : N := 1.
Definition normalAttributeLocation : N := 2.

Definition buildAttributes (f : VariantFlags) (positions colors normals : jsval)
    : list VertexAttribute :=
  let attributes : list VertexAttribute := [] in
  let attributes :=
    if isQuantized f then
      attributes ++ [ {| index := positionAttributeLocation;
                         vertexBuffer := positions;
                         componentsPerAttribute := 3;
                         componentDatatype := ComponentDatatype "UNSIGNED_SHORT";
                         normalize := true;
                         offsetInBytes := 0;
                         strideInBytes := 0 |} ]
    else
      attributes ++ [ {| index := positionAttributeLocation;
                         vertexBuffer := positions;
                         componentsPerAttribute := 3;
                         componentDatatype := ComponentDatatype "FLOAT";
                         normalize := false;
                         offsetInBytes := 0;
                         strideInBytes := 0 |} ] in
  let attributes :=
    if hasColors f then
      let colorComponentsPerAttribute : N := if isTranslucent f then 4 else 3 in
      attributes ++ [ {| index := colorAttributeLocation;
                         vertexBuffer := colors;
                         componentsPerAttribute := colorComponentsPerAttribute;
                         componentDatatype := ComponentDatatype "UNSIGNED_BYTE";
                         normalize := true;
                         offsetInBytes := 0;
                         strideInBytes := 0 |} ]
    else attributes in
  if hasNormals f then
    if isOctEncoded16P f then
      attributes ++ [ {| index := normalAttributeLocation;
                         vertexBuffer := normals;
                         componentsPerAttribute := 2;
                         componentDatatype := ComponentDatatype "UNSIGNED_BYTE";
                         normalize := false;
                         offsetInBytes := 0;
                         strideInBytes := 0 |} ]
    else
      attributes ++ [ {| index := normalAttributeLocation;
                         vertexBuffer := normals;
                         componentsPerAttribute := 3;
                         componentDatatype := ComponentDatatype "FLOAT";
                         normalize := false;
                         offsetInBytes := 0;
                         strideInBytes := 0 |} ]
  else attributes.

(** The [attributeLocations] object (lines 422-436). *)
Definition buildAttributeLocations (f : VariantFlags) : gmap string N :=
  let attributeLocations : gmap string N :=
    <["a_position" := positionAttributeLocation]> ∅ in
  let attributeLocations :=
    if hasColors f
    then combine attributeLocations (<["a_color" := colorAttributeLocation]> ∅)
    else attributeLocations in
  if hasNormals f
  then combine attributeLocations (<["a_normal" := normalAttributeLocation]> ∅)
  else attributeLocations.

(** ** Render state and pass (lines 445-468) *)

(** [combine] on the render state literal: a key of the first object wins. *)
Definition combineRenderState (rs extra : RenderState) : RenderState :=
  {| depthTest_enabled := depthTest_enabled rs ∪ depthTest_enabled extra;
     depthMask := depthMask rs ∪ depthMask extra;
     blending := blending rs ∪ blending extra |}.

Definition buildRenderState (isTranslucent : bool) : RenderState :=
  let rs := {| depthTest_enabled := Some true;
               depthMask := None;
               blending := None |} in
  if isTranslucent
  then combineRenderState rs {| depthTest_enabled := None;
                                depthMask := Some false;
                                blending := Some ALPHA_BLEND |}
  else rs.

(** The expression [isTranslucent ? Pass.isTranslucent : Pass.OPAQUE]. *)
Definition choosePass (isTranslucent : bool) : option PassValue :=
  if isTranslucent then Pass "isTranslucent" else Pass "OPAQUE".

(** ** initialize (lines 157-487) *)

(** The locals of [initialize] once the header has been read (line 195):
    the two length fields, the feature table text and its parse, the binary
    blob, and the values [byteOffset] had when the text and the blob were
    taken. *)
Record Header : Type := mkHeader {
  version : N;
  featureTableJSONByteLength : N;
  featureTableBinaryByteLength : N;
  featureTableJSONByteOffset : N;
  featureTableString : string;
  featureTableJSON : jsval;
  featureTableBinaryByteOffset : N;
  featureTableBinary : list byte;
  endByteOffset : N
}.

Section Environment.

(** [JSON.parse] applied to the decoded text; [None] is its [SyntaxError]. *)
Variable JSON_parse : string → option jsval.

(** The free variable [context] that [initialize] reads (lines 418 and 439):
    it is not bound in the module, so it resolves in the global scope, and
    reading it throws a [ReferenceError] when no such global exists. *)
Variable context : option Context.

Definition JSON_parse_completion (text : string) : completion jsval :=
  match JSON_parse text with
  | Some value => Normal value
  | None => Throw SyntaxError
  end.

Definition readContext : completion Context :=
  match context with
  | Some ctx => Normal ctx
  | None => Throw (ReferenceError "context")
  end.

(** Lines 158-195: the header fields, the feature table JSON and binary. *)
Definition readHeader (arrayBuffer : ArrayBuffer) (byteOffset : option N)
    : completion Header :=
  let byteOffset := default 0 byteOffset in
  let uint8Array := arrayBuffer in
  let magic := getMagic uint8Array byteOffset in
  throwIfC (negb (String.eqb magic "pnts"))
    (DeveloperError
       ("Invalid Points tile.  Expected magic=pnts.  Read magic=" +:+ magic));;
  let view := arrayBuffer in
  let byteOffset := byteOffset + sizeOfUint32 in
  version ← getUint32 view byteOffset true;
  throwIfC (negb (version =? 1))
    (DeveloperError
       ("Only Points tile version 1 is supported.  Version " +:+
        pretty version +:+ " is not."));;
  let byteOffset := byteOffset + sizeOfUint32 in
  let byteOffset := byteOffset + sizeOfUint32 in
  featureTableJSONByteLength ← getUint32 view byteOffset true;
  throwIfC (featureTableJSONByteLength =? 0)
    (DeveloperError "Feature table must have a byte length greater than zero");;
  let byteOffset := byteOffset + sizeOfUint32 in
  featureTableBinaryByteLength ← getUint32 view byteOffset true;
  let byteOffset := byteOffset + sizeOfUint32 in
  let featureTableJSONByteOffset := byteOffset in
  let featureTableString :=
    getStringFromTypedArray uint8Array byteOffset featureTableJSONByteLength in
  featureTableJSON ← JSON_parse_completion featureTableString;
  let byteOffset := byteOffset + featureTableJSONByteLength in
  let featureTableBinaryByteOffset := byteOffset in
  featureTableBinary ←
    Uint8Array_view arrayBuffer byteOffset featureTableBinaryByteLength;
  let byteOffset := byteOffset + featureTableBinaryByteLength in
  mret {| version := version;
          featureTableJSONByteLength := featureTableJSONByteLength;
          featureTableBinaryByteLength := featureTableBinaryByteLength;
          featureTableJSONByteOffset := featureTableJSONByteOffset;
          featureTableString := featureTableString;
          featureTableJSON := featureTableJSON;
          featureTableBinaryByteOffset := featureTableBinaryByteOffset;
          featureTableBinary := featureTableBinary;
          endByteOffset := byteOffset |}.

(** Lines 197-205: the accessor and the required [POINTS_LENGTH]. *)
Definition readPointsLength (h : Header)
    : completion (Cesium3DTileFeatureTableResources * jsval) :=
  let featureTableResources :=
    Cesium3DTileFeatureTableResources_new
      (featureTableJSON h) (featureTableBinary h) in
  pointsLength ←
    getGlobalProperty featureTableResources "POINTS_LENGTH" None JUndefined;
  let featureTableResources :=
    mkFeatureTableResources (json featureTableResources)
      (buffer featureTableResources) pointsLength in
  throwIfC (negb (defined pointsLength))
    (DeveloperError
       "Feature table global property: POINTS_LENGTH must be defined");;
  mret (featureTableResources, pointsLength).

(** Lines 207-228: the positions; answers [(positions, isQuantized)]. *)
Definition resolvePositions
    (featureTableJSON : jsval)
    (featureTableResources : Cesium3DTileFeatureTableResources)
    (pointsLength : jsval) : JS (jsval * bool) :=
  POSITION ← liftC (getProperty featureTableJSON "POSITION");
  '(positions, isQuantized) ←
    (if defined POSITION then
       positions ← liftC (getGlobalProperty featureTableResources "POSITION"
                            (ComponentDatatype "FLOAT") (js_times pointsLength 3));
       mret (positions, false)
     else
       POSITION_QUANTIZED ←
         liftC (getProperty featureTableJSON "POSITION_QUANTIZED");
       if defined POSITION_QUANTIZED then
         positions ← liftC (getGlobalProperty featureTableResources
                              "POSITION_QUANTIZED"
                              (ComponentDatatype "UNSIGNED_SHORT")
                              (js_times pointsLength 3));
         scale ← liftC (getGlobalProperty featureTableResources
                          "QUANTIZED_VOLUME_SCALE"
                          (ComponentDatatype "FLOAT") (JNum 3));
         modifyThis (set_quantizedVolumeScale scale);;
         that ← getThis;
         throwIf (negb (defined (_quantizedVolumeScale that)))
           (DeveloperError
              "Global property: QUANTIZED_VOLUME_SCALE must be defined for quantized positions.");;
         mret (positions, true)
       else mret (JUndefined, false));
  throwIf (negb (defined positions))
    (DeveloperError "Either POSITION or POSITION_QUANTIZED must be defined.");;
  mret (positions, isQuantized).

(** Lines 230-247: the colors; answers
    [(colors, isTranslucent, isConstantColor)]. *)
Definition resolveColors
    (featureTableJSON : jsval)
    (featureTableResources : Cesium3DTileFeatureTableResources)
    (pointsLength : jsval) : JS (jsval * bool * bool) :=
  RGBA ← liftC (getProperty featureTableJSON "RGBA");
  if defined RGBA then
    colors ← liftC (getGlobalProperty featureTableResources "RGBA"
                      (ComponentDatatype "UNSIGNED_BYTE")
                      (js_times pointsLength 4));
    mret (colors, true, false)
  else
    RGB ← liftC (getProperty featureTableJSON "RGB");
    if defined RGB then
      colors ← liftC (getGlobalProperty featureTableResources "RGB"
                        (ComponentDatatype "UNISGNED_BYTE")
                        (js_times pointsLength 3));
      mret (colors, false, false)
    else
      CONSTANT_COLOR ← liftC (getProperty featureTableJSON "CONSTANT_COLOR");
      if defined CONSTANT_COLOR then
        constantColor ← liftC (getGlobalProperty featureTableResources
                                 "CONSTANT_COLOR"
                                 (ComponentDatatype "UNSIGNED_BYTE") (JNum 4));
        let binary := buffer featureTableResources in
        c0 ← liftC (getElement binary constantColor 0);
        c1 ← liftC (getElement binary constantColor 1);
        c2 ← liftC (getElement binary constantColor 2);
        c3 ← liftC (getElement binary constantColor 3);
        that ← getThis;
        modifyThis (set_constantColor
                      (Color_fromBytes c0 c1 c2 c3 (_constantColor that)));;
        that ← getThis;
        mret (JUndefined, js_lt (alpha (_constantColor that)) 1, true)
      else mret (JUndefined, false, false).

(** Lines 249-258: the normals; answers [(normals, isOctEncoded16P)]. *)
Definition resolveNormals
    (featureTableJSON : jsval)
    (featureTableResources : Cesium3DTileFeatureTableResources)
    (pointsLength : jsval) : JS (jsval * bool) :=
  NORMAL ← liftC (getProperty featureTableJSON "NORMAL");
  if defined NORMAL then
    normals ← liftC (getGlobalProperty featureTableResources "NORMAL"
                       (ComponentDatatype "FLOAT") (js_times pointsLength 3));
    mret (normals, false)
  else
    NORMAL_OCT16P ← liftC (getProperty featureTableJSON "NORMAL_OCT16P");
    if defined NORMAL_OCT16P then
      normals ← liftC (getGlobalProperty featureTableResources "NORMAL_OCT16P"
                         (ComponentDatatype "UNSIGNED_BYTE")
                         (js_times pointsLength 2));
      mret (normals, true)
    else mret (JUndefined, false).

(** Lines 270-478: shader text, uniform map, vertex array, shader program,
    render state, draw command, and the two promises. *)
Definition assemble (f : VariantFlags) (positions colors normals : jsval)
    (pointsLength : jsval) : JS unit :=
  let vs := vertexShader f in
  let fs := fragmentShader in
  let uniformMap := buildUniformMap (isQuantized f) in
  let attributes := buildAttributes f positions colors normals in
  ctx ← liftC readContext;
  let vertexArray := {| va_context := ctx; va_attributes := attributes |} in
  created (CreatedVertexArray vertexArray);;
  let attributeLocations := buildAttributeLocations f in
  ctx ← liftC readContext;
  let shaderProgram := {| sp_context := ctx;
                          vertexShaderSource := vs;
                          fragmentShaderSource := fs;
                          attributeLocations := attributeLocations |} in
  created (CreatedShaderProgram shaderProgram);;
  let rs := buildRenderState (isTranslucent f) in
  that ← getThis;
  created (CreatedRenderState rs);;
  let drawCommand :=
    {| boundingVolume := Some (contentBoundingSphere (_tile that));
       cull := false;
       modelMatrix := Some Matrix4_new;
       primitiveType := Some POINTS;
       vertexArray := Some vertexArray;
       count := pointsLength;
       shaderProgram := Some shaderProgram;
       uniformMap := uniformMap;
       renderState := Some rs;
       pass := choosePass (isTranslucent f);
       owner_is_this := true |} in
  created (CreatedDrawCommand drawCommand);;
  modifyThis (set_drawCommand drawCommand);;
  modifyThis (set_state PROCESSING);;
  modifyThis (λ c, set_contentReadyToProcessPromise
                     (deferred_resolve (contentReadyToProcessPromise c)) c);;
  modifyThis (set_state READY);;
  modifyThis (λ c, set_readyPromise (deferred_resolve (readyPromise c)) c).

(** The flags as [initialize] has them at line 268. *)
Definition resolveVariant (h : Header)
    : JS (VariantFlags * (jsval * jsval * jsval) * jsval) :=
  '(featureTableResources, pointsLength) ← liftC (readPointsLength h);
  '(positions, isQuantized) ←
    resolvePositions (featureTableJSON h) featureTableResources pointsLength;
  '(colors, isTranslucent, isConstantColor) ←
    resolveColors (featureTableJSON h) featureTableResources pointsLength;
  '(normals, isOctEncoded16P) ←
    resolveNormals (featureTableJSON h) featureTableResources pointsLength;
  let hasColors := defined colors in
  let hasNormals := defined normals in
  (if negb hasColors && negb isConstantColor
   then modifyThis (set_constantColor ColorConstants.DARKGRAY)
   else mret tt);;
  mret (mkFlags isQuantized hasColors isTranslucent hasNormals isOctEncoded16P,
        (positions, colors, normals), pointsLength).

Definition initialize (arrayBuffer : ArrayBuffer) (byteOffset : option N)
    : JS unit :=
  h ← liftC (readHeader arrayBuffer byteOffset);
  '(f, (positions, colors, normals), pointsLength) ← resolveVariant h;
  assemble f positions colors normals pointsLength.

(** ** isDestroyed, destroy (lines 511-524) *)

(** Modelled from the spec: [destroyObject] of [../Core/destroyObject], which
    marks the object destroyed: from then on [isDestroyed()] answers [true]. *)
Definition destroyObject (c : Points3DTileContent) : Points3DTileContent :=
  set_destroyed true c.

(** The call [that.isDestroyed()]: the method of the prototype answers
    [false] (line 515); on a destroyed object the call answers [true]. *)
Definition isDestroyed (c : Points3DTileContent) : bool :=
  if destroyed c then true else false.

(** [destroy()]: [_primitive] is never assigned, so line 522 leaves it
    [undefined]; then [destroyObject(this)]. *)
Definition destroy (c : Points3DTileContent) : Points3DTileContent :=
  destroyObject c.

(** ** request (lines 129-152) *)

(** How the promise of the scheduled request settles. *)
Inductive fetchOutcome : Type :=
  | Fetched (arrayBuffer : ArrayBuffer)
  | FetchFailed (why : rejection).

(** What a [then] callback hands on: its return value fulfils the next
    promise, unless it returns a rejected promise. *)
Inductive handedOn : Type :=
  | Fulfil
  | RejectWith (why : rejection).

(** [request()] up to the point where the handlers are attached:
    [scheduled] tells whether [RequestScheduler.schedule] returned a promise. *)
Definition request (scheduled : bool) (c : Points3DTileContent)
    : Points3DTileContent :=
  if scheduled then set_state LOADING c else c.

(** The function given to [then] (lines 142-147). *)
Definition onFetched (arrayBuffer : ArrayBuffer) : JS handedOn :=
  that ← getThis;
  if isDestroyed that
  then mret (RejectWith (Reason "tileset is destroyed"))
  else initialize arrayBuffer None;; mret Fulfil.

(** The function given to [otherwise] (lines 147-150). *)
Definition onFailure (why : rejection) : JS unit :=
  modifyThis (set_state FAILED);;
  modifyThis (λ c, set_readyPromise (deferred_reject why (readyPromise c)) c).

(** [promise.then(onFetched).otherwise(onFailure)] when [promise] settles:
    a rejection of [promise], a throw inside [onFetched] and a rejected
    promise returned by it all reach [onFailure]. *)
Definition requestSettles (outcome : fetchOutcome) : JS unit :=
  λ w,
    match outcome with
    | FetchFailed why => onFailure why w
    | Fetched arrayBuffer =>
        match onFetched arrayBuffer w with
        | (Normal Fulfil, w') => (Normal tt, w')
        | (Normal (RejectWith why), w') => onFailure why w'
        | (Throw e, w') => onFailure (Exception e) w'
        end
    end.

End Environment.

(** ** A reader for feature table text, and tiles to run

    [initialize] is parameterised by [JSON.parse].  To run it on concrete
    tiles, [Json.parse] reads the fragment of JSON the tiles below are written
    in: objects, arrays, strings without escapes, integers, [true], [false]
    and [null].  On that fragment it builds the value [JSON.parse] builds
    (a later duplicate key replaces an earlier one); everything else it
    refuses. *)
Module Json.

Definition quote : ascii := "034"%char.

Definition isWhitespace (ch : ascii) : bool :=
  Ascii.eqb ch " "%char || Ascii.eqb ch "009"%char ||
  Ascii.eqb ch "010"%char || Ascii.eqb ch "013"%char.

Fixpoint skipWhitespace (text : list ascii) : list ascii :=
  match text with
  | ch :: rest => if isWhitespace ch then skipWhitespace rest else text
  | [] => []
  end.

Definition digitValue (ch : ascii) : option Z :=
  let n := N_of_ascii ch in
  if (48 <=? n) && (n <=? 57) then Some (Z.of_N (n - 48)) else None.

Fixpoint readDigits (text : list ascii) (acc : Z) : Z * list ascii :=
  match text with
  | ch :: rest =>
      match digitValue ch with
      | Some d => readDigits rest (10 * acc + d)%Z
      | None => (acc, text)
      end
  | [] => (acc, [])
  end.

(** After the digits of an integer no fraction or exponent may follow. *)
Definition endsInteger (text : list ascii) : bool :=
  match text with
  | ch :: _ =>
      negb (Ascii.eqb ch "."%char || Ascii.eqb ch "e"%char || Ascii.eqb ch "E"%char)
  | [] => true
  end.

Definition readUnsigned (text : list ascii) : option (Z * list ascii) :=
  match text with
  | ch :: rest =>
      match digitValue ch with
      | Some 0%Z =>
          match rest with
          | ch' :: _ =>
              match digitValue ch' with
              | Some _ => None
              | None => if endsInteger rest then Some (0%Z, rest) else None
              end
          | [] => Some (0%Z, [])
          end
      | Some d =>
          let '(n, rest') := readDigits rest d in
          if endsInteger rest' then Some (n, rest') else None
      | None => None
      end
  | [] => None
  end.

Definition readNumber (text : list ascii) : option (jsval * list ascii) :=
  match text with
  | ch :: rest =>
      if Ascii.eqb ch "-"%char
      then '(n, rest') ← readUnsigned rest; Some (JNum (- n), rest')
      else '(n, rest') ← readUnsigned text; Some (JNum n, rest')
  | [] => None
  end.

(** The characters of a string up to its closing quote; escapes and control
    characters are refused. *)
Fixpoint readString (text : list ascii) (acc : string)
    : option (string * list ascii) :=
  match text with
  | ch :: rest =>
      if Ascii.eqb ch quote then Some (acc, rest)
      else if Ascii.eqb ch "\"%char || (N_of_ascii ch <? 32) then None
      else readString rest (acc +:+ String ch EmptyString)
  | [] => None
  end.

Fixpoint stripPrefix (word text : list ascii) : option (list ascii) :=
  match word, text with
  | [], _ => Some text
  | w :: word', ch :: rest =>
      if Ascii.eqb w ch then stripPrefix word' rest else None
  | _ :: _, [] => None
  end.

Definition readLiteral (word : string) (value : jsval) (text : list ascii)
    : option (jsval * list ascii) :=
  rest ← stripPrefix (list_ascii_of_string word) text; Some (value, rest).

Fixpoint readValue (fuel : nat) (text : list ascii)
    : option (jsval * list ascii) :=
  match fuel with
  | O => None
  | S fuel' =>
      match text with
      | [] => None
      | ch :: rest =>
          if Ascii.eqb ch "n"%char then readLiteral "null" JNull text
          else if Ascii.eqb ch "t"%char then readLiteral "true" (JBool true) text
          else if Ascii.eqb ch "f"%char then readLiteral "false" (JBool false) text
          else if Ascii.eqb ch quote then
            '(str, rest') ← readString rest EmptyString; Some (JStr str, rest')
          else if Ascii.eqb ch "["%char then
            match skipWhitespace rest with
            | ch' :: rest' =>
                if Ascii.eqb ch' "]"%char then Some (JArr [], rest')
                else readElements fuel' (ch' :: rest') []
            | [] => None
            end
          else if Ascii.eqb ch "{"%char then
            match skipWhitespace rest with
            | ch' :: rest' =>
                if Ascii.eqb ch' "}"%char then Some (JObj ∅, rest')
                else readMembers fuel' (ch' :: rest') ∅
            | [] => None
            end
          else readNumber text
      end
  end
with readElements (fuel : nat) (text : list ascii) (acc : list jsval)
    : option (jsval * list ascii) :=
  match fuel with
  | O => None
  | S fuel' =>
      '(value, rest) ← readValue fuel' text;
      match skipWhitespace rest with
      | ch :: rest' =>
          if Ascii.eqb ch ","%char
          then readElements fuel' (skipWhitespace rest') (acc ++ [value])
          else if Ascii.eqb ch "]"%char then Some (JArr (acc ++ [value]), rest')
          else None
      | [] => None
      end
  end
with readMembers (fuel : nat) (text : list ascii) (acc : gmap string jsval)
    : option (jsval * list ascii) :=
  match fuel with
  | O => None
  | S fuel' =>
      match text with
      | ch :: rest =>
          if Ascii.eqb ch quote then
            '(key, rest) ← readString rest EmptyString;
            match skipWhitespace rest with
            | colon :: rest =>
                if Ascii.eqb colon ":"%char then
                  '(value, rest) ← readValue fuel' (skipWhitespace rest);
                  match skipWhitespace rest with
                  | ch' :: rest' =>
                      if Ascii.eqb ch' ","%char
                      then readMembers fuel' (skipWhitespace rest')
                             (<[key := value]> acc)
                      else if Ascii.eqb ch' "}"%char
                      then Some (JObj (<[key := value]> acc), rest')
                      else None
                  | [] => None
                  end
                else None
            | [] => None
            end
          else None
      | [] => None
      end
  end.

Definition parse (text : string) : option jsval :=
  let chars := list_ascii_of_string text in
  '(value, rest) ← readValue (2 * List.length chars + 2)
                     (skipWhitespace chars);
  match skipWhitespace rest with
  | [] => Some value
  | _ :: _ => None
  end.

End Json.

(** Sample tiles.  The feature table text is written with ['] where the
    tile has a double quote. *)
Module Sample.

Definition json (text : string) : string :=
  string_of_list_ascii
    (List.map (λ ch, if Ascii.eqb ch "'"%char then Json.quote else ch)
       (list_ascii_of_string text)).

Definition byteOfN (n : N) : byte :=
  default "000"%byte (Byte.of_N (n mod 256)).

Definition uint32le (n : N) : list byte :=
  [byteOfN n; byteOfN (N.shiftr n 8); byteOfN (N.shiftr n 16);
   byteOfN (N.shiftr n 24)].

(** A tile: the magic, the four header fields, the feature table text and
    the feature table binary. *)
Definition tileWith (magic : string) (version : N)
    (featureTable : string) (binary : list byte) : ArrayBuffer :=
  let text := list_byte_of_string featureTable in
  list_byte_of_string magic ++ uint32le version ++
  uint32le (N.of_nat (20 + List.length text + List.length binary)) ++
  uint32le (N.of_nat (List.length text)) ++
  uint32le (N.of_nat (List.length binary)) ++
  text ++ binary.

Definition tile (featureTable : string) (binary : list byte) : ArrayBuffer :=
  tileWith "pnts" 1 (json featureTable) binary.

Definition owner : Cesium3DTile :=
  {| distanceToCamera := 10;
     requestServer := "localhost";
     contentBoundingSphere := {| center := (0, 0, 0)%Q; radius := 1 |} |}.

Definition content : Points3DTileContent :=
  Points3DTileContent_new owner "points.pnts".

Definition world : World := mkWorld content [].

(** One point with float positions, given inline. *)
Definition floatTile : ArrayBuffer :=
  tile "{'POINTS_LENGTH':1,'POSITION':[0,0,0]}" [].

(** The header [initialize] reads from [floatTile]. *)
Definition floatHeader : Header :=
  {| version := 1;
     featureTableJSONByteLength := 38;
     featureTableBinaryByteLength := 0;
     featureTableJSONByteOffset := 20;
     featureTableString := json "{'POINTS_LENGTH':1,'POSITION':[0,0,0]}";
     featureTableJSON :=
       JObj (<["POINTS_LENGTH" := JNum 1]>
            (<["POSITION" := JArr [JNum 0; JNum 0; JNum 0]]> ∅));
     featureTableBinaryByteOffset := 58;
     featureTableBinary := [];
     endByteOffset := 58 |}.

(** Two points with float positions. *)
Definition floatTile2 : ArrayBuffer :=
  tile "{'POSITION':[1,2,3,4,5,6],'POINTS_LENGTH':2}" [].

(** Only the point count: no position data. *)
Definition bareTile : ArrayBuffer :=
  tile "{'POINTS_LENGTH':1}" [].

(** The header [initialize] reads from [bareTile], and the accessor with the
    point count. *)
Definition bareHeader : Header :=
  {| version := 1;
     featureTableJSONByteLength := 19;
     featureTableBinaryByteLength := 0;
     featureTableJSONByteOffset := 20;
     featureTableString := json "{'POINTS_LENGTH':1}";
     featureTableJSON := JObj (<["POINTS_LENGTH" := JNum 1]> ∅);
     featureTableBinaryByteOffset := 39;
     featureTableBinary := [];
     endByteOffset := 39 |}.

Definition bareResources : Cesium3DTileFeatureTableResources * jsval :=
  (mkFeatureTableResources (featureTableJSON bareHeader) [] (JNum 1), JNum 1).

(** Both position keys and no quantization scale. *)
Definition bothPositionsTile : ArrayBuffer :=
  tile "{'POINTS_LENGTH':1,'POSITION':[0,0,0],'POSITION_QUANTIZED':[0,0,0]}" [].

(** Three points with RGB colors in the binary blob. *)
Definition rgbTile : ArrayBuffer :=
  tile "{'POINTS_LENGTH':3,'POSITION':{'byteOffset':0},'RGB':{'byteOffset':36}}"
       (replicate 45 "000"%byte).

(** The feature table of [rgbTile] and the accessor over it. *)
Definition rgbTable : gmap string jsval :=
  <["POINTS_LENGTH" := JNum 3]>
    (<["POSITION" := JObj (<["byteOffset" := JNum 0]> ∅)]>
       (<["RGB" := JObj (<["byteOffset" := JNum 36]> ∅)]> ∅)).

Definition rgbResources : Cesium3DTileFeatureTableResources :=
  mkFeatureTableResources (JObj rgbTable) (replicate 45 "000"%byte) (JNum 3).

(** Quantized positions with their scale, RGBA colors, packed normals. *)
Definition quantizedTile : ArrayBuffer :=
  tile ("{'POINTS_LENGTH':1,'POSITION_QUANTIZED':{'byteOffset':0}," +:+
        "'QUANTIZED_VOLUME_SCALE':[1,1,1],'RGBA':{'byteOffset':6}," +:+
        "'NORMAL_OCT16P':{'byteOffset':10}}")
       (replicate 12 "000"%byte).

End Sample.

(** ** Reading shader text

    What it means for shader text to be consistent: every name it uses is a
    keyword, a built-in, or was declared earlier in the text. *)
Module Glsl.

Inductive token : Type :=
  | Ident (name : string)
  | Member (name : string)
  | Number (digits : string)
  | Symbol (ch : ascii).

Definition isDigit (ch : ascii) : bool :=
  let n := N_of_ascii ch in (48 <=? n) && (n <=? 57).

Definition isLetter (ch : ascii) : bool :=
  let n := N_of_ascii ch in
  ((65 <=? n) && (n <=? 90)) || ((97 <=? n) && (n <=? 122)) || (n =? 95).

Definition isBlank (ch : ascii) : bool :=
  Ascii.eqb ch " "%char || Ascii.eqb ch "010"%char.

(** The token a finished word stands for: a number when it starts with a
    digit, a member selection when it follows a dot, else an identifier. *)
Definition wordToken (afterDot : bool) (word : string) : list token :=
  match word with
  | EmptyString => []
  | String ch _ =>
      if isDigit ch then [Number word]
      else if afterDot then [Member word]
      else [Ident word]
  end.

Fixpoint scan (text : list ascii) (afterDot : bool) (word : string)
    : list token :=
  match text with
  | [] => wordToken afterDot word
  | ch :: rest =>
      if isLetter ch || isDigit ch
      then scan rest afterDot (word +:+ String ch EmptyString)
      else
        wordToken afterDot word ++
        (if Ascii.eqb ch "."%char then scan rest true EmptyString
         else if isBlank ch then scan rest false EmptyString
         else Symbol ch :: scan rest false EmptyString)
  end.

Definition tokens (source : string) : list token :=
  scan (list_ascii_of_string source) false EmptyString.

Definition member (name : string) (names : list string) : bool :=
  existsb (String.eqb name) names.

Definition qualifiers : list string := ["attribute"; "uniform"; "varying"].
Definition typeNames : list string := ["void"; "float"; "vec2"; "vec3"; "vec4"].

(** The built-in variables and functions of the shading language the source
    uses, and the names the renderer supplies ([czm_...]). *)
Definition builtins : list string :=
  ["gl_Position"; "gl_PointSize"; "gl_FragColor"; "max"; "dot"].

Definition isBuiltin (name : string) : bool :=
  member name builtins || String.prefix "czm_" name.

(** One pass over the tokens: a type name followed by an identifier declares
    it; any other identifier must be known by then. *)
Fixpoint check (toks : list token) (declared undeclared : list string)
    : list string * list string :=
  match toks with
  | Ident t :: rest =>
      if member t typeNames then
        match rest with
        | Ident name :: rest' => check rest' (declared ++ [name]) undeclared
        | _ => check rest declared undeclared
        end
      else if member t qualifiers || isBuiltin t || member t declared
      then check rest declared undeclared
      else check rest declared (undeclared ++ [t])
  | _ :: rest => check rest declared undeclared
  | [] => (declared, undeclared)
  end.

(** The names the text declares, and the names it uses without declaring. *)
Definition declared (source : string) : list string :=
  fst (check (tokens source) [] []).

Definition undeclared (source : string) : list string :=
  snd (check (tokens source) [] []).

Definition consistent (source : string) : Prop :=
  undeclared source = [].

(** The names declared [uniform]. *)
Fixpoint uniformsOf (toks : list token) : list string :=
  match toks with
  | Ident q :: rest =>
      match rest with
      | Ident _ :: Ident name :: _ =>
          if String.eqb q "uniform" then name :: uniformsOf rest
          else uniformsOf rest
      | _ => uniformsOf rest
      end
  | _ :: rest => uniformsOf rest
  | [] => []
  end.

Definition uniforms (source : string) : list string :=
  uniformsOf (tokens source).

(** The tokens up to the next semicolon. *)
Fixpoint upToSemicolon (toks : list token) : list token :=
  match toks with
  | Symbol ch :: rest =>
      if Ascii.eqb ch ";"%char then [] else Symbol ch :: upToSemicolon rest
  | t :: rest => t :: upToSemicolon rest
  | [] => []
  end.

(** The right-hand side of the assignment [target = ...;]. *)
Fixpoint assignedTo (target : string) (toks : list token) : list token :=
  match toks with
  | Ident name :: rest =>
      match rest with
      | Symbol ch :: rest' =>
          if String.eqb name target && Ascii.eqb ch "="%char
          then upToSemicolon rest'
          else assignedTo target rest
      | _ => assignedTo target rest
      end
  | _ :: rest => assignedTo target rest
  | [] => []
  end.

(** Whether [text] occurs in [source]. *)
Definition occurs (text source : string) : bool :=
  match String.index 0 text source with
  | Some _ => true
  | None => false
  end.

End Glsl.

(** The part of the flag tuple that decides which attributes are declared and
    how they are decoded: the color width counts only when there are colors,
    the normal packing only when there are normals. *)
Definition attributeRelevant (f : VariantFlags)
    : bool * bool * bool * bool * bool :=
  (isQuantized f, hasColors f, hasColors f && isTranslucent f,
   hasNormals f, hasNormals f && isOctEncoded16P f).

(** The same, read back from vertex shader text. *)
Definition variantOfSource (vs : string) : bool * bool * bool * bool * bool :=
  (Glsl.occurs "uniform vec3 u_quantizedVolumeScale;" vs,
   Glsl.occurs " a_color;" vs,
   Glsl.occurs "attribute vec4 a_color;" vs,
   Glsl.occurs " a_normal;" vs,
   Glsl.occurs "attribute vec2 a_normal;" vs).

(** The flag tuple with the two dependent flags cleared where they do not
    count. *)
Definition normalizeFlags (f : VariantFlags) : VariantFlags :=
  mkFlags (isQuantized f) (hasColors f) (hasColors f && isTranslucent f)
          (hasNormals f) (hasNormals f && isOctEncoded16P f).

(** Whether an attribute holds plain float data. *)
Definition isFloatData (a : VertexAttribute) : bool :=
  match componentDatatype a with
  | Some FLOAT => true
  | _ => false
  end.

(** [defined(table.key)] for a key of the feature table. *)
Definition present (table : jsval) (key : string) : bool :=
  match getProperty table key with
  | Normal value => defined value
  | Throw _ => false
  end.

(** The world [assemble] leaves when the global [context] exists. *)
Definition assembled (ctx : Context) (f : VariantFlags)
    (positions colors normals pointsLength : jsval) (w : World) : World :=
  let vertexArray :=
    {| va_context := ctx;
       va_attributes := buildAttributes f positions colors normals |} in
  let program :=
    {| sp_context := ctx;
       vertexShaderSource := vertexShader f;
       fragmentShaderSource := fragmentShader;
       attributeLocations := buildAttributeLocations f |} in
  let rs := buildRenderState (isTranslucent f) in
  let drawCommand :=
    {| boundingVolume := Some (contentBoundingSphere (_tile (this w)));
       cull := false;
       modelMatrix := Some Matrix4_new;
       primitiveType := Some POINTS;
       vertexArray := Some vertexArray;
       count := pointsLength;
       shaderProgram := Some program;
       uniformMap := buildUniformMap (isQuantized f);
       renderState := Some rs;
       pass := choosePass (isTranslucent f);
       owner_is_this := true |} in
  let c := this w in
  {| this :=
       mkContent (_url c) (_tile c) (_constantColor c) (_pointSize c)
         (_quantizedVolumeScale c) drawCommand READY
         (deferred_resolve (contentReadyToProcessPromise c))
         (deferred_resolve (readyPromise c))
         (batchTableResources c) (featurePropertiesDirty c) (destroyed c);
     gpu := gpu w ++ [CreatedVertexArray vertexArray;
                      CreatedShaderProgram program;
                      CreatedRenderState rs;
                      CreatedDrawCommand drawCommand] |}.

(** The four conditions on a tile under which the header and the point count
    are refused: a wrong magic, a version field other than 1, a feature table
    length field of 0, or a decoded feature table (an object) without the
    property [POINTS_LENGTH]. *)
Definition headerViolation (JSON_parse : string → option jsval)
    (arrayBuffer : ArrayBuffer) (byteOffset : option N) : Prop :=
  let b := default 0 byteOffset in
  getMagic arrayBuffer b ≠ "pnts" ∨
  (∃ v, getUint32 arrayBuffer (b + 4) true = Normal v ∧ v ≠ 1) ∨
  getUint32 arrayBuffer (b + 12) true = Normal 0 ∨
  (∃ h properties,
      readHeader JSON_parse arrayBuffer byteOffset = Normal h ∧
      featureTableJSON h = JObj properties ∧
      properties !! "POINTS_LENGTH" = None).

(** The flag tuple [initialize] resolves for a buffer (line 268), when it
    gets that far. *)
Definition variantOfRun (JSON_parse : string → option jsval)
    (arrayBuffer : ArrayBuffer) (byteOffset : option N) (w : World)
    : option VariantFlags :=
  match readHeader JSON_parse arrayBuffer byteOffset with
  | Normal h =>
      match resolveVariant h w with
      | (Normal (f, _, _), _) => Some f
      | (Throw _, _) => None
      end
  | Throw _ => None
  end.

(** The vertex and fragment shader text of the content's draw command. *)
Definition programSources (w : World) : option (string * string) :=
  match shaderProgram (_drawCommand (this w)) with
  | Some program =>
      Some (vertexShaderSource program, fragmentShaderSource program)
  | None => None
  end.

(** The four bytes of [view] at [byteOffset] are the little-endian digits of
    [v]: least significant byte first. *)
Definition littleEndianAt (view : ArrayBuffer) (byteOffset v : N) : Prop :=
  ∃ b0 b1 b2 b3,
    take 4 (drop (N.to_nat byteOffset) view) = [b0; b1; b2; b3] ∧
    v = Byte.to_N b0 + 256 * Byte.to_N b1 + 65536 * Byte.to_N b2
        + 16777216 * Byte.to_N b3.

(** ** Further definitions: the header at an offset, failed runs, update,
       shader declarations *)

(** A header with its offsets moved by [b]. *)
Definition shiftHeader (b : N) (h : Header) : Header :=
  {| version := version h;
     featureTableJSONByteLength := featureTableJSONByteLength h;
     featureTableBinaryByteLength := featureTableBinaryByteLength h;
     featureTableJSONByteOffset := b + featureTableJSONByteOffset h;
     featureTableString := featureTableString h;
     featureTableJSON := featureTableJSON h;
     featureTableBinaryByteOffset := b + featureTableBinaryByteOffset h;
     featureTableBinary := featureTableBinary h;
     endByteOffset := b + endByteOffset h |}.

(** Two states of a content that differ at most in the constant color and
    the quantization scale. *)
Definition differOnlyInColorAndScale (c c' : Points3DTileContent) : Prop :=
  _url c' = _url c ∧ _tile c' = _tile c ∧ _pointSize c' = _pointSize c ∧
  _drawCommand c' = _drawCommand c ∧ state c' = state c ∧
  contentReadyToProcessPromise c' = contentReadyToProcessPromise c ∧
  readyPromise c' = readyPromise c ∧
  batchTableResources c' = batchTableResources c ∧
  featurePropertiesDirty c' = featurePropertiesDirty c ∧
  destroyed c' = destroyed c.

(** More tiles to run: the header [initialize] reads from
    [Sample.quantizedTile], and the world its variant resolution leaves. *)
Module Sample2.

Definition quantizedTable : gmap string jsval :=
  <["POINTS_LENGTH" := JNum 1]>
    (<["POSITION_QUANTIZED" := JObj (<["byteOffset" := JNum 0]> ∅)]>
    (<["QUANTIZED_VOLUME_SCALE" := JArr [JNum 1; JNum 1; JNum 1]]>
    (<["RGBA" := JObj (<["byteOffset" := JNum 6]> ∅)]>
    (<["NORMAL_OCT16P" := JObj (<["byteOffset" := JNum 10]> ∅)]> ∅)))).

Definition quantizedHeader : Header :=
  {| version := 1;
     featureTableJSONByteLength := 148;
     featureTableBinaryByteLength := 12;
     featureTableJSONByteOffset := 20;
     featureTableString :=
       Sample.json
         ("{'POINTS_LENGTH':1,'POSITION_QUANTIZED':{'byteOffset':0}," +:+
          "'QUANTIZED_VOLUME_SCALE':[1,1,1],'RGBA':{'byteOffset':6}," +:+
          "'NORMAL_OCT16P':{'byteOffset':10}}");
     featureTableJSON := JObj quantizedTable;
     featureTableBinaryByteOffset := 168;
     featureTableBinary := replicate 12 "000"%byte;
     endByteOffset := 180 |}.

Definition quantizedResolved : World :=
  mkWorld (set_quantizedVolumeScale (JArr [JNum 1; JNum 1; JNum 1])
             Sample.content) [].

(** One point tinted by a constant color: red at half opacity, stored
    after the twelve position bytes. *)
Definition tintedTable : gmap string jsval :=
  <["POINTS_LENGTH" := JNum 1]>
    (<["POSITION" := JObj (<["byteOffset" := JNum 0]> ∅)]>
    (<["CONSTANT_COLOR" := JObj (<["byteOffset" := JNum 12]> ∅)]> ∅)).

Definition tintedResources : Cesium3DTileFeatureTableResources :=
  mkFeatureTableResources (JObj tintedTable)
    (replicate 12 "000"%byte ++ ["255"; "000"; "000"; "128"]%byte) (JNum 1).

(** The tile of that point: a constant color and no per-point colors. *)
Definition tintedTile : ArrayBuffer :=
  Sample.tile
    ("{'POINTS_LENGTH':1,'POSITION':{'byteOffset':0}," +:+
     "'CONSTANT_COLOR':{'byteOffset':12}}")
    (replicate 12 "000"%byte ++ ["255"; "000"; "000"; "128"]%byte).

(** Matrices stored column by column, to run [update] on: the rotation part
    of a matrix, the matrix of a rotation and a translation, the identity. *)
Definition entry (m : list Q) (i : nat) : Q := default 0%Q (m !! i).

Definition getRotation (m : list Q) : list Q :=
  [entry m 0; entry m 1; entry m 2;
   entry m 4; entry m 5; entry m 6;
   entry m 8; entry m 9; entry m 10].

Definition fromRotationTranslation (r : list Q) (t : Q * Q * Q) : list Q :=
  let '(x, y, z) := t in
  [entry r 0; entry r 1; entry r 2; 0%Q;
   entry r 3; entry r 4; entry r 5; 0%Q;
   entry r 6; entry r 7; entry r 8; 0%Q;
   x; y; z; 1%Q].

Definition identity : list Q :=
  [1; 0; 0; 0;  0; 1; 0; 0;  0; 0; 1; 0;  0; 0; 0; 1]%Q.

End Sample2.

(** The attributes a shader text declares, as (type, name), in the order of
    their declarations. *)
Fixpoint attributeDeclarations (toks : list Glsl.token) : list (string * string) :=
  match toks with
  | Glsl.Ident q :: rest =>
      match rest with
      | Glsl.Ident ty :: Glsl.Ident name :: _ =>
          if String.eqb q "attribute"
          then (ty, name) :: attributeDeclarations rest
          else attributeDeclarations rest
      | _ => attributeDeclarations rest
      end
  | _ :: rest => attributeDeclarations rest
  | [] => []
  end.

(** The number of components of a shader type. *)
Definition vectorWidth (ty : string) : option N :=
  if String.eqb ty "float" then Some 1
  else if String.eqb ty "vec2" then Some 2
  else if String.eqb ty "vec3" then Some 3
  else if String.eqb ty "vec4" then Some 4
  else None.

(** Why the ready promise is rejected when the promise of a request settles,
    if it is: the fetch failed, the content was destroyed meanwhile, or
    [initialize] threw. *)
Definition rejectionOf (JSON_parse : string → option jsval)
    (context : option Context) (outcome : fetchOutcome) (w : World)
    : option rejection :=
  match outcome with
  | FetchFailed why => Some why
  | Fetched arrayBuffer =>
      if isDestroyed (this w) then Some (Reason "tileset is destroyed")
      else match fst (initialize JSON_parse context arrayBuffer None w) with
           | Normal _ => None
           | Throw e => Some (Exception e)
           end
  end.

(** ** Renderer constructors that throw *)

(** Modelled from the spec: the constructors of the renderer ([VertexArray],
    [ShaderProgram.fromCache], [RenderState.fromCache], [DrawCommand]), which
    are not part of this file, may fail ("GPU object creation failure").
    [initialize] calls them with no [try] around them, so a throw of theirs
    leaves [initialize] at the call.  [fault] tells, for an object about to
    be made, whether its constructor throws and what; an object whose
    constructor throws is not made. *)
Definition RendererFaults : Type := GpuResource → option error.

(** The renderer whose constructors never throw. *)
Definition reliable : RendererFaults := λ _, None.

Definition createdWith (fault : RendererFaults) (r : GpuResource) : JS unit :=
  match fault r with
  | Some e => throw e
  | None => created r
  end.

(** Lines 270-478 again, with constructors that may throw: [assemble] is
    [assembleWith reliable]. *)
Definition assembleWith (fault : RendererFaults) (context : option Context)
    (f : VariantFlags) (positions colors normals : jsval)
    (pointsLength : jsval) : JS unit :=
  let vs := vertexShader f in
  let fs := fragmentShader in
  let uniformMap := buildUniformMap (isQuantized f) in
  let attributes := buildAttributes f positions colors normals in
  ctx ← liftC (readContext context);
  let vertexArray := {| va_context := ctx; va_attributes := attributes |} in
  createdWith fault (CreatedVertexArray vertexArray);;
  let attributeLocations := buildAttributeLocations f in
  ctx ← liftC (readContext context);
  let shaderProgram := {| sp_context := ctx;
                          vertexShaderSource := vs;
                          fragmentShaderSource := fs;
                          attributeLocations := attributeLocations |} in
  createdWith fault (CreatedShaderProgram shaderProgram);;
  let rs := buildRenderState (isTranslucent f) in
  that ← getThis;
  createdWith fault (CreatedRenderState rs);;
  let drawCommand :=
    {| boundingVolume := Some (contentBoundingSphere (_tile that));
       cull := false;
       modelMatrix := Some Matrix4_new;
       primitiveType := Some POINTS;
       vertexArray := Some vertexArray;
       count := pointsLength;
       shaderProgram := Some shaderProgram;
       uniformMap := uniformMap;
       renderState := Some rs;
       pass := choosePass (isTranslucent f);
       owner_is_this := true |} in
  createdWith fault (CreatedDrawCommand drawCommand);;
  modifyThis (set_drawCommand drawCommand);;
  modifyThis (set_state PROCESSING);;
  modifyThis (λ c, set_contentReadyToProcessPromise
                     (deferred_resolve (contentReadyToProcessPromise c)) c);;
  modifyThis (set_state READY);;
  modifyThis (λ c, set_readyPromise (deferred_resolve (readyPromise c)) c).

Definition initializeWith (fault : RendererFaults)
    (JSON_parse : string → option jsval) (context : option Context)
    (arrayBuffer : ArrayBuffer) (byteOffset : option N) : JS unit :=
  h ← liftC (readHeader JSON_parse arrayBuffer byteOffset);
  '(f, (positions, colors, normals), pointsLength) ← resolveVariant h;
  assembleWith fault context f positions colors normals pointsLength.

(** The function given to [then] (lines 142-147). *)
Definition onFetchedWith (fault : RendererFaults)
    (JSON_parse : string → option jsval) (context : option Context)
    (arrayBuffer : ArrayBuffer) : JS handedOn :=
  that ← getThis;
  if isDestroyed that
  then mret (RejectWith (Reason "tileset is destroyed"))
  else initializeWith fault JSON_parse context arrayBuffer None;; mret Fulfil.

(** [promise.then(onFetched).otherwise(onFailure)] when [promise] settles. *)
Definition requestSettlesWith (fault : RendererFaults)
    (JSON_parse : string → option jsval) (context : option Context)
    (outcome : fetchOutcome) : JS unit :=
  λ w,
    match outcome with
    | FetchFailed why => onFailure why w
    | Fetched arrayBuffer =>
        match onFetchedWith fault JSON_parse context arrayBuffer w with
        | (Normal Fulfil, w') => (Normal tt, w')
        | (Normal (RejectWith why), w') => onFailure why w'
        | (Throw e, w') => onFailure (Exception e) w'
        end
    end.

(** Why the ready promise is rejected when the promise of a request settles,
    if it is. *)
Definition rejectionOfWith (fault : RendererFaults)
    (JSON_parse : string → option jsval)
    (context : option Context) (outcome : fetchOutcome) (w : World)
    : option rejection :=
  match outcome with
  | FetchFailed why => Some why
  | Fetched arrayBuffer =>
      if isDestroyed (this w) then Some (Reason "tileset is destroyed")
      else match fst (initializeWith fault JSON_parse context arrayBuffer
                        None w) with
           | Normal _ => None
           | Throw e => Some (Exception e)
           end
  end.

(** The objects [assembleWith] asks the renderer for, in the order of the
    calls. *)
Definition vertexArrayOf (ctx : Context) (f : VariantFlags)
    (positions colors normals : jsval) : VertexArray :=
  {| va_context := ctx;
     va_attributes := buildAttributes f positions colors normals |}.

Definition programOf (ctx : Context) (f : VariantFlags) : ShaderProgram :=
  {| sp_context := ctx;
     vertexShaderSource := vertexShader f;
     fragmentShaderSource := fragmentShader;
     attributeLocations := buildAttributeLocations f |}.

Definition drawCommandOf (ctx : Context) (f : VariantFlags)
    (positions colors normals pointsLength : jsval)
    (that : Points3DTileContent) : DrawCommand :=
  {| boundingVolume := Some (contentBoundingSphere (_tile that));
     cull := false;
     modelMatrix := Some Matrix4_new;
     primitiveType := Some POINTS;
     vertexArray := Some (vertexArrayOf ctx f positions colors normals);
     count := pointsLength;
     shaderProgram := Some (programOf ctx f);
     uniformMap := buildUniformMap (isQuantized f);
     renderState := Some (buildRenderState (isTranslucent f));
     pass := choosePass (isTranslucent f);
     owner_is_this := true |}.

Definition requestedObjects (ctx : Context) (f : VariantFlags)
    (positions colors normals pointsLength : jsval)
    (that : Points3DTileContent) : list GpuResource :=
  [CreatedVertexArray (vertexArrayOf ctx f positions colors normals);
   CreatedShaderProgram (programOf ctx f);
   CreatedRenderState (buildRenderState (isTranslucent f));
   CreatedDrawCommand
     (drawCommandOf ctx f positions colors normals pointsLength that)].

(** A renderer to run on: its shader programs fail to compile. *)
Module Faulty.


End Faulty.

(** ** update (lines 498-509) *)

Definition Matrix3 : Type := list Q.

Definition set_modelMatrix (m : option Matrix4) (d : DrawCommand) : DrawCommand :=
  mkDrawCommand (boundingVolume d) (cull d) m (primitiveType d)
    (vertexArray d) (count d) (shaderProgram d) (uniformMap d)
    (renderState d) (pass d) (owner_is_this d).

Section Update.

(** Modelled from the spec: [Matrix4.getRotation(matrix, result)] and
    [Matrix4.fromRotationTranslation(rotation, translation, result)] of
    [../Core/Matrix4], which are not part of this file.  They are taken as
    they come: the first answers the rotation part of a matrix, the second
    the matrix made of a rotation and a translation.  Like [Color.fromBytes]
    at line 242, the second writes its answer into the [result] object it is
    given and makes a new object only when it is given none. *)
Variable getRotation : Matrix4 → Matrix3.
Variable fromRotationTranslation : Matrix3 → Q * Q * Q → Matrix4.

(** [update(tileset, frameState)]: neither argument is read.  [computedTransform]
    is the transform of the owning tile at the time of the call.  The answer
    of [fromRotationTranslation] is not assigned: it reaches the draw command
    only by being written into the matrix the draw command already has. *)
Definition update (computedTransform : Matrix4) (c : Points3DTileContent)
    : Points3DTileContent :=
  let boundingSphere := contentBoundingSphere (_tile c) in
  let translation := center boundingSphere in
  let rotation := getRotation computedTransform in
  match modelMatrix (_drawCommand c) with
  | Some _ =>
      set_drawCommand
        (set_modelMatrix (Some (fromRotationTranslation rotation translation))
           (_drawCommand c)) c
  | None => c
  end.

End Update.

(** The key of the feature table that feeds the vertex attribute at a slot,
    given the flags: the key that won the resolution. *)
Definition requestedKey (f : VariantFlags) (slot : N) : string :=
  if slot =? 0 then
    (if isQuantized f then "POSITION_QUANTIZED" else "POSITION")
  else if slot =? 1 then
    (if isTranslucent f then "RGBA" else "RGB")
  else
    (if isOctEncoded16P f then "NORMAL_OCT16P" else "NORMAL").

(* ================================================================== *)
(** * Properties *)

Example parse_floatTile_table :
  Json.parse (Sample.json "{'POINTS_LENGTH':1,'POSITION':[0,0,0]}") =
  Some (JObj (<["POINTS_LENGTH" := JNum 1]>
             (<["POSITION" := JArr [JNum 0; JNum 0; JNum 0]]> ∅))).
Proof. vm_compute. reflexivity. Qed.

Example run_floatTile :
  fst (initialize Json.parse (Some TheContext) Sample.floatTile None Sample.world)
  = Normal tt.
Proof. vm_compute. reflexivity. Qed.

(** ** The shader text *)

Ltac each_flag_tuple f :=
  destruct f as [[] [] [] [] []].

Lemma variantOfSource_vertexShader (f : VariantFlags) :
  variantOfSource (vertexShader f) = attributeRelevant f.
Proof. each_flag_tuple f; vm_compute; reflexivity. Qed.

Lemma vertexShader_normalizeFlags (f : VariantFlags) :
  vertexShader (normalizeFlags f) = vertexShader f.
Proof. each_flag_tuple f; reflexivity. Qed.

Lemma normalizeFlags_attributeRelevant (f1 f2 : VariantFlags) :
  attributeRelevant f1 = attributeRelevant f2 →
  normalizeFlags f1 = normalizeFlags f2.
Proof.
  unfold attributeRelevant, normalizeFlags. intros H.
  injection H as -> -> -> -> ->. reflexivity.
Qed.

Lemma vertexShader_injective (f1 f2 : VariantFlags) :
  vertexShader f1 = vertexShader f2 ↔
  attributeRelevant f1 = attributeRelevant f2.
Proof.
  split.
  - intros H. rewrite <- !variantOfSource_vertexShader. by rewrite H.
  - intros H%normalizeFlags_attributeRelevant.
    rewrite <- (vertexShader_normalizeFlags f1), <- (vertexShader_normalizeFlags f2).
    by rewrite H.
Qed.

(** C7 (the source departs from the claim).  For every flag tuple the vertex
    shader assigns [gl_PointSize] from the name [pointSize], which the shader
    text never declares: it is the one name used without a declaration.  The
    point-size uniform is declared as [u_pointSize] and is not what is
    assigned.  The fragment shader is consistent. *)
Theorem C7_point_size_name_not_declared (f : VariantFlags) :
  Glsl.undeclared (vertexShader f) = ["pointSize"] ∧
  Glsl.assignedTo "gl_PointSize" (Glsl.tokens (vertexShader f))
    = [Glsl.Ident "pointSize"] ∧
  Glsl.member "u_pointSize" (Glsl.uniforms (vertexShader f)) = true ∧
  Glsl.member "pointSize" (Glsl.declared (vertexShader f)) = false ∧
  Glsl.consistent fragmentShader.
Proof.
  each_flag_tuple f; vm_compute; repeat split; reflexivity.
Qed.

(** ** The vertex layout *)

(** C5 (as the source has it).  The attribute list holds the position at
    slot 0, then the color at slot 1 exactly when there are per-point colors,
    then the normal at slot 2 exactly when there are normals; each entry takes
    its own buffer and has byte offset 0 and stride 0.  The normalize flag is
    set for quantized positions and for colors; it is clear for float positions
    and for normals in both encodings, so float data is never normalized. *)
Theorem C5_vertex_attribute_layout
    (f : VariantFlags) (positions colors normals : jsval) :
  let attributes := buildAttributes f positions colors normals in
  List.map index attributes =
    [0] ++ (if hasColors f then [1] else []) ++ (if hasNormals f then [2] else []) ∧
  List.map vertexBuffer attributes =
    [positions] ++ (if hasColors f then [colors] else []) ++
    (if hasNormals f then [normals] else []) ∧
  Forall (λ a, offsetInBytes a = 0 ∧ strideInBytes a = 0) attributes ∧
  Forall (λ a, normalize a =
               if index a =? 0 then isQuantized f else index a =? 1) attributes ∧
  Forall (λ a, isFloatData a && normalize a = false) attributes.
Proof.
  each_flag_tuple f; cbn; repeat split; repeat constructor.
Qed.

(** C5, the counterexample: with packed normals the normal attribute (two
    unsigned bytes at slot 2) has its normalize flag clear. *)
Lemma C5_packed_normal_not_normalized :
  let f := mkFlags false false false true true in
  let normals := JTypedArray (Some UNSIGNED_BYTE) (JNum 12) (JNum 2) in
  let positions := JTypedArray (Some FLOAT) (JNum 0) (JNum 3) in
  ∃ a, buildAttributes f positions JUndefined normals !! 1%nat = Some a ∧
       vertexBuffer a = normals ∧
       componentDatatype a = Some UNSIGNED_BYTE ∧
       componentsPerAttribute a = 2 ∧
       normalize a = false.
Proof. cbn. eexists. split; [reflexivity|]. cbn. repeat split. Qed.

(** ** Running the statements *)

Lemma JS_bind_Normal {A B : Type} (m : JS A) (k : A → JS B) w b w' :
  (m ≫= k) w = (Normal b, w') →
  ∃ a w1, m w = (Normal a, w1) ∧ k a w1 = (Normal b, w').
Proof.
  unfold mbind, JS_bind. destruct (m w) as [[a|e] w1]; intros H.
  - eauto.
  - discriminate.
Qed.

Lemma JS_bind_Throw {A B : Type} (m : JS A) (k : A → JS B) w e w' :
  m w = (Throw e, w') → (m ≫= k) w = (Throw e, w').
Proof. unfold mbind, JS_bind. by intros ->. Qed.

Lemma JS_bind_step {A B : Type} (m : JS A) (k : A → JS B) w a w1 :
  m w = (Normal a, w1) → (m ≫= k) w = k a w1.
Proof. unfold mbind, JS_bind. by intros ->. Qed.

Lemma liftC_Normal {A : Type} (c : completion A) w a w' :
  liftC c w = (Normal a, w') → c = Normal a ∧ w' = w.
Proof. unfold liftC. by intros [= -> ->]. Qed.

Lemma completion_bind_Normal {A B : Type} (m : completion A)
    (k : A → completion B) b :
  m ≫= k = Normal b → ∃ a, m = Normal a ∧ k a = Normal b.
Proof. destruct m; cbn; [eauto | discriminate]. Qed.

Lemma throwIfC_Normal (cond : bool) (e : error) (u : unit) :
  throwIfC cond e = Normal u → cond = false.
Proof. by destruct cond. Qed.

Lemma throwIf_Normal (cond : bool) (e : error) w (u : unit) w' :
  throwIf cond e w = (Normal u, w') → cond = false ∧ w' = w.
Proof. destruct cond; cbn; [discriminate | by intros [= _ ->]]. Qed.

Lemma assemble_with_context ctx f positions colors normals pointsLength w :
  assemble (Some ctx) f positions colors normals pointsLength w =
  (Normal tt, assembled ctx f positions colors normals pointsLength w).
Proof.
  destruct w as [c g]. unfold assemble, assembled.
  cbv [mbind mret JS_bind JS_ret liftC created getThis modifyThis readContext].
  cbn. rewrite <- !app_assoc. reflexivity.
Qed.

Lemma assemble_without_context f positions colors normals pointsLength w :
  assemble None f positions colors normals pointsLength w =
  (Throw (ReferenceError "context"), w).
Proof. reflexivity. Qed.

Lemma assemble_Normal context f positions colors normals pointsLength w w' :
  assemble context f positions colors normals pointsLength w = (Normal tt, w') →
  ∃ ctx, context = Some ctx ∧
         w' = assembled ctx f positions colors normals pointsLength w.
Proof.
  destruct context as [ctx|].
  - rewrite assemble_with_context. intros [= <-]. eauto.
  - rewrite assemble_without_context. discriminate.
Qed.

(** ** Render state and pass *)

(** C6 (the source departs from the claim).  The assembled render state has
    the depth test enabled, and for a translucent tile it has depth writes off
    and alpha blending on; an opaque tile is put in the opaque pass.  For a
    translucent tile the pass is read from [Pass.isTranslucent], which is not
    a member of [Pass]: the draw command gets no pass at all, not the
    translucent one. *)
Theorem C6_translucent_pass_undefined
    (f : VariantFlags) (positions colors normals pointsLength : jsval)
    (w : World) :
  let w' := snd (assemble (Some TheContext) f positions colors normals
                   pointsLength w) in
  let dc := _drawCommand (this w') in
  renderState dc =
    Some {| depthTest_enabled := Some true;
            depthMask := if isTranslucent f then Some false else None;
            blending := if isTranslucent f then Some ALPHA_BLEND else None |} ∧
  pass dc = (if isTranslucent f then None else Some OPAQUE) ∧
  Pass "TRANSLUCENT" = Some TRANSLUCENT ∧
  Pass "isTranslucent" = None.
Proof.
  rewrite assemble_with_context. cbn.
  destruct (isTranslucent f); repeat split.
Qed.

(** ** The header *)

Ltac completion_inv H :=
  repeat (cbv beta zeta in H;
          match type of H with
          | (_ ≫= _) = Normal _ =>
              let H1 := fresh "Hstep" in
              apply completion_bind_Normal in H as (? & H1 & H)
          end).

Ltac js_unfold :=
  cbv [mbind mret JS_bind JS_ret completion_bind completion_ret
       liftC throw throwIf throwIfC getThis modifyThis created].

Lemma readHeader_Normal JSON_parse arrayBuffer byteOffset h :
  readHeader JSON_parse arrayBuffer byteOffset = Normal h →
  let b := default 0 byteOffset in
  getMagic arrayBuffer b = "pnts" ∧
  getUint32 arrayBuffer (b + 4) true = Normal 1 ∧
  version h = 1 ∧
  getUint32 arrayBuffer (b + 12) true = Normal (featureTableJSONByteLength h) ∧
  featureTableJSONByteLength h ≠ 0 ∧
  getUint32 arrayBuffer (b + 16) true = Normal (featureTableBinaryByteLength h) ∧
  featureTableJSONByteOffset h = b + 20 ∧
  featureTableString h =
    getStringFromTypedArray arrayBuffer (b + 20) (featureTableJSONByteLength h) ∧
  JSON_parse (featureTableString h) = Some (featureTableJSON h) ∧
  featureTableBinaryByteOffset h = b + 20 + featureTableJSONByteLength h ∧
  Uint8Array_view arrayBuffer (b + 20 + featureTableJSONByteLength h)
    (featureTableBinaryByteLength h) = Normal (featureTableBinary h) ∧
  endByteOffset h =
    b + 20 + featureTableJSONByteLength h + featureTableBinaryByteLength h.
Proof.
  intros H b. unfold readHeader in H. fold b in H. unfold sizeOfUint32 in H.
  replace (b + 4 + 4 + 4) with (b + 12) in H by lia.
  replace (b + 12 + 4) with (b + 16) in H by lia.
  replace (b + 16 + 4) with (b + 20) in H by lia.
  completion_inv H.
  apply throwIfC_Normal, negb_false_iff, String.eqb_eq in Hstep.
  apply throwIfC_Normal, negb_false_iff, N.eqb_eq in Hstep1. subst x0.
  apply throwIfC_Normal, N.eqb_neq in Hstep3.
  unfold JSON_parse_completion in Hstep5.
  destruct (JSON_parse _) as [value|] eqn:Hparse; [|discriminate].
  injection Hstep5 as ->. injection H as <-. cbn.
  repeat split; assumption.
Qed.

Lemma getUint32_readable view byteOffset littleEndian :
  (∃ v, getUint32 view byteOffset littleEndian = Normal v) ↔
  (N.to_nat byteOffset + 4 ≤ List.length view)%nat.
Proof.
  unfold getUint32.
  pose proof (length_drop view (N.to_nat byteOffset)) as Hlen.
  destruct (drop (N.to_nat byteOffset) view) as [|b0 [|b1 [|b2 [|b3 rest]]]];
    cbn in Hlen; split.
  all: try (intros [v Hv]; discriminate).
  all: try (intros Hle; lia).
  intros _. destruct littleEndian; eauto.
Qed.

Lemma getUint32_readable_before view byteOffset k littleEndian v :
  getUint32 view (byteOffset + k) littleEndian = Normal v →
  ∃ v', getUint32 view byteOffset littleEndian = Normal v'.
Proof.
  intros H. apply getUint32_readable.
  assert (Hr : ∃ v, getUint32 view (byteOffset + k) littleEndian = Normal v)
    by eauto.
  apply getUint32_readable in Hr. lia.
Qed.

Lemma Uint8Array_view_Normal arrayBuffer byteOffset length view :
  Uint8Array_view arrayBuffer byteOffset length = Normal view →
  view = take (N.to_nat length) (drop (N.to_nat byteOffset) arrayBuffer) ∧
  byteOffset + length ≤ N.of_nat (List.length arrayBuffer) ∧
  N.of_nat (List.length view) = length.
Proof.
  unfold Uint8Array_view.
  destruct (N.ltb_spec (N.of_nat (List.length arrayBuffer)) (byteOffset + length));
    [discriminate|].
  intros [= <-]. repeat split; [assumption|].
  rewrite length_take, length_drop. lia.
Qed.

Lemma lor_mul_pow2_add (a c k : N) :
  a < 2 ^ k → N.lor a (c * 2 ^ k) = a + c * 2 ^ k.
Proof.
  intros Ha.
  assert (Hdisjoint : N.land a (c * 2 ^ k) = 0).
  { apply N.bits_inj_0. intros n. rewrite N.land_spec.
    destruct (N.lt_ge_cases n k) as [Hlt|Hge].
    - rewrite N.mul_pow2_bits_low by exact Hlt. apply andb_false_r.
    - destruct (N.eq_dec a 0) as [->|Hne].
      + rewrite N.bits_0. reflexivity.
      + rewrite (N.bits_above_log2 a n); [reflexivity|].
        apply N.lt_le_trans with k; [|exact Hge].
        apply N.log2_lt_pow2; lia. }
  rewrite <- N.lxor_lor by exact Hdisjoint.
  symmetry. apply N.add_nocarry_lxor. exact Hdisjoint.
Qed.

Lemma byte_to_N_bound (b : byte) : Byte.to_N b < 256.
Proof. pose proof (Byte.to_N_bounded b). lia. Qed.

Lemma getUint32_little_endian view byteOffset v :
  getUint32 view byteOffset true = Normal v →
  littleEndianAt view byteOffset v.
Proof.
  unfold getUint32, littleEndianAt.
  destruct (drop (N.to_nat byteOffset) view) as [|b0 [|b1 [|b2 [|b3 rest]]]];
    try discriminate.
  intros [= <-]. exists b0, b1, b2, b3. split; [reflexivity|].
  pose proof (byte_to_N_bound b0). pose proof (byte_to_N_bound b1).
  pose proof (byte_to_N_bound b2). pose proof (byte_to_N_bound b3).
  rewrite !N.shiftl_mul_pow2.
  rewrite (lor_mul_pow2_add (Byte.to_N b2 * 2 ^ 16) (Byte.to_N b3) 24)
    by (change (2 ^ 16) with 65536; change (2 ^ 24) with 16777216; lia).
  replace (Byte.to_N b2 * 2 ^ 16 + Byte.to_N b3 * 2 ^ 24)
    with ((Byte.to_N b2 + Byte.to_N b3 * 256) * 2 ^ 16)
    by (change (2 ^ 16) with 65536; change (2 ^ 24) with 16777216; lia).
  rewrite (lor_mul_pow2_add (Byte.to_N b1 * 2 ^ 8) _ 16)
    by (change (2 ^ 8) with 256; change (2 ^ 16) with 65536; lia).
  replace (Byte.to_N b1 * 2 ^ 8 + (Byte.to_N b2 + Byte.to_N b3 * 256) * 2 ^ 16)
    with ((Byte.to_N b1 + (Byte.to_N b2 + Byte.to_N b3 * 256) * 256) * 2 ^ 8)
    by (change (2 ^ 8) with 256; change (2 ^ 16) with 65536; lia).
  rewrite (lor_mul_pow2_add (Byte.to_N b0) _ 8)
    by (change (2 ^ 8) with 256; lia).
  change (2 ^ 8) with 256. lia.
Qed.

(** C10 (as the source has it).  The header before the feature table text is
    20 bytes long and little-endian: for every buffer read at starting offset
    [b], the magic is at [b], the version, the length of the feature table
    text and the length of the feature table binary are the little-endian
    words at [b + 4], [b + 12] and [b + 16], the text handed to [JSON.parse]
    is made of the bytes from [b + 20] on, and the feature table binary is the
    run of bytes that starts where the text ends and lies within the
    buffer. *)
Theorem C10_header_is_20_bytes
    (JSON_parse : string → option jsval) (arrayBuffer : ArrayBuffer)
    (byteOffset : option N) (h : Header) :
  readHeader JSON_parse arrayBuffer byteOffset = Normal h →
  let b := default 0 byteOffset in
  getMagic arrayBuffer b = "pnts" ∧
  littleEndianAt arrayBuffer (b + 4) (version h) ∧
  littleEndianAt arrayBuffer (b + 12) (featureTableJSONByteLength h) ∧
  littleEndianAt arrayBuffer (b + 16) (featureTableBinaryByteLength h) ∧
  featureTableJSONByteOffset h = b + 20 ∧
  featureTableString h =
    string_of_list_byte
      (take (N.to_nat (featureTableJSONByteLength h))
            (drop (N.to_nat (b + 20)) arrayBuffer)) ∧
  JSON_parse (featureTableString h) = Some (featureTableJSON h) ∧
  featureTableBinaryByteOffset h =
    featureTableJSONByteOffset h + featureTableJSONByteLength h ∧
  featureTableBinary h =
    take (N.to_nat (featureTableBinaryByteLength h))
         (drop (N.to_nat (featureTableBinaryByteOffset h)) arrayBuffer) ∧
  N.of_nat (List.length (featureTableBinary h)) = featureTableBinaryByteLength h.
Proof.
  intros H b.
  destruct (readHeader_Normal _ _ _ _ H)
    as (Hm & Hv1 & Hv & Hjl & _ & Hbl & Hjo & Hs & Hp & Hbo & Hview & _).
  fold b in Hm, Hv1, Hjl, Hbl, Hjo, Hs, Hbo, Hview.
  apply Uint8Array_view_Normal in Hview as (Hview & _ & Hlen).
  apply getUint32_little_endian in Hv1, Hjl, Hbl.
  rewrite Hjo, Hbo, Hv. repeat split; assumption.
Qed.

(** C10, the counterexample: in a tile read at offset 0 the feature table text
    is taken at byte 20, not at byte 28, and the bytes from 28 on are another
    text. *)
Lemma C10_text_not_at_28 :
  ∃ h, readHeader Json.parse Sample.floatTile None = Normal h ∧
       featureTableJSONByteOffset h = 20 ∧
       featureTableJSONByteOffset h ≠ 0 + 28 ∧
       featureTableString h ≠
         getStringFromTypedArray Sample.floatTile (0 + 28)
           (featureTableJSONByteLength h).
Proof.
  eexists. split; [vm_compute; reflexivity|].
  cbn [featureTableJSONByteOffset featureTableString featureTableJSONByteLength].
  repeat split; vm_compute; discriminate.
Qed.

Lemma readHeader_floatTile :
  readHeader Json.parse Sample.floatTile None = Normal Sample.floatHeader.
Proof. vm_compute. reflexivity. Qed.

Lemma C10_header_is_20_bytes_witness :
  readHeader Json.parse Sample.floatTile None = Normal Sample.floatHeader ∧
  featureTableJSONByteOffset Sample.floatHeader = 0 + 20 ∧
  featureTableBinaryByteOffset Sample.floatHeader =
    featureTableJSONByteOffset Sample.floatHeader +
    featureTableJSONByteLength Sample.floatHeader.
Proof.
  split; [vm_compute; reflexivity|].
  pose proof (C10_header_is_20_bytes Json.parse Sample.floatTile None
                Sample.floatHeader) as C.
  destruct C as (_ & _ & _ & _ & Hjo & _ & _ & Hbo & _);
    [vm_compute; reflexivity|].
  split; [exact Hjo | exact Hbo].
Defined.

(** ** The required fields *)

Lemma initialize_header_throw JSON_parse context arrayBuffer byteOffset w e :
  readHeader JSON_parse arrayBuffer byteOffset = Throw e →
  initialize JSON_parse context arrayBuffer byteOffset w = (Throw e, w).
Proof.
  intros H. unfold initialize. apply JS_bind_Throw. unfold liftC. by rewrite H.
Qed.

Lemma initialize_header_step JSON_parse context arrayBuffer byteOffset w h :
  readHeader JSON_parse arrayBuffer byteOffset = Normal h →
  initialize JSON_parse context arrayBuffer byteOffset w =
  (resolveVariant h ≫=
     λ '(f, (positions, colors, normals), pointsLength),
       assemble context f positions colors normals pointsLength) w.
Proof.
  intros H. unfold initialize.
  erewrite JS_bind_step; [reflexivity|]. unfold liftC. by rewrite H.
Qed.

Lemma readPointsLength_missing h properties :
  featureTableJSON h = JObj properties →
  properties !! "POINTS_LENGTH" = None →
  readPointsLength h =
  Throw (DeveloperError
           "Feature table global property: POINTS_LENGTH must be defined").
Proof.
  intros Hobj Hnone. unfold readPointsLength, getGlobalProperty,
    Cesium3DTileFeatureTableResources_new. cbn [json].
  rewrite Hobj. cbn. rewrite Hnone. reflexivity.
Qed.

Lemma resolveVariant_points_throw h w e :
  readPointsLength h = Throw e → resolveVariant h w = (Throw e, w).
Proof.
  intros H. unfold resolveVariant. apply JS_bind_Throw. unfold liftC.
  by rewrite H.
Qed.

Lemma readHeader_refuses JSON_parse arrayBuffer byteOffset :
  let b := default 0 byteOffset in
  getMagic arrayBuffer b ≠ "pnts" ∨
  (∃ v, getUint32 arrayBuffer (b + 4) true = Normal v ∧ v ≠ 1) ∨
  getUint32 arrayBuffer (b + 12) true = Normal 0 →
  ∃ message,
    readHeader JSON_parse arrayBuffer byteOffset = Throw (DeveloperError message).
Proof.
  intros b H. unfold readHeader. fold b. unfold sizeOfUint32.
  replace (b + 4 + 4 + 4) with (b + 12) by lia.
  destruct (String.eqb_spec (getMagic arrayBuffer b) "pnts") as [Hm|Hm];
    cbn [negb throwIfC]; [|cbn; eauto].
  destruct H as [H|[(v & Hv & Hne)|H]]; [done| |].
  - cbn. rewrite Hv. cbn. apply N.eqb_neq in Hne. rewrite Hne. cbn. eauto.
  - destruct (getUint32_readable_before arrayBuffer (b + 4) 8 true 0) as [v Hv].
    { replace (b + 4 + 8) with (b + 12) by lia. exact H. }
    cbn. rewrite Hv. cbn.
    destruct (N.eqb_spec v 1) as [->|Hne]; cbn; [|eauto].
    rewrite H. cbn. eauto.
Qed.

(** C1 (as the source has it).  For every buffer, [initialize] fails with a
    format error when the magic is not [pnts], or the version field is not 1,
    or the feature table length field is 0, or the decoded feature table has
    no [POINTS_LENGTH]; the failure leaves the content and the renderer's
    record as they were, so no renderer resource has been created.  (The
    converse is not claimed: a tile without position data is refused with the
    same kind of error.) *)
Theorem C1_format_errors
    (JSON_parse : string → option jsval) (context : option Context)
    (arrayBuffer : ArrayBuffer) (byteOffset : option N) (w : World) :
  headerViolation JSON_parse arrayBuffer byteOffset →
  ∃ e, initialize JSON_parse context arrayBuffer byteOffset w = (Throw e, w) ∧
       FormatError e.
Proof.
  intros [H|[H|[H|(h & properties & Hh & Hobj & Hnone)]]].
  1-3: destruct (readHeader_refuses JSON_parse arrayBuffer byteOffset)
         as [message Hr]; [cbn; eauto|];
       exists (DeveloperError message); split;
         [by apply initialize_header_throw | by exists message].
  eexists. split; [|by eexists].
  rewrite (initialize_header_step _ _ _ _ _ _ Hh).
  apply JS_bind_Throw, resolveVariant_points_throw.
  by eapply readPointsLength_missing.
Qed.

(** C1, the counterexample to "exactly when": a tile with the right magic,
    version 1, a feature table of 19 bytes that has [POINTS_LENGTH] - none of
    the four conditions - is refused with a format error all the same, for it
    has no positions. *)
Lemma C1_refused_without_header_violation :
  ¬ headerViolation Json.parse Sample.bareTile None ∧
  ∃ e, fst (initialize Json.parse (Some TheContext) Sample.bareTile None
              Sample.world) = Throw e ∧
       FormatError e.
Proof.
  split.
  - intros [H|[(v & Hv & Hne)|[H|(h & properties & Hh & Hobj & Hnone)]]].
    + apply H. vm_compute. reflexivity.
    + vm_compute in Hv. congruence.
    + vm_compute in H. discriminate.
    + assert (Hp : present (featureTableJSON h) "POINTS_LENGTH" = true).
      { revert Hh. vm_compute. intros [= <-]. reflexivity. }
      rewrite Hobj in Hp. cbn in Hp. rewrite Hnone in Hp. discriminate.
  - eexists. split; [vm_compute; reflexivity | by eexists].
Qed.

Lemma C1_format_errors_witness :
  ∃ e, initialize Json.parse (Some TheContext)
         (Sample.tileWith "pntz" 1 "{}" []) None Sample.world
       = (Throw e, Sample.world) ∧
       FormatError e.
Proof.
  apply (C1_format_errors Json.parse (Some TheContext)
           (Sample.tileWith "pntz" 1 "{}" []) None Sample.world).
  left. vm_compute. discriminate.
Defined.

(** ** The variants *)

Tactic Notation "js_unfold" "in" hyp(H) :=
  cbv [mbind mret JS_bind JS_ret completion_bind completion_ret
       liftC throw throwIf throwIfC getThis modifyThis created] in H.

Ltac case_steps H :=
  repeat match type of H with
         | context [match ?x with _ => _ end] =>
             lazymatch x with
             | context [match _ with _ => _ end] => fail
             | _ => destruct x eqn:?
             end
         end.

Lemma readPointsLength_Normal h resources pointsLength :
  readPointsLength h = Normal (resources, pointsLength) →
  getGlobalProperty
    (Cesium3DTileFeatureTableResources_new
       (featureTableJSON h) (featureTableBinary h))
    "POINTS_LENGTH" None JUndefined = Normal pointsLength ∧
  defined pointsLength = true ∧
  json resources = featureTableJSON h ∧
  buffer resources = featureTableBinary h.
Proof.
  unfold readPointsLength. intros H. completion_inv H.
  apply throwIfC_Normal, negb_false_iff in Hstep0.
  injection H as <- <-. auto.
Qed.

Lemma resolvePositions_Normal table resources pointsLength w positions isQ w1 :
  resolvePositions table resources pointsLength w
    = (Normal (positions, isQ), w1) →
  isQ = negb (present table "POSITION") && present table "POSITION_QUANTIZED" ∧
  defined positions = true ∧
  gpu w1 = gpu w ∧
  (if isQ
   then defined (_quantizedVolumeScale (this w1)) = true
   else w1 = w).
Proof.
  intros H. unfold resolvePositions, present in *. js_unfold in H.
  case_steps H; simplify_eq/=.
  - apply negb_false_iff in Heqb0. auto.
  - apply negb_false_iff in Heqb1, Heqb2. auto.
Qed.

Lemma resolveColors_frame table resources pointsLength w r w1 :
  resolveColors table resources pointsLength w = (r, w1) →
  gpu w1 = gpu w ∧
  _quantizedVolumeScale (this w1) = _quantizedVolumeScale (this w).
Proof.
  intros H. unfold resolveColors in H. js_unfold in H.
  case_steps H; simplify_eq/=; auto.
Qed.

Lemma resolveNormals_frame table resources pointsLength w r w1 :
  resolveNormals table resources pointsLength w = (r, w1) → w1 = w.
Proof.
  intros H. unfold resolveNormals in H. js_unfold in H.
  case_steps H; simplify_eq/=; auto.
Qed.

Lemma resolveVariant_Normal h w f buffers pointsLength w1 :
  resolveVariant h w = (Normal (f, buffers, pointsLength), w1) →
  (∃ resources, readPointsLength h = Normal (resources, pointsLength)) ∧
  isQuantized f =
    negb (present (featureTableJSON h) "POSITION") &&
    present (featureTableJSON h) "POSITION_QUANTIZED" ∧
  gpu w1 = gpu w ∧
  (if isQuantized f
   then defined (_quantizedVolumeScale (this w1)) = true
   else _quantizedVolumeScale (this w1) = _quantizedVolumeScale (this w)).
Proof.
  intros H. unfold resolveVariant in H.
  apply JS_bind_Normal in H as ([resources pl] & w2 & Hpl & H).
  apply liftC_Normal in Hpl as [Hpl ->].
  apply JS_bind_Normal in H as ([positions isQ] & w2 & Hpos & H).
  apply JS_bind_Normal in H as ([[colors isT] isC] & w3 & Hcol & H).
  apply JS_bind_Normal in H as ([normals isO] & w4 & Hnor & H).
  apply JS_bind_Normal in H as ([] & w5 & Hdef & H).
  injection H as <- <- <- <-.
  apply resolvePositions_Normal in Hpos as (HisQ & _ & Hg2 & Hq2).
  apply resolveColors_frame in Hcol as [Hg3 Hq3].
  apply resolveNormals_frame in Hnor as ->.
  assert (Hw5 : gpu w5 = gpu w3 ∧
                _quantizedVolumeScale (this w5) = _quantizedVolumeScale (this w3)).
  { destruct (negb (defined colors) && negb isC); cbn in Hdef;
      injection Hdef as <-; auto. }
  destruct Hw5 as [Hg5 Hq5]. cbn [isQuantized].
  split; [eauto|]. split; [exact HisQ|]. split; [congruence|].
  destruct isQ; [|subst w2]; congruence.
Qed.

(** ** The draw command *)

(** C4.  Whenever [initialize] accepts a buffer, the vertex count of the draw
    command it leaves is the [POINTS_LENGTH] the accessor read from the
    feature table of that buffer, and its primitive type is points. *)
Theorem C4_vertex_count_is_points_length
    (JSON_parse : string → option jsval) (context : option Context)
    (arrayBuffer : ArrayBuffer) (byteOffset : option N) (w : World) :
  let run := initialize JSON_parse context arrayBuffer byteOffset w in
  fst run = Normal tt →
  ∃ h pointsLength,
    readHeader JSON_parse arrayBuffer byteOffset = Normal h ∧
    getGlobalProperty
      (Cesium3DTileFeatureTableResources_new
         (featureTableJSON h) (featureTableBinary h))
      "POINTS_LENGTH" None JUndefined = Normal pointsLength ∧
    count (_drawCommand (this (snd run))) = pointsLength ∧
    primitiveType (_drawCommand (this (snd run))) = Some POINTS.
Proof.
  intros run. subst run.
  destruct (initialize _ _ _ _ _) as [r w'] eqn:H. cbn. intros ->.
  unfold initialize in H.
  apply JS_bind_Normal in H as (h & w1 & Hh & H).
  apply liftC_Normal in Hh as [Hh ->].
  apply JS_bind_Normal in H as ([[f [[positions colors] normals]] pl] & w2 & Hv & H).
  apply resolveVariant_Normal in Hv as ([resources Hpl] & _).
  apply readPointsLength_Normal in Hpl as (Hpl & _).
  apply assemble_Normal in H as (ctx & _ & ->).
  exists h, pl. repeat split; assumption.
Qed.

Lemma C4_vertex_count_is_points_length_witness :
  fst (initialize Json.parse (Some TheContext) Sample.floatTile None
         Sample.world) = Normal tt ∧
  ∃ h pointsLength,
    readHeader Json.parse Sample.floatTile None = Normal h ∧
    getGlobalProperty
      (Cesium3DTileFeatureTableResources_new
         (featureTableJSON h) (featureTableBinary h))
      "POINTS_LENGTH" None JUndefined = Normal pointsLength ∧
    count (_drawCommand (this (snd (initialize Json.parse (Some TheContext)
                                      Sample.floatTile None Sample.world))))
      = pointsLength ∧
    primitiveType
      (_drawCommand (this (snd (initialize Json.parse (Some TheContext)
                                  Sample.floatTile None Sample.world))))
      = Some POINTS.
Proof.
  split; [vm_compute; reflexivity|].
  apply (C4_vertex_count_is_points_length Json.parse (Some TheContext)
           Sample.floatTile None Sample.world).
  vm_compute; reflexivity.
Defined.

(** ** Positions *)

Lemma getProperty_defined value name :
  defined value = true → ∃ x, getProperty value name = Normal x.
Proof. destruct value; cbn; try discriminate; eauto. Qed.

Lemma getElement_defined binary array i :
  defined array = true → ∃ x, getElement binary array i = Normal x.
Proof.
  destruct array; cbn; try discriminate; intros _; eauto.
  - destruct (String.get i s); eauto.
  - repeat case_match; eauto.
Qed.

Lemma getGlobalProperty_object resources properties semantic componentType count :
  json resources = JObj properties →
  ∃ v, getGlobalProperty resources semantic componentType count = Normal v ∧
       defined v = present (JObj properties) semantic.
Proof.
  intros Hjson. unfold getGlobalProperty, present. rewrite Hjson. cbn.
  destruct (defined (default JUndefined (properties !! semantic))) eqn:Hd.
  - destruct (getProperty_defined _ "byteOffset" Hd) as [x ->]. cbn.
    destruct (defined x); cbn; eauto.
  - cbn. eauto.
Qed.

Lemma resolveNormals_object properties resources pointsLength w :
  json resources = JObj properties →
  ∃ r, resolveNormals (JObj properties) resources pointsLength w = (Normal r, w).
Proof.
  intros Hjson. unfold resolveNormals. js_unfold. cbn -[getGlobalProperty ComponentDatatype js_times getElement].
  destruct (defined (default JUndefined (properties !! "NORMAL"))).
  - destruct (getGlobalProperty_object resources properties "NORMAL"
                (ComponentDatatype "FLOAT") (js_times pointsLength 3) Hjson)
      as (v & -> & _). eauto.
  - destruct (defined (default JUndefined (properties !! "NORMAL_OCT16P"))); eauto.
    destruct (getGlobalProperty_object resources properties "NORMAL_OCT16P"
                (ComponentDatatype "UNSIGNED_BYTE") (js_times pointsLength 2) Hjson)
      as (v & -> & _). eauto.
Qed.

Lemma resolveColors_object properties resources pointsLength w :
  json resources = JObj properties →
  ∃ r w1, resolveColors (JObj properties) resources pointsLength w = (Normal r, w1).
Proof.
  intros Hjson. unfold resolveColors. js_unfold. cbn -[getGlobalProperty ComponentDatatype js_times getElement].
  destruct (defined (default JUndefined (properties !! "RGBA"))).
  { destruct (getGlobalProperty_object resources properties "RGBA"
                (ComponentDatatype "UNSIGNED_BYTE") (js_times pointsLength 4) Hjson)
      as (v & -> & _). eauto. }
  destruct (defined (default JUndefined (properties !! "RGB"))).
  { destruct (getGlobalProperty_object resources properties "RGB"
                (ComponentDatatype "UNISGNED_BYTE") (js_times pointsLength 3) Hjson)
      as (v & -> & _). eauto. }
  destruct (defined (default JUndefined (properties !! "CONSTANT_COLOR"))) eqn:Hcc;
    [|eauto].
  destruct (getGlobalProperty_object resources properties "CONSTANT_COLOR"
              (ComponentDatatype "UNSIGNED_BYTE") (JNum 4) Hjson)
    as (v & -> & Hv).
  unfold present in Hv. cbn in Hv. rewrite Hcc in Hv.
  destruct (getElement_defined (buffer resources) v 0 Hv) as [c0 ->].
  destruct (getElement_defined (buffer resources) v 1 Hv) as [c1 ->].
  destruct (getElement_defined (buffer resources) v 2 Hv) as [c2 ->].
  destruct (getElement_defined (buffer resources) v 3 Hv) as [c3 ->].
  eauto.
Qed.

Lemma readPointsLength_object h r :
  readPointsLength h = Normal r →
  ∃ properties, featureTableJSON h = JObj properties ∧
                json (fst r) = JObj properties.
Proof.
  destruct r as [resources pl]. intros H.
  apply readPointsLength_Normal in H as (Hg & Hd & Hj & _).
  unfold getGlobalProperty, Cesium3DTileFeatureTableResources_new in Hg.
  cbn [json] in Hg. cbn [fst]. rewrite Hj.
  destruct (featureTableJSON h); cbn in Hg; try discriminate;
    try (injection Hg as <-; discriminate).
  eauto.
Qed.

Section ObjectTable.

Variable properties : gmap string jsval.
Variable resources : Cesium3DTileFeatureTableResources.
Hypothesis resources_json : json resources = JObj properties.

Let table : jsval := JObj properties.

Lemma resolvePositions_neither pointsLength w :
  present table "POSITION" = false →
  present table "POSITION_QUANTIZED" = false →
  resolvePositions table resources pointsLength w =
  (Throw (DeveloperError
            "Either POSITION or POSITION_QUANTIZED must be defined."), w).
Proof.
  unfold present, table. cbn. intros H1 H2.
  unfold resolvePositions. js_unfold.
  cbn -[getGlobalProperty ComponentDatatype js_times]. rewrite H1. 
  cbn -[getGlobalProperty ComponentDatatype js_times]. rewrite H2.
  reflexivity.
Qed.

Lemma resolvePositions_no_scale pointsLength w :
  present table "POSITION" = false →
  present table "POSITION_QUANTIZED" = true →
  present table "QUANTIZED_VOLUME_SCALE" = false →
  ∃ scale,
    defined scale = false ∧
    resolvePositions table resources pointsLength w =
    (Throw (DeveloperError
              "Global property: QUANTIZED_VOLUME_SCALE must be defined for quantized positions."),
     mkWorld (set_quantizedVolumeScale scale (this w)) (gpu w)).
Proof.
  intros H1 H2 H3.
  destruct (getGlobalProperty_object resources properties "POSITION_QUANTIZED"
              (ComponentDatatype "UNSIGNED_SHORT") (js_times pointsLength 3)
              resources_json) as (p & Hp & _).
  destruct (getGlobalProperty_object resources properties
              "QUANTIZED_VOLUME_SCALE" (ComponentDatatype "FLOAT") (JNum 3)
              resources_json) as (scale & Hs & Hds).
  fold table in Hds. rewrite H3 in Hds.
  exists scale. split; [exact Hds|].
  unfold present, table in H1, H2. cbn in H1, H2.
  unfold resolvePositions. js_unfold.
  cbn -[getGlobalProperty ComponentDatatype js_times]. rewrite H1.
  cbn -[getGlobalProperty ComponentDatatype js_times]. rewrite H2, Hp, Hs.
  cbn. rewrite Hds. reflexivity.
Qed.

Lemma resolvePositions_object pointsLength w :
  present table "POSITION" ||
    present table "POSITION_QUANTIZED" && present table "QUANTIZED_VOLUME_SCALE"
    = true →
  ∃ r w1, resolvePositions table resources pointsLength w = (Normal r, w1).
Proof.
  intros H.
  destruct (getGlobalProperty_object resources properties "POSITION"
              (ComponentDatatype "FLOAT") (js_times pointsLength 3)
              resources_json) as (p0 & Hp0 & Hd0).
  destruct (getGlobalProperty_object resources properties "POSITION_QUANTIZED"
              (ComponentDatatype "UNSIGNED_SHORT") (js_times pointsLength 3)
              resources_json) as (p & Hp & Hd).
  destruct (getGlobalProperty_object resources properties
              "QUANTIZED_VOLUME_SCALE" (ComponentDatatype "FLOAT") (JNum 3)
              resources_json) as (scale & Hs & Hds).
  fold table in Hd0, Hd, Hds.
  unfold resolvePositions. js_unfold.
  unfold present, table in *. cbn in H, Hd0, Hd, Hds.
  cbn -[getGlobalProperty ComponentDatatype js_times].
  destruct (defined (default JUndefined (properties !! "POSITION"))).
  - rewrite Hp0, Hd0. cbn. eauto.
  - cbn in H. apply andb_true_iff in H as [H2 H3]. rewrite H2, Hp, Hs.
    cbn. rewrite Hds, H3. cbn. rewrite Hd, H2. cbn. eauto.
Qed.

End ObjectTable.

Lemma resolveVariant_object h r w :
  readPointsLength h = Normal r →
  present (featureTableJSON h) "POSITION" ||
    present (featureTableJSON h) "POSITION_QUANTIZED" &&
    present (featureTableJSON h) "QUANTIZED_VOLUME_SCALE" = true →
  ∃ f buffers w1,
    resolveVariant h w = (Normal (f, buffers, snd r), w1).
Proof.
  intros Hr Hp.
  destruct (readPointsLength_object h r Hr) as (properties & Ht & Hj).
  destruct r as [resources pointsLength]. cbn [fst snd] in *.
  rewrite Ht in Hp.
  destruct (resolvePositions_object properties resources Hj pointsLength w Hp)
    as ([positions isQ] & w1 & Hpos).
  destruct (resolveColors_object properties resources pointsLength w1 Hj)
    as ([[colors isT] isC] & w2 & Hcol).
  destruct (resolveNormals_object properties resources pointsLength w2 Hj)
    as ([normals isO] & Hnor).
  destruct (negb (defined colors) && negb isC) eqn:Hfallback.
  all: do 3 eexists; unfold resolveVariant; rewrite Ht.
  all: erewrite JS_bind_step; [|unfold liftC; rewrite Hr; reflexivity].
  all: cbv beta iota.
  all: erewrite JS_bind_step; [|exact Hpos]; cbv beta iota.
  all: erewrite JS_bind_step; [|exact Hcol]; cbv beta iota.
  all: erewrite JS_bind_step; [|exact Hnor]; cbv beta iota zeta.
  all: rewrite Hfallback.
  all: erewrite JS_bind_step; reflexivity.
Qed.

Lemma assembled_quantizedVolumeScale ctx f positions colors normals pl w :
  _quantizedVolumeScale (this (assembled ctx f positions colors normals pl w)) =
  _quantizedVolumeScale (this w).
Proof. reflexivity. Qed.

(** C2 (as the source has it).  For every decoded feature table that has its
    [POINTS_LENGTH]: when neither [POSITION] nor [POSITION_QUANTIZED] is
    defined, [initialize] fails with a format error and changes nothing; when
    [POSITION] is not defined, [POSITION_QUANTIZED] is, and
    [QUANTIZED_VOLUME_SCALE] is not, it fails with a format error, no renderer
    resource is created and the scale of the content is not defined; in every
    other case the positions resolve ([initialize] then ends normally, or with
    a [ReferenceError] when there is no global [context]) and the scale of the
    content is defined when the positions are quantized and is left as it was
    - [undefined] on a new content - when they are not.  Positions are
    quantized when [POSITION] is not defined and [POSITION_QUANTIZED] is: with
    both keys the float positions are taken and no scale is asked for. *)
Theorem C2_positions_required
    (JSON_parse : string → option jsval) (context : option Context)
    (arrayBuffer : ArrayBuffer) (byteOffset : option N) (w : World)
    (h : Header) (r : Cesium3DTileFeatureTableResources * jsval) :
  readHeader JSON_parse arrayBuffer byteOffset = Normal h →
  readPointsLength h = Normal r →
  let table := featureTableJSON h in
  let run := initialize JSON_parse context arrayBuffer byteOffset w in
  let quantized :=
    negb (present table "POSITION") && present table "POSITION_QUANTIZED" in
  if negb (present table "POSITION") && negb (present table "POSITION_QUANTIZED")
  then
    fst run = Throw (DeveloperError
                       "Either POSITION or POSITION_QUANTIZED must be defined.") ∧
    snd run = w
  else if quantized && negb (present table "QUANTIZED_VOLUME_SCALE")
  then
    fst run = Throw (DeveloperError
                       "Global property: QUANTIZED_VOLUME_SCALE must be defined for quantized positions.") ∧
    gpu (snd run) = gpu w ∧
    defined (_quantizedVolumeScale (this (snd run))) = false
  else
    fst run = match context with
              | Some _ => Normal tt
              | None => Throw (ReferenceError "context")
              end ∧
    if quantized
    then defined (_quantizedVolumeScale (this (snd run))) = true
    else _quantizedVolumeScale (this (snd run)) = _quantizedVolumeScale (this w).
Proof.
  intros Hh Hr table run quantized.
  destruct (readPointsLength_object h r Hr) as (properties & Ht & Hj).
  subst run. rewrite (initialize_header_step _ _ _ _ _ _ Hh).
  destruct (present table "POSITION") eqn:HP;
    destruct (present table "POSITION_QUANTIZED") eqn:HQ;
    [| | destruct (present table "QUANTIZED_VOLUME_SCALE") eqn:HS |];
    subst quantized; cbn [negb andb].
  1-3: destruct (resolveVariant_object h r w Hr) as (f & [[p c] n] & w1 & Hv);
       [fold table; rewrite HP, HQ, ?HS; reflexivity|];
       erewrite JS_bind_step; [|exact Hv]; cbv beta iota;
       apply resolveVariant_Normal in Hv as (_ & HisQ & _ & Hq);
       fold table in HisQ; rewrite HP, HQ in HisQ; cbn in HisQ;
       rewrite HisQ in Hq;
       destruct context as [ctx|];
       [rewrite assemble_with_context | rewrite assemble_without_context];
       cbn [fst snd]; rewrite ?assembled_quantizedVolumeScale; auto.
  - destruct r as [resources pointsLength]. cbn [fst] in Hj.
    subst table. rewrite Ht in HP, HQ, HS.
    destruct (resolvePositions_no_scale properties resources Hj pointsLength w
                HP HQ HS) as (scale & Hds & Hpos).
    assert (Hv : resolveVariant h w =
                 (Throw (DeveloperError
                           "Global property: QUANTIZED_VOLUME_SCALE must be defined for quantized positions."),
                  mkWorld (set_quantizedVolumeScale scale (this w)) (gpu w))).
    { unfold resolveVariant. rewrite Ht.
      erewrite JS_bind_step; [|unfold liftC; rewrite Hr; reflexivity].
      cbv beta iota. apply JS_bind_Throw. exact Hpos. }
    erewrite JS_bind_Throw; [|exact Hv]. cbn. auto.
  - destruct r as [resources pointsLength]. cbn [fst] in Hj.
    subst table. rewrite Ht in HP, HQ.
    assert (Hv : resolveVariant h w =
                 (Throw (DeveloperError
                           "Either POSITION or POSITION_QUANTIZED must be defined."),
                  w)).
    { unfold resolveVariant. rewrite Ht.
      erewrite JS_bind_step; [|unfold liftC; rewrite Hr; reflexivity].
      cbv beta iota. apply JS_bind_Throw.
      by apply resolvePositions_neither. }
    erewrite JS_bind_Throw; [|exact Hv]. cbn. auto.
Qed.

(** C2, the counterexample: a table with [POSITION_QUANTIZED] and without
    [QUANTIZED_VOLUME_SCALE] that also has [POSITION] is accepted. *)
Lemma C2_quantized_key_without_scale_accepted :
  ∃ h, readHeader Json.parse Sample.bothPositionsTile None = Normal h ∧
       present (featureTableJSON h) "POSITION_QUANTIZED" = true ∧
       hasOwnProperty (featureTableJSON h) "QUANTIZED_VOLUME_SCALE" = false ∧
       fst (initialize Json.parse (Some TheContext) Sample.bothPositionsTile
              None Sample.world) = Normal tt.
Proof.
  eexists. split; [vm_compute; reflexivity|]. vm_compute. auto.
Qed.

Lemma C2_positions_required_witness :
  readHeader Json.parse Sample.bareTile None = Normal Sample.bareHeader ∧
  readPointsLength Sample.bareHeader = Normal Sample.bareResources ∧
  fst (initialize Json.parse (Some TheContext) Sample.bareTile None
         Sample.world) =
    Throw (DeveloperError
             "Either POSITION or POSITION_QUANTIZED must be defined.").
Proof.
  assert (H1 : readHeader Json.parse Sample.bareTile None
               = Normal Sample.bareHeader)
    by (vm_compute; reflexivity).
  assert (H2 : readPointsLength Sample.bareHeader = Normal Sample.bareResources)
    by (vm_compute; reflexivity).
  split; [exact H1|]. split; [exact H2|].
  exact (proj1 (C2_positions_required Json.parse (Some TheContext)
                  Sample.bareTile None Sample.world Sample.bareHeader
                  Sample.bareResources H1 H2)).
Defined.

(** ** Colors *)

Section ColorKeys.

Variable properties : gmap string jsval.
Variable resources : Cesium3DTileFeatureTableResources.
Variable pointsLength : jsval.

Let table : jsval := JObj properties.

(** [RGBA] comes first: four unsigned bytes per point, translucent, whatever
    else the table holds. *)
Lemma resolveColors_RGBA w :
  present table "RGBA" = true →
  resolveColors table resources pointsLength w =
  (match getGlobalProperty resources "RGBA" (Some UNSIGNED_BYTE)
           (js_times pointsLength 4) with
   | Normal colors => Normal (colors, true, false)
   | Throw e => Throw e
   end, w).
Proof.
  unfold present, table. cbn. intros H.
  unfold resolveColors. js_unfold.
  cbn -[getGlobalProperty js_times]. rewrite H.
  destruct (getGlobalProperty _ _ _ _); reflexivity.
Qed.

(** With none of the three keys there is no color buffer and no flag. *)
Lemma resolveColors_no_key w :
  present table "RGBA" = false →
  present table "RGB" = false →
  present table "CONSTANT_COLOR" = false →
  resolveColors table resources pointsLength w
  = (Normal (JUndefined, false, false), w).
Proof.
  unfold present, table. cbn. intros H1 H2 H3.
  unfold resolveColors. js_unfold.
  cbn -[getGlobalProperty js_times]. rewrite H1.
  cbn -[getGlobalProperty js_times]. rewrite H2.
  cbn -[getGlobalProperty js_times]. rewrite H3.
  reflexivity.
Qed.

(** [CONSTANT_COLOR] comes third: it is decoded into the color of the content,
    and the tile is translucent exactly when the decoded alpha is below 1. *)
Lemma resolveColors_CONSTANT_COLOR w :
  json resources = table →
  present table "RGBA" = false →
  present table "RGB" = false →
  present table "CONSTANT_COLOR" = true →
  ∃ k, resolveColors table resources pointsLength w =
       (Normal (JUndefined, js_lt (alpha k) 1, true),
        mkWorld (set_constantColor k (this w)) (gpu w)).
Proof.
  intros Hjson H1 H2 H3.
  destruct (getGlobalProperty_object resources properties "CONSTANT_COLOR"
              (ComponentDatatype "UNSIGNED_BYTE") (JNum 4) Hjson)
    as (v & Hv & Hd).
  fold table in Hd. rewrite H3 in Hd.
  destruct (getElement_defined (buffer resources) v 0 Hd) as [c0 Hc0].
  destruct (getElement_defined (buffer resources) v 1 Hd) as [c1 Hc1].
  destruct (getElement_defined (buffer resources) v 2 Hd) as [c2 Hc2].
  destruct (getElement_defined (buffer resources) v 3 Hd) as [c3 Hc3].
  exists (Color_fromBytes c0 c1 c2 c3 (_constantColor (this w))).
  unfold present, table in H1, H2, H3. cbn in H1, H2, H3.
  unfold resolveColors. js_unfold.
  cbn -[getGlobalProperty ComponentDatatype js_times getElement]. rewrite H1.
  cbn -[getGlobalProperty ComponentDatatype js_times getElement]. rewrite H2.
  cbn -[getGlobalProperty ComponentDatatype js_times getElement].
  rewrite H3, Hv.
  cbn -[getGlobalProperty ComponentDatatype js_times getElement].
  rewrite Hc0, Hc1, Hc2, Hc3. reflexivity.
Qed.

End ColorKeys.

(** C3 (the source departs from the claim).  When [RGBA] is not defined and
    [RGB] is, the colors are asked of the accessor under the element type
    [ComponentDatatype.UNISGNED_BYTE], which is not a member: the request goes
    out with an undefined element type, not with unsigned byte, for three
    values per point and with the translucent flag clear. *)
Theorem C3_RGB_read_with_undefined_type
    (properties : gmap string jsval)
    (resources : Cesium3DTileFeatureTableResources)
    (pointsLength : jsval) (w : World) :
  present (JObj properties) "RGBA" = false →
  present (JObj properties) "RGB" = true →
  resolveColors (JObj properties) resources pointsLength w =
  (match getGlobalProperty resources "RGB" None (js_times pointsLength 3) with
   | Normal colors => Normal (colors, false, false)
   | Throw e => Throw e
   end, w) ∧
  ComponentDatatype "UNISGNED_BYTE" = None ∧
  ComponentDatatype "UNSIGNED_BYTE" = Some UNSIGNED_BYTE.
Proof.
  unfold present. cbn. intros H1 H2. split; [|split; reflexivity].
  unfold resolveColors. js_unfold.
  cbn -[getGlobalProperty js_times]. rewrite H1.
  cbn -[getGlobalProperty js_times]. rewrite H2.
  destruct (getGlobalProperty _ _ _ _); reflexivity.
Qed.

Lemma C3_RGB_read_with_undefined_type_witness :
  present (JObj Sample.rgbTable) "RGBA" = false ∧
  present (JObj Sample.rgbTable) "RGB" = true ∧
  fst (resolveColors (JObj Sample.rgbTable) Sample.rgbResources (JNum 3)
         Sample.world) =
  Normal (JTypedArray None (JNum 36) (JNum 9), false, false).
Proof.
  assert (H1 : present (JObj Sample.rgbTable) "RGBA" = false) by reflexivity.
  assert (H2 : present (JObj Sample.rgbTable) "RGB" = true) by reflexivity.
  split; [exact H1|]. split; [exact H2|].
  rewrite (proj1 (C3_RGB_read_with_undefined_type Sample.rgbTable
                    Sample.rgbResources (JNum 3) Sample.world H1 H2)).
  reflexivity.
Defined.

(** With no color key the content ends with the default color, opaque dark
    gray, whatever its color was before. *)
Lemma resolveVariant_no_color_key h w f buffers pointsLength w1 :
  resolveVariant h w = (Normal (f, buffers, pointsLength), w1) →
  present (featureTableJSON h) "RGBA" = false →
  present (featureTableJSON h) "RGB" = false →
  present (featureTableJSON h) "CONSTANT_COLOR" = false →
  hasColors f = false ∧ isTranslucent f = false ∧
  buffers.1.2 = JUndefined ∧
  _constantColor (this w1) = ColorConstants.DARKGRAY.
Proof.
  intros H H1 H2 H3. unfold resolveVariant in H.
  apply JS_bind_Normal in H as ([resources pl] & w2 & Hpl & H).
  apply liftC_Normal in Hpl as [Hpl ->].
  destruct (readPointsLength_object h _ Hpl) as (properties & Ht & _).
  rewrite Ht in *.
  apply JS_bind_Normal in H as ([positions isQ] & w2 & Hpos & H).
  apply JS_bind_Normal in H as ([[colors isT] isC] & w3 & Hcol & H).
  rewrite (resolveColors_no_key properties resources pl w2 H1 H2 H3) in Hcol.
  injection Hcol as <- <- <- <-.
  apply JS_bind_Normal in H as ([normals isO] & w4 & Hnor & H).
  apply resolveNormals_frame in Hnor as ->.
  apply JS_bind_Normal in H as ([] & w5 & Hdef & H).
  cbn in Hdef. injection Hdef as <-.
  injection H as <- <- <- <-. cbn. auto.
Qed.

(** ** The shader text of a run *)

Lemma initialize_programSources JSON_parse context arrayBuffer byteOffset w f :
  fst (initialize JSON_parse context arrayBuffer byteOffset w) = Normal tt →
  variantOfRun JSON_parse arrayBuffer byteOffset w = Some f →
  programSources (snd (initialize JSON_parse context arrayBuffer byteOffset w))
  = Some (vertexShader f, fragmentShader).
Proof.
  unfold variantOfRun. intros Hrun Hf.
  destruct (readHeader JSON_parse arrayBuffer byteOffset) as [h|] eqn:Hh;
    [|discriminate].
  rewrite (initialize_header_step _ _ _ _ _ _ Hh) in *.
  destruct (resolveVariant h w) as [[[[f' [[p c] n]] pl]|e] w1] eqn:Hv;
    [|discriminate].
  injection Hf as ->.
  erewrite JS_bind_step in *; [|exact Hv|exact Hv]. cbv beta iota in *.
  destruct context as [ctx|].
  - rewrite assemble_with_context. reflexivity.
  - rewrite assemble_without_context in Hrun. discriminate.
Qed.

(** The flags on which the vertex shader text depends, spelled out. *)
Lemma flags_agree (f1 f2 : VariantFlags) :
  attributeRelevant f1 = attributeRelevant f2 ↔
  isQuantized f1 = isQuantized f2 ∧
  hasColors f1 = hasColors f2 ∧
  hasNormals f1 = hasNormals f2 ∧
  hasColors f1 && isTranslucent f1 = hasColors f2 && isTranslucent f2 ∧
  hasNormals f1 && isOctEncoded16P f1 = hasNormals f2 && isOctEncoded16P f2.
Proof.
  each_flag_tuple f1; each_flag_tuple f2; vm_compute;
    split; intros H; repeat split; 
    try reflexivity; try discriminate;
    destruct H as (? & ? & ? & ? & ?); discriminate.
Qed.

(** C8 (as the source has it).  In any two runs that [initialize] accepts,
    the vertex and fragment text of the program are [vertexShader] and
    [fragmentShader] at the flags resolved in that run, so equal flag tuples
    give the same text byte for byte.  The text of the two runs is the same
    exactly when the tuples agree on the quantized position, on the presence
    of colors, on the presence of normals, on the translucent flag when there
    are colors, and on the normal packing when there are normals: the
    translucent flag of a tile without per-point colors, and the packing flag
    of a tile without normals, do not show in the text. *)
Theorem C8_shader_text_function_of_flags
    (JSON_parse1 JSON_parse2 : string → option jsval)
    (context1 context2 : option Context)
    (arrayBuffer1 arrayBuffer2 : ArrayBuffer) (byteOffset1 byteOffset2 : option N)
    (w1 w2 : World) (f1 f2 : VariantFlags) :
  let run1 := initialize JSON_parse1 context1 arrayBuffer1 byteOffset1 w1 in
  let run2 := initialize JSON_parse2 context2 arrayBuffer2 byteOffset2 w2 in
  fst run1 = Normal tt →
  fst run2 = Normal tt →
  variantOfRun JSON_parse1 arrayBuffer1 byteOffset1 w1 = Some f1 →
  variantOfRun JSON_parse2 arrayBuffer2 byteOffset2 w2 = Some f2 →
  programSources (snd run1) = Some (vertexShader f1, fragmentShader) ∧
  programSources (snd run2) = Some (vertexShader f2, fragmentShader) ∧
  (programSources (snd run1) = programSources (snd run2) ↔
   isQuantized f1 = isQuantized f2 ∧
   hasColors f1 = hasColors f2 ∧
   hasNormals f1 = hasNormals f2 ∧
   hasColors f1 && isTranslucent f1 = hasColors f2 && isTranslucent f2 ∧
   hasNormals f1 && isOctEncoded16P f1 = hasNormals f2 && isOctEncoded16P f2).
Proof.
  intros run1 run2 Hr1 Hr2 Hf1 Hf2.
  pose proof (initialize_programSources _ _ _ _ _ _ Hr1 Hf1) as H1.
  pose proof (initialize_programSources _ _ _ _ _ _ Hr2 Hf2) as H2.
  fold run1 in H1. fold run2 in H2. rewrite H1, H2.
  split; [reflexivity|]. split; [reflexivity|].
  rewrite <- flags_agree, <- vertexShader_injective. split.
  - by intros [= ->].
  - by intros ->.
Qed.

Lemma C8_shader_text_function_of_flags_witness :
  let f1 := mkFlags false false true false false in
  let f2 := mkFlags true true true true true in
  let run1 := initialize Json.parse (Some TheContext) Sample2.tintedTile None
                Sample.world in
  let run2 := initialize Json.parse (Some TheContext) Sample.quantizedTile None
                Sample.world in
  programSources (snd run1) = Some (vertexShader f1, fragmentShader) ∧
  programSources (snd run2) = Some (vertexShader f2, fragmentShader) ∧
  (programSources (snd run1) = programSources (snd run2) ↔
   isQuantized f1 = isQuantized f2 ∧
   hasColors f1 = hasColors f2 ∧
   hasNormals f1 = hasNormals f2 ∧
   hasColors f1 && isTranslucent f1 = hasColors f2 && isTranslucent f2 ∧
   hasNormals f1 && isOctEncoded16P f1 = hasNormals f2 && isOctEncoded16P f2).
Proof.
  intros f1 f2 run1 run2.
  apply (C8_shader_text_function_of_flags
           Json.parse Json.parse (Some TheContext) (Some TheContext)
           Sample2.tintedTile Sample.quantizedTile None None
           Sample.world Sample.world f1 f2);
    vm_compute; reflexivity.
Defined.

(** C8 (where the claim fails).  A tile tinted by a constant color at half
    opacity and a tile with no color at all are both accepted; their flag
    tuples differ in the translucent flag, and their shader text is the
    same. *)
Lemma C8_translucent_flag_not_in_text :
  let run1 := initialize Json.parse (Some TheContext) Sample2.tintedTile None
                Sample.world in
  let run2 := initialize Json.parse (Some TheContext) Sample.floatTile None
                Sample.world in
  fst run1 = Normal tt ∧ fst run2 = Normal tt ∧
  variantOfRun Json.parse Sample2.tintedTile None Sample.world
    = Some (mkFlags false false true false false) ∧
  variantOfRun Json.parse Sample.floatTile None Sample.world
    = Some (mkFlags false false false false false) ∧
  mkFlags false false true false false ≠ mkFlags false false false false false ∧
  programSources (snd run1) = programSources (snd run2).
Proof.
  cbv zeta. repeat split; try (vm_compute; reflexivity). discriminate.
Qed.

(** ** A request that settles after the content was destroyed *)

(** C9 (as the source has it).  When the content has been destroyed while its
    request was pending and the buffer then arrives, [initialize] is not run:
    the handler answers with the rejection ["tileset is destroyed"], which the
    error handler of the chain receives, so the state becomes [FAILED] and the
    ready promise is rejected with that reason.  Nothing else of the content
    changes, no renderer resource is created, the state never becomes
    [READY], and no exception leaves the chain. *)
Theorem C9_destroyed_content_rejected
    (JSON_parse : string → option jsval) (context : option Context)
    (c : Points3DTileContent) (g : list GpuResource)
    (arrayBuffer : ArrayBuffer) :
  isDestroyed c = true →
  requestSettles JSON_parse context (Fetched arrayBuffer) (mkWorld c g) =
  (Normal tt,
   mkWorld (set_readyPromise
              (deferred_reject (Reason "tileset is destroyed") (readyPromise c))
              (set_state FAILED c)) g).
Proof.
  intros Hd. unfold requestSettles, onFetched. js_unfold. cbn [this].
  rewrite Hd. reflexivity.
Qed.

(** C9, the counterexample: a content is requested, destroyed, and then the
    buffer arrives; the resolution moves it from [LOADING] to [FAILED] and
    rejects its ready promise. *)
Lemma C9_resolution_changes_destroyed_content :
  let c := destroy (request true Sample.content) in
  let after :=
    this (snd (requestSettles Json.parse (Some TheContext)
                 (Fetched Sample.floatTile) (mkWorld c []))) in
  isDestroyed c = true ∧
  state c = LOADING ∧ state after = FAILED ∧
  readyPromise c = Pending ∧
  readyPromise after = Rejected (Reason "tileset is destroyed") ∧
  after ≠ c.
Proof.
  vm_compute. repeat split. discriminate.
Qed.

Lemma C9_destroyed_content_rejected_witness :
  let c := destroy (request true Sample.content) in
  isDestroyed c = true ∧
  requestSettles Json.parse (Some TheContext) (Fetched Sample.floatTile)
    (mkWorld c []) =
  (Normal tt,
   mkWorld (set_readyPromise
              (deferred_reject (Reason "tileset is destroyed") (readyPromise c))
              (set_state FAILED c)) []).
Proof.
  intros c. split; [reflexivity|].
  apply (C9_destroyed_content_rejected Json.parse (Some TheContext) c []
           Sample.floatTile).
  reflexivity.
Defined.

(** ** The sample tiles, run *)

Example readHeader_rgbTile :
  featureTableJSON <$> Some Sample.rgbTile ≫= (λ tile,
    match readHeader Json.parse tile None with
    | Normal h => Some h
    | Throw _ => None
    end) = Some (JObj Sample.rgbTable).
Proof. vm_compute. reflexivity. Qed.

(** The RGB tile end to end: its color attribute is fed from a view without
    an element type. *)
Example run_rgbTile :
  let run := initialize Json.parse (Some TheContext) Sample.rgbTile None
               Sample.world in
  fst run = Normal tt ∧
  (vertexBuffer <$>
     (vertexArray (_drawCommand (this (snd run))) ≫= λ va,
      va_attributes va !! 1%nat)) = Some (JTypedArray None (JNum 36) (JNum 9)).
Proof. vm_compute. split; reflexivity. Qed.

(** The quantized tile end to end: ready, translucent render state, four
    renderer objects, and no pass on the draw command. *)
Example run_quantizedTile :
  let run := initialize Json.parse (Some TheContext) Sample.quantizedTile None
               Sample.world in
  let c := this (snd run) in
  fst run = Normal tt ∧ state c = READY ∧
  _quantizedVolumeScale c = JArr [JNum 1; JNum 1; JNum 1] ∧
  count (_drawCommand c) = JNum 1 ∧
  pass (_drawCommand c) = None ∧
  List.length (gpu (snd run)) = 4%nat.
Proof. vm_compute. repeat split. Qed.

(** Without a global [context] an otherwise valid tile is not accepted. *)
Example run_without_context :
  fst (initialize Json.parse None Sample.floatTile None Sample.world)
  = Throw (ReferenceError "context").
Proof. vm_compute. reflexivity. Qed.

(* ================================================================== *)
(** * Further properties *)

(** ** The header at an offset *)

Lemma getUint32_drop view b k littleEndian :
  getUint32 view (b + k) littleEndian =
  getUint32 (drop (N.to_nat b) view) k littleEndian.
Proof.
  unfold getUint32. rewrite drop_drop.
  replace (N.to_nat (b + k)) with (N.to_nat b + N.to_nat k)%nat by lia.
  reflexivity.
Qed.

Lemma getStringFromTypedArray_drop view b k n :
  getStringFromTypedArray view (b + k) n =
  getStringFromTypedArray (drop (N.to_nat b) view) k n.
Proof.
  unfold getStringFromTypedArray. rewrite drop_drop.
  replace (N.to_nat (b + k)) with (N.to_nat b + N.to_nat k)%nat by lia.
  reflexivity.
Qed.

Lemma Uint8Array_view_drop view b k n :
  b ≤ N.of_nat (List.length view) →
  Uint8Array_view view (b + k) n =
  Uint8Array_view (drop (N.to_nat b) view) k n.
Proof.
  intros Hb. unfold Uint8Array_view. rewrite drop_drop, length_drop.
  replace (N.to_nat (b + k)) with (N.to_nat b + N.to_nat k)%nat by lia.
  destruct (N.ltb_spec (N.of_nat (List.length view)) (b + k + n));
    destruct (N.ltb_spec (N.of_nat (List.length view - N.to_nat b)) (k + n));
    try reflexivity; lia.
Qed.

Lemma readHeader_drop JSON_parse arrayBuffer b :
  readHeader JSON_parse arrayBuffer (Some b) =
  match readHeader JSON_parse (drop (N.to_nat b) arrayBuffer) None with
  | Normal h => Normal (shiftHeader b h)
  | Throw e => Throw e
  end.
Proof.
  unfold readHeader. change (default 0 (Some b)) with b.
  change (default 0 (@None N)) with 0. unfold sizeOfUint32.
  replace (b + 4 + 4 + 4) with (b + 12) by lia.
  replace (b + 12 + 4) with (b + 16) by lia.
  replace (b + 16 + 4) with (b + 20) by lia.
  change (0 + 4 + 4 + 4) with 12. change (12 + 4) with 16.
  change (16 + 4) with 20. change (0 + 4) with 4.
  set (l := drop (N.to_nat b) arrayBuffer).
  assert (Hm : getMagic arrayBuffer b = getMagic l 0).
  { unfold getMagic. rewrite <- (N.add_0_r b) at 1.
    apply getStringFromTypedArray_drop. }
  rewrite Hm, !getUint32_drop. fold l.
  destruct (negb (getMagic l 0 =? "pnts")%string); [reflexivity|].
  cbn [throwIfC mbind completion_bind].
  destruct (getUint32 l 4 true) as [v|] eqn:Hv; [|reflexivity].
  cbn [mbind completion_bind].
  destruct (negb (v =? 1)); [reflexivity|].
  cbn [throwIfC mbind completion_bind].
  destruct (getUint32 l 12 true) as [jl|]; [|reflexivity].
  cbn [mbind completion_bind].
  destruct (jl =? 0); [reflexivity|].
  cbn [throwIfC mbind completion_bind].
  destruct (getUint32 l 16 true) as [bl|]; [|reflexivity].
  cbn [mbind completion_bind].
  rewrite getStringFromTypedArray_drop. fold l.
  destruct (JSON_parse_completion JSON_parse _) as [table|]; [|reflexivity].
  cbn [mbind completion_bind].
  assert (Hb : b ≤ N.of_nat (List.length arrayBuffer)).
  { assert (Hr : ∃ x, getUint32 l 4 true = Normal x) by eauto.
    apply getUint32_readable in Hr. subst l. rewrite length_drop in Hr. lia. }
  replace (b + 20 + jl) with (b + (20 + jl)) by lia.
  rewrite (Uint8Array_view_drop _ _ _ _ Hb). fold l.
  destruct (Uint8Array_view l (20 + jl) bl) as [binary|]; [|reflexivity].
  cbn [mbind completion_bind mret completion_ret]. unfold shiftHeader. cbn.
  f_equal. f_equal; lia.
Qed.

Lemma resolveVariant_shiftHeader b h :
  resolveVariant (shiftHeader b h) = resolveVariant h.
Proof. reflexivity. Qed.

Lemma initialize_shifted JSON_parse context arrayBuffer rest b w :
  readHeader JSON_parse arrayBuffer (Some b) =
    match readHeader JSON_parse rest None with
    | Normal h => Normal (shiftHeader b h)
    | Throw e => Throw e
    end →
  initialize JSON_parse context arrayBuffer (Some b) w =
  initialize JSON_parse context rest None w.
Proof.
  intros H. unfold initialize. rewrite H.
  destruct (readHeader JSON_parse rest None) as [h|e]; [|reflexivity].
  unfold mbind, JS_bind, liftC. rewrite resolveVariant_shiftHeader.
  reflexivity.
Qed.

(** X1.  Reading a tile at byte offset [b] of a buffer is reading the rest of
    the buffer from [b] on at offset 0: the two runs of [initialize] end the
    same way and leave the same content and renderer record. *)
Theorem initialize_at_offset
    (JSON_parse : string → option jsval) (context : option Context)
    (arrayBuffer : ArrayBuffer) (b : N) (w : World) :
  initialize JSON_parse context arrayBuffer (Some b) w =
  initialize JSON_parse context (drop (N.to_nat b) arrayBuffer) None w.
Proof.
  unfold initialize. rewrite readHeader_drop.
  destruct (readHeader JSON_parse (drop (N.to_nat b) arrayBuffer) None)
    as [h|e]; [|reflexivity].
  unfold mbind, JS_bind, liftC. rewrite resolveVariant_shiftHeader.
  reflexivity.
Qed.

(** ** Which buffers get past the header *)

Lemma getUint32_Throw view byteOffset littleEndian e :
  getUint32 view byteOffset littleEndian = Throw e →
  e = RangeError ∧ N.of_nat (List.length view) < byteOffset + 4.
Proof.
  intros H.
  assert (Hn : ¬ ∃ v, getUint32 view byteOffset littleEndian = Normal v).
  { intros [v Hv]. congruence. }
  rewrite getUint32_readable in Hn. split; [|lia].
  unfold getUint32 in H.
  destruct (drop (N.to_nat byteOffset) view) as [|? [|? [|? [|? ?]]]];
    try congruence.
  by destruct littleEndian.
Qed.

Lemma Uint8Array_view_Throw arrayBuffer byteOffset length e :
  Uint8Array_view arrayBuffer byteOffset length = Throw e →
  e = RangeError ∧ N.of_nat (List.length arrayBuffer) < byteOffset + length.
Proof.
  unfold Uint8Array_view.
  destruct (N.ltb_spec (N.of_nat (List.length arrayBuffer)) (byteOffset + length));
    [|discriminate].
  intros [= <-]. auto.
Qed.

(** X2.  [initialize] gets past the header (lines 158-195) exactly when the
    magic is [pnts], the version word is 1, the length word of the feature
    table text is not 0, [JSON.parse] accepts the text, and the text and the
    binary that the two length words announce lie within the buffer. *)
Theorem readHeader_accepts_iff
    (JSON_parse : string → option jsval) (arrayBuffer : ArrayBuffer)
    (byteOffset : option N) :
  (∃ h, readHeader JSON_parse arrayBuffer byteOffset = Normal h) ↔
  (let b := default 0 byteOffset in
   getMagic arrayBuffer b = "pnts" ∧
   getUint32 arrayBuffer (b + 4) true = Normal 1 ∧
   ∃ jsonLength binaryLength,
     getUint32 arrayBuffer (b + 12) true = Normal jsonLength ∧
     jsonLength ≠ 0 ∧
     getUint32 arrayBuffer (b + 16) true = Normal binaryLength ∧
     is_Some (JSON_parse
                (getStringFromTypedArray arrayBuffer (b + 20) jsonLength)) ∧
     b + 20 + jsonLength + binaryLength ≤ N.of_nat (List.length arrayBuffer)).
Proof.
  split.
  - intros [h H]. cbv zeta.
    destruct (readHeader_Normal _ _ _ _ H)
      as (Hm & Hv & _ & Hjl & Hne & Hbl & _ & Hs & Hp & _ & Hview & _).
    apply Uint8Array_view_Normal in Hview as (_ & Hle & _).
    split; [exact Hm|]. split; [exact Hv|].
    exists (featureTableJSONByteLength h), (featureTableBinaryByteLength h).
    repeat split; try assumption. rewrite <- Hs, Hp. eauto.
  - cbv zeta. set (b := default 0 byteOffset).
    intros (Hm & Hv & jl & bl & Hjl & Hne & Hbl & [table Hp] & Hle).
    unfold readHeader. fold b. unfold sizeOfUint32.
    replace (b + 4 + 4 + 4) with (b + 12) by lia.
    replace (b + 12 + 4) with (b + 16) by lia.
    replace (b + 16 + 4) with (b + 20) by lia.
    rewrite Hm, Hv, Hjl, Hbl. cbn.
    apply N.eqb_neq in Hne. rewrite Hne. cbn.
    unfold JSON_parse_completion. rewrite Hp. cbn.
    unfold Uint8Array_view.
    destruct (N.ltb_spec (N.of_nat (List.length arrayBuffer)) (b + 20 + jl + bl));
      [lia|]. cbn. eauto.
Qed.

(** X3.  When the header is refused, [initialize] ends by that throw and has
    changed nothing, and the throw is one of three kinds, each with its cause:
    a format error (wrong magic, version word not 1, or length word 0), a
    [SyntaxError] ([JSON.parse] refuses the text), or a [RangeError] (the
    magic is right and the 20 header bytes, or the text and binary announced
    by the length words, do not fit in the buffer). *)
Theorem header_refusals
    (JSON_parse : string → option jsval) (context : option Context)
    (arrayBuffer : ArrayBuffer) (byteOffset : option N) (w : World) (e : error) :
  readHeader JSON_parse arrayBuffer byteOffset = Throw e →
  let b := default 0 byteOffset in
  initialize JSON_parse context arrayBuffer byteOffset w = (Throw e, w) ∧
  ((FormatError e ∧
    (getMagic arrayBuffer b ≠ "pnts" ∨
     (∃ v, getUint32 arrayBuffer (b + 4) true = Normal v ∧ v ≠ 1) ∨
     getUint32 arrayBuffer (b + 12) true = Normal 0)) ∨
   (e = SyntaxError ∧
    ∃ jsonLength,
      getUint32 arrayBuffer (b + 12) true = Normal jsonLength ∧
      JSON_parse (getStringFromTypedArray arrayBuffer (b + 20) jsonLength)
        = None) ∨
   (e = RangeError ∧ getMagic arrayBuffer b = "pnts" ∧
    (N.of_nat (List.length arrayBuffer) < b + 20 ∨
     ∃ jsonLength binaryLength,
       getUint32 arrayBuffer (b + 12) true = Normal jsonLength ∧
       getUint32 arrayBuffer (b + 16) true = Normal binaryLength ∧
       N.of_nat (List.length arrayBuffer) < b + 20 + jsonLength + binaryLength))).
Proof.
  intros H b. split; [by apply initialize_header_throw|].
  unfold readHeader in H. fold b in H. unfold sizeOfUint32 in H.
  replace (b + 4 + 4 + 4) with (b + 12) in H by lia.
  replace (b + 12 + 4) with (b + 16) in H by lia.
  replace (b + 16 + 4) with (b + 20) in H by lia.
  destruct (String.eqb_spec (getMagic arrayBuffer b) "pnts") as [Hm|Hm];
    cbn in H.
  2: { injection H as <-. left. split; [by eexists | by left]. }
  destruct (getUint32 arrayBuffer (b + 4) true) as [v|e1] eqn:Hv; cbn in H.
  2: { injection H as <-. apply getUint32_Throw in Hv as [-> Hlen].
       right. right. repeat split; [exact Hm|]. left. lia. }
  destruct (N.eqb_spec v 1) as [->|Hne]; cbn in H.
  2: { injection H as <-. left. split; [by eexists|]. right. left. eauto. }
  destruct (getUint32 arrayBuffer (b + 12) true) as [jl|e1] eqn:Hjl; cbn in H.
  2: { injection H as <-. apply getUint32_Throw in Hjl as [-> Hlen].
       right. right. repeat split; [exact Hm|]. left. lia. }
  destruct (N.eqb_spec jl 0) as [->|Hne]; cbn in H.
  { injection H as <-. left. split; [by eexists|]. right. right. reflexivity. }
  destruct (getUint32 arrayBuffer (b + 16) true) as [bl|e1] eqn:Hbl; cbn in H.
  2: { injection H as <-. apply getUint32_Throw in Hbl as [-> Hlen].
       right. right. repeat split; [exact Hm|]. left. lia. }
  unfold JSON_parse_completion in H.
  destruct (JSON_parse _) as [table|] eqn:Hp; cbn in H.
  2: { injection H as <-. right. left. split; [reflexivity|]. eauto. }
  destruct (Uint8Array_view _ _ _) as [binary|e1] eqn:Hview; cbn in H;
    [discriminate|].
  injection H as <-. apply Uint8Array_view_Throw in Hview as [-> Hlen].
  right. right. repeat split; [exact Hm|]. right. eauto.
Qed.

Lemma header_refusals_witness :
  readHeader Json.parse (take 6 Sample.floatTile) None = Throw RangeError ∧
  initialize Json.parse (Some TheContext) (take 6 Sample.floatTile) None
    Sample.world = (Throw RangeError, Sample.world).
Proof.
  assert (H : readHeader Json.parse (take 6 Sample.floatTile) None
              = Throw RangeError) by (vm_compute; reflexivity).
  split; [exact H|].
  exact (proj1 (header_refusals Json.parse (Some TheContext)
                  (take 6 Sample.floatTile) None Sample.world RangeError H)).
Defined.

(** X4.  The [byteLength] word of the header (bytes 8 to 11 after the start)
    is skipped and never read: two buffers that differ only in those four
    bytes are treated alike. *)
Theorem byteLength_word_ignored
    (JSON_parse : string → option jsval) (context : option Context)
    (before word1 word2 after : list byte) (b : N) (w : World) :
  List.length before = (N.to_nat b + 8)%nat →
  List.length word1 = 4%nat →
  List.length word2 = 4%nat →
  initialize JSON_parse context (before ++ word1 ++ after) (Some b) w =
  initialize JSON_parse context (before ++ word2 ++ after) (Some b) w.
Proof.
  intros Hb H1 H2.
  rewrite !(initialize_shifted _ _ _ _ _ _ (readHeader_drop _ _ _)).
  rewrite !drop_app_le by lia.
  pose proof (length_drop before (N.to_nat b)) as Hd.
  destruct (drop (N.to_nat b) before)
    as [|m0 [|m1 [|m2 [|m3 [|v0 [|v1 [|v2 [|v3 [|? ?]]]]]]]]];
    cbn in Hd; try lia.
  destruct word1 as [|a0 [|a1 [|a2 [|a3 [|? ?]]]]]; cbn in H1; try lia.
  destruct word2 as [|c0 [|c1 [|c2 [|c3 [|? ?]]]]]; cbn in H2; try lia.
  set (buffer1 := [m0; m1; m2; m3; v0; v1; v2; v3] ++ [a0; a1; a2; a3] ++ after).
  set (buffer2 := [m0; m1; m2; m3; v0; v1; v2; v3] ++ [c0; c1; c2; c3] ++ after).
  assert (Hh : readHeader JSON_parse buffer1 None
               = readHeader JSON_parse buffer2 None).
  { unfold readHeader. change (default 0 (@None N)) with 0.
    unfold sizeOfUint32.
    change (0 + 4 + 4 + 4) with 12. change (12 + 4) with 16.
    change (16 + 4) with 20. change (0 + 4) with 4.
    change (getMagic buffer1 0) with (getMagic buffer2 0).
    change (getUint32 buffer1 4 true) with (getUint32 buffer2 4 true).
    change (getUint32 buffer1 12 true) with (getUint32 buffer2 12 true).
    change (getUint32 buffer1 16 true) with (getUint32 buffer2 16 true).
    destruct (negb (getMagic buffer2 0 =? "pnts")%string); [reflexivity|].
    cbn [throwIfC mbind completion_bind].
    destruct (getUint32 buffer2 4 true) as [v|]; [|reflexivity].
    cbn [mbind completion_bind].
    destruct (negb (v =? 1)); [reflexivity|].
    cbn [throwIfC mbind completion_bind].
    destruct (getUint32 buffer2 12 true) as [jl|]; [|reflexivity].
    cbn [mbind completion_bind].
    destruct (jl =? 0); [reflexivity|].
    cbn [throwIfC mbind completion_bind].
    destruct (getUint32 buffer2 16 true) as [bl|]; [|reflexivity].
    cbn [mbind completion_bind].
    change (getStringFromTypedArray buffer1 20 jl)
      with (getStringFromTypedArray buffer2 20 jl).
    destruct (JSON_parse_completion JSON_parse _) as [table|]; [|reflexivity].
    cbn [mbind completion_bind].
    replace (20 + jl) with (12 + (8 + jl)) by lia.
    rewrite (Uint8Array_view_drop buffer1), (Uint8Array_view_drop buffer2)
      by (cbn; lia).
    reflexivity. }
  unfold initialize. rewrite Hh. reflexivity.
Qed.

Lemma byteLength_word_ignored_witness :
  initialize Json.parse (Some TheContext)
    (take 8 Sample.floatTile ++ Sample.uint32le 58 ++ drop 12 Sample.floatTile)
    (Some 0) Sample.world =
  initialize Json.parse (Some TheContext)
    (take 8 Sample.floatTile ++ Sample.uint32le 0 ++ drop 12 Sample.floatTile)
    (Some 0) Sample.world.
Proof.
  apply (byteLength_word_ignored Json.parse (Some TheContext)
           (take 8 Sample.floatTile) (Sample.uint32le 58) (Sample.uint32le 0)
           (drop 12 Sample.floatTile) 0 Sample.world);
    reflexivity.
Defined.

(** ** The flag tuple, read off the table *)

Lemma getGlobalProperty_defined resources properties semantic ty cnt value :
  json resources = JObj properties →
  getGlobalProperty resources semantic ty cnt = Normal value →
  defined value = present (JObj properties) semantic.
Proof.
  intros Hjson H.
  destruct (getGlobalProperty_object resources properties semantic ty cnt Hjson)
    as (v & Hv & Hd).
  congruence.
Qed.

Lemma resolveColors_Normal properties resources pointsLength w colors isT isC w1 :
  json resources = JObj properties →
  resolveColors (JObj properties) resources pointsLength w
    = (Normal (colors, isT, isC), w1) →
  let table := JObj properties in
  defined colors = present table "RGBA" || present table "RGB" ∧
  isC = negb (present table "RGBA") && negb (present table "RGB") &&
        present table "CONSTANT_COLOR" ∧
  isT = present table "RGBA" ||
        isC && js_lt (alpha (_constantColor (this w1))) 1 ∧
  (isC = false → w1 = w).
Proof.
  intros Hjson H table.
  unfold resolveColors in H. js_unfold in H.
  cbn -[getGlobalProperty ComponentDatatype js_times getElement] in H.
  unfold table, present. cbn.
  destruct (defined (default JUndefined (properties !! "RGBA"))) eqn:H1.
  { destruct (getGlobalProperty _ "RGBA" _ _) as [v|] eqn:Hv; [|discriminate].
    injection H as <- <- <- <-.
    rewrite (getGlobalProperty_defined _ _ _ _ _ _ Hjson Hv).
    unfold present. cbn. rewrite H1. auto. }
  destruct (defined (default JUndefined (properties !! "RGB"))) eqn:H2.
  { destruct (getGlobalProperty _ "RGB" _ _) as [v|] eqn:Hv; [|discriminate].
    injection H as <- <- <- <-.
    rewrite (getGlobalProperty_defined _ _ _ _ _ _ Hjson Hv).
    unfold present. cbn. rewrite H2. auto. }
  destruct (defined (default JUndefined (properties !! "CONSTANT_COLOR")))
    eqn:H3.
  2: { injection H as <- <- <- <-. auto. }
  case_steps H; simplify_eq/=. repeat split; auto. discriminate.
Qed.

Lemma resolveNormals_Normal properties resources pointsLength w normals isO w1 :
  json resources = JObj properties →
  resolveNormals (JObj properties) resources pointsLength w
    = (Normal (normals, isO), w1) →
  let table := JObj properties in
  defined normals = present table "NORMAL" || present table "NORMAL_OCT16P" ∧
  isO = negb (present table "NORMAL") && present table "NORMAL_OCT16P".
Proof.
  intros Hjson H table.
  unfold resolveNormals in H. js_unfold in H.
  cbn -[getGlobalProperty ComponentDatatype js_times] in H.
  unfold table, present. cbn.
  destruct (defined (default JUndefined (properties !! "NORMAL"))) eqn:H1.
  { destruct (getGlobalProperty _ "NORMAL" _ _) as [v|] eqn:Hv; [|discriminate].
    injection H as <- <- <-.
    rewrite (getGlobalProperty_defined _ _ _ _ _ _ Hjson Hv).
    unfold present. cbn. rewrite H1. auto. }
  destruct (defined (default JUndefined (properties !! "NORMAL_OCT16P")))
    eqn:H2.
  2: { injection H as <- <- <-. auto. }
  destruct (getGlobalProperty _ "NORMAL_OCT16P" _ _) as [v|] eqn:Hv;
    [|discriminate].
  injection H as <- <- <-.
  rewrite (getGlobalProperty_defined _ _ _ _ _ _ Hjson Hv).
  unfold present. cbn. rewrite H2. auto.
Qed.

(** X5.  The flag tuple [initialize] resolves is determined by which keys of
    the feature table are defined: positions are quantized when [POSITION] is
    not defined and [POSITION_QUANTIZED] is; there are per-point colors when
    [RGBA] or [RGB] is defined; there are normals when [NORMAL] or
    [NORMAL_OCT16P] is defined, and they are packed only when [NORMAL] is not
    defined ([NORMAL] comes first); the tile is translucent when [RGBA] is
    defined, or when neither [RGBA] nor [RGB] is, [CONSTANT_COLOR] is, and the
    alpha of the color the content ends with is below 1.  The position buffer
    is always defined, and the color and normal flags say whether their
    buffers are. *)
Theorem resolved_flags
    (h : Header) (w w1 : World) (f : VariantFlags)
    (positions colors normals pointsLength : jsval) :
  resolveVariant h w = (Normal (f, (positions, colors, normals), pointsLength), w1) →
  let table := featureTableJSON h in
  isQuantized f =
    negb (present table "POSITION") && present table "POSITION_QUANTIZED" ∧
  hasColors f = present table "RGBA" || present table "RGB" ∧
  isTranslucent f =
    present table "RGBA" ||
    negb (present table "RGB") && present table "CONSTANT_COLOR" &&
    js_lt (alpha (_constantColor (this w1))) 1 ∧
  hasNormals f = present table "NORMAL" || present table "NORMAL_OCT16P" ∧
  isOctEncoded16P f =
    negb (present table "NORMAL") && present table "NORMAL_OCT16P" ∧
  defined positions = true ∧
  defined colors = hasColors f ∧
  defined normals = hasNormals f.
Proof.
  intros H table. unfold resolveVariant in H.
  apply JS_bind_Normal in H as ([resources pl] & w2 & Hpl & H).
  apply liftC_Normal in Hpl as [Hpl ->].
  destruct (readPointsLength_object h _ Hpl) as (properties & Ht & Hj).
  cbn [fst] in Hj. subst table. rewrite Ht in *.
  apply JS_bind_Normal in H as ([p isQ] & w2 & Hpos & H).
  apply JS_bind_Normal in H as ([[c isT] isC] & w3 & Hcol & H).
  apply JS_bind_Normal in H as ([n isO] & w4 & Hnor & H).
  apply JS_bind_Normal in H as ([] & w5 & Hdef & H).
  injection H as <- <- <- <- <- <-.
  apply resolvePositions_Normal in Hpos as (HisQ & Hdp & _).
  pose proof (resolveNormals_frame _ _ _ _ _ _ Hnor) as ->.
  apply (resolveNormals_Normal _ _ _ _ _ _ _ Hj) in Hnor as (Hdn & HisO).
  apply (resolveColors_Normal _ _ _ _ _ _ _ _ Hj) in Hcol
    as (Hdc & HisC & HisT & Hw).
  cbn [isQuantized hasColors isTranslucent hasNormals isOctEncoded16P].
  repeat split; try assumption.
  rewrite HisT. rewrite Hdc in Hdef.
  destruct (present (JObj properties) "RGBA") eqn:H1; [reflexivity|].
  destruct (present (JObj properties) "RGB") eqn:H2.
  { cbn in HisC. subst isC. reflexivity. }
  cbn in HisC, Hdef |- *. subst isC.
  destruct (defined (default JUndefined (properties !! "CONSTANT_COLOR")));
    cbn in Hdef |- *; [|reflexivity].
  injection Hdef as <-. reflexivity.
Qed.

Example readHeader_quantizedTile :
  readHeader Json.parse Sample.quantizedTile None
  = Normal Sample2.quantizedHeader.
Proof. vm_compute. reflexivity. Qed.

Lemma resolved_flags_witness :
  let f := mkFlags true true true true true in
  let table := featureTableJSON Sample2.quantizedHeader in
  isQuantized f =
    negb (present table "POSITION") && present table "POSITION_QUANTIZED" ∧
  isOctEncoded16P f =
    negb (present table "NORMAL") && present table "NORMAL_OCT16P".
Proof.
  intros f table.
  destruct (resolved_flags Sample2.quantizedHeader Sample.world
              Sample2.quantizedResolved f
              (JTypedArray (Some UNSIGNED_SHORT) (JNum 0) (JNum 3))
              (JTypedArray (Some UNSIGNED_BYTE) (JNum 6) (JNum 4))
              (JTypedArray (Some UNSIGNED_BYTE) (JNum 10) (JNum 2))
              (JNum 1))
    as (H1 & _ & _ & _ & H5 & _); [vm_compute; reflexivity|].
  split; assumption.
Defined.

(** ** The constant color *)

Lemma getElement_unsigned_byte binary byteOffset count i b :
  (0 ≤ byteOffset)%Z → (Z.of_nat i < count)%Z →
  binary !! (Z.to_nat byteOffset + i)%nat = Some b →
  getElement binary
    (JTypedArray (Some UNSIGNED_BYTE) (JNum byteOffset) (JNum count)) i
  = Normal (JNum (Z.of_N (Byte.to_N b))).
Proof.
  intros Ho Hi Hb. cbn.
  destruct (Z.leb_spec 0 byteOffset); [|lia].
  destruct (Z.ltb_spec (Z.of_nat i) count); [|lia].
  cbn. rewrite Hb. reflexivity.
Qed.

(** X6.  A table with neither [RGBA] nor [RGB] whose [CONSTANT_COLOR] points
    into the binary at [byteOffset]: the four bytes found there, each divided
    by 255, become the color of the content; no color buffer is built; and the
    tile is translucent exactly when the alpha byte is below 255. *)
Theorem constant_color_from_binary
    (properties descriptor : gmap string jsval)
    (resources : Cesium3DTileFeatureTableResources)
    (pointsLength : jsval) (w : World) (byteOffset : Z) (r g b a : byte) :
  json resources = JObj properties →
  present (JObj properties) "RGBA" = false →
  present (JObj properties) "RGB" = false →
  properties !! "CONSTANT_COLOR" = Some (JObj descriptor) →
  descriptor !! "byteOffset" = Some (JNum byteOffset) →
  (0 ≤ byteOffset)%Z →
  take 4 (drop (Z.to_nat byteOffset) (buffer resources)) = [r; g; b; a] →
  resolveColors (JObj properties) resources pointsLength w =
  (Normal (JUndefined, (Z.of_N (Byte.to_N a) <? 255)%Z, true),
   mkWorld
     (set_constantColor
        (mkColor (Num (Z.of_N (Byte.to_N r) # 255))
                 (Num (Z.of_N (Byte.to_N g) # 255))
                 (Num (Z.of_N (Byte.to_N b) # 255))
                 (Num (Z.of_N (Byte.to_N a) # 255)))
        (this w))
     (gpu w)).
Proof.
  intros Hjson H1 H2 Hcc Hoff Ho Hbytes.
  assert (Hel : ∀ i x, [r; g; b; a] !! i = Some x →
                getElement (buffer resources)
                  (JTypedArray (Some UNSIGNED_BYTE) (JNum byteOffset) (JNum 4)) i
                = Normal (JNum (Z.of_N (Byte.to_N x)))).
  { intros i x Hx. apply getElement_unsigned_byte; [exact Ho| |].
    - apply lookup_lt_Some in Hx. cbn in Hx. lia.
    - rewrite <- Hbytes in Hx. apply lookup_take_Some in Hx as [Hx _].
      by rewrite lookup_drop in Hx. }
  assert (Hv : getGlobalProperty resources "CONSTANT_COLOR"
                 (ComponentDatatype "UNSIGNED_BYTE") (JNum 4)
               = Normal (JTypedArray (Some UNSIGNED_BYTE) (JNum byteOffset)
                           (JNum 4))).
  { unfold getGlobalProperty. rewrite Hjson. cbn. rewrite Hcc. cbn.
    rewrite Hoff. reflexivity. }
  unfold present in H1, H2. cbn in H1, H2.
  unfold resolveColors. js_unfold.
  cbn -[getGlobalProperty ComponentDatatype js_times getElement]. rewrite H1.
  cbn -[getGlobalProperty ComponentDatatype js_times getElement]. rewrite H2.
  cbn -[getGlobalProperty ComponentDatatype js_times getElement].
  rewrite Hcc. cbn -[getGlobalProperty ComponentDatatype js_times getElement].
  rewrite Hv.
  rewrite (Hel 0%nat r), (Hel 1%nat g), (Hel 2%nat b), (Hel 3%nat a)
    by reflexivity.
  cbn. rewrite Z.mul_1_r. reflexivity.
Qed.

Lemma constant_color_from_binary_witness :
  fst (resolveColors (JObj Sample2.tintedTable) Sample2.tintedResources (JNum 1)
         Sample.world)
  = Normal (JUndefined, true, true).
Proof.
  rewrite (constant_color_from_binary Sample2.tintedTable
             (<["byteOffset" := JNum 12]> ∅) Sample2.tintedResources (JNum 1)
             Sample.world 12 "255"%byte "000"%byte "000"%byte "128"%byte);
    reflexivity || lia.
Defined.

(** ** What a run leaves behind *)

Lemma JS_bind_cases {A B : Type} (m : JS A) (k : A → JS B) w r w' :
  (m ≫= k) w = (r, w') →
  (∃ a w1, m w = (Normal a, w1) ∧ k a w1 = (r, w')) ∨
  (∃ e, m w = (Throw e, w') ∧ r = Throw e).
Proof.
  unfold mbind, JS_bind. destruct (m w) as [[a|e] w1]; intros H.
  - left. eauto.
  - injection H as <- <-. right. eauto.
Qed.

Lemma liftC_world {A : Type} (c : completion A) w r w' :
  liftC c w = (r, w') → w' = w.
Proof. unfold liftC. by intros [= _ ->]. Qed.

Lemma differOnlyInColorAndScale_refl c : differOnlyInColorAndScale c c.
Proof. unfold differOnlyInColorAndScale. tauto. Qed.

Lemma differOnlyInColorAndScale_trans c1 c2 c3 :
  differOnlyInColorAndScale c1 c2 → differOnlyInColorAndScale c2 c3 →
  differOnlyInColorAndScale c1 c3.
Proof.
  unfold differOnlyInColorAndScale. intros H12 H23.
  destruct H12 as (?&?&?&?&?&?&?&?&?&?), H23 as (?&?&?&?&?&?&?&?&?&?).
  repeat split; congruence.
Qed.

Lemma resolvePositions_changes table resources pointsLength w r w1 :
  resolvePositions table resources pointsLength w = (r, w1) →
  gpu w1 = gpu w ∧ differOnlyInColorAndScale (this w) (this w1).
Proof.
  intros H. unfold resolvePositions in H. js_unfold in H.
  case_steps H; simplify_eq/=;
    (split; [reflexivity|]); unfold differOnlyInColorAndScale; cbn; tauto.
Qed.

Lemma resolveColors_changes table resources pointsLength w r w1 :
  resolveColors table resources pointsLength w = (r, w1) →
  gpu w1 = gpu w ∧ differOnlyInColorAndScale (this w) (this w1).
Proof.
  intros H. unfold resolveColors in H. js_unfold in H.
  case_steps H; simplify_eq/=;
    (split; [reflexivity|]); unfold differOnlyInColorAndScale; cbn; tauto.
Qed.

Lemma resolveVariant_changes h w r w1 :
  resolveVariant h w = (r, w1) →
  gpu w1 = gpu w ∧ differOnlyInColorAndScale (this w) (this w1).
Proof.
  intros H. unfold resolveVariant in H.
  apply JS_bind_cases in H as [([resources pl] & w2 & Hpl & H)|(e & Hpl & _)].
  2: { apply liftC_world in Hpl as ->.
       auto using differOnlyInColorAndScale_refl. }
  apply liftC_world in Hpl as ->.
  apply JS_bind_cases in H as [([p isQ] & w2 & Hpos & H)|(e & Hpos & _)].
  2: { by apply resolvePositions_changes in Hpos. }
  apply resolvePositions_changes in Hpos as [Hg2 Hc2].
  apply JS_bind_cases in H as [([[c isT] isC] & w3 & Hcol & H)|(e & Hcol & _)].
  2: { apply resolveColors_changes in Hcol as [Hg3 Hc3].
       split; [congruence|]. by eapply differOnlyInColorAndScale_trans. }
  apply resolveColors_changes in Hcol as [Hg3 Hc3].
  assert (Hg : gpu w3 = gpu w) by congruence.
  assert (Hc : differOnlyInColorAndScale (this w) (this w3))
    by (by eapply differOnlyInColorAndScale_trans).
  apply JS_bind_cases in H as [([n isO] & w4 & Hnor & H)|(e & Hnor & _)].
  2: { by apply resolveNormals_frame in Hnor as ->. }
  apply resolveNormals_frame in Hnor as ->.
  apply JS_bind_cases in H as [([] & w5 & Hdef & H)|(e & Hdef & _)].
  - injection H as _ <-.
    destruct (negb (defined c) && negb isC); cbn in Hdef;
      injection Hdef as <-; [|auto].
    split; [exact Hg|]. eapply differOnlyInColorAndScale_trans; [exact Hc|].
    unfold differOnlyInColorAndScale. cbn. tauto.
  - destruct (negb (defined c) && negb isC); discriminate.
Qed.

(** ** Runs on a renderer whose constructors may throw *)

Lemma initializeWith_reliable JSON_parse context arrayBuffer byteOffset :
  initializeWith reliable JSON_parse context arrayBuffer byteOffset =
  initialize JSON_parse context arrayBuffer byteOffset.
Proof. reflexivity. Qed.

Lemma requestSettlesWith_reliable JSON_parse context outcome :
  requestSettlesWith reliable JSON_parse context outcome =
  requestSettles JSON_parse context outcome.
Proof. reflexivity. Qed.

Lemma rejectionOfWith_reliable JSON_parse context outcome w :
  rejectionOfWith reliable JSON_parse context outcome w =
  rejectionOf JSON_parse context outcome w.
Proof. reflexivity. Qed.

Lemma assembleWith_without_context fault f positions colors normals
    pointsLength w :
  assembleWith fault None f positions colors normals pointsLength w =
  (Throw (ReferenceError "context"), w).
Proof. reflexivity. Qed.

Lemma assembleWith_run fault ctx f positions colors normals pointsLength w :
  let va := vertexArrayOf ctx f positions colors normals in
  let sp := programOf ctx f in
  let rs := buildRenderState (isTranslucent f) in
  let dc := drawCommandOf ctx f positions colors normals pointsLength (this w) in
  assembleWith fault (Some ctx) f positions colors normals pointsLength w =
  match fault (CreatedVertexArray va) with
  | Some e => (Throw e, w)
  | None =>
  match fault (CreatedShaderProgram sp) with
  | Some e => (Throw e, mkWorld (this w) (gpu w ++ [CreatedVertexArray va]))
  | None =>
  match fault (CreatedRenderState rs) with
  | Some e =>
      (Throw e, mkWorld (this w)
                  (gpu w ++ [CreatedVertexArray va; CreatedShaderProgram sp]))
  | None =>
  match fault (CreatedDrawCommand dc) with
  | Some e =>
      (Throw e, mkWorld (this w)
                  (gpu w ++ [CreatedVertexArray va; CreatedShaderProgram sp;
                             CreatedRenderState rs]))
  | None =>
      (Normal tt, assembled ctx f positions colors normals pointsLength w)
  end end end end.
Proof.
  destruct w as [c g]. cbv zeta.
  unfold assembleWith, assembled, vertexArrayOf, programOf, drawCommandOf.
  cbv [mbind mret JS_bind JS_ret liftC createdWith created throw getThis
       modifyThis readContext].
  cbn [this gpu].
  destruct (fault (CreatedVertexArray _)); [reflexivity|].
  destruct (fault (CreatedShaderProgram _)); [reflexivity|].
  destruct (fault (CreatedRenderState _));
    [cbn; rewrite <- !app_assoc; reflexivity|].
  destruct (fault (CreatedDrawCommand _));
    cbn; rewrite <- !app_assoc; reflexivity.
Qed.

(** What [assembleWith] leaves when it throws: the content as it was, and of
    the objects it asks for those made before the throw. *)
Lemma assembleWith_Throw fault context f positions colors normals pointsLength
    w e w' :
  assembleWith fault context f positions colors normals pointsLength w
    = (Throw e, w') →
  this w' = this w ∧
  ∃ made,
    gpu w' = gpu w ++ made ∧
    Forall (λ r, fault r = None) made ∧
    ((made = [] ∧ context = None ∧ e = ReferenceError "context") ∨
     (∃ ctx r rest,
        context = Some ctx ∧
        requestedObjects ctx f positions colors normals pointsLength (this w)
          = made ++ r :: rest ∧
        fault r = Some e)).
Proof.
  destruct context as [ctx|].
  2: { rewrite assembleWith_without_context. intros [= <- <-].
       split; [reflexivity|]. exists []. rewrite app_nil_r.
       split; [reflexivity|]. split; [constructor|]. left. done. }
  rewrite assembleWith_run. cbv zeta. unfold requestedObjects.
  destruct (fault (CreatedVertexArray _)) as [e1|] eqn:H1.
  { intros [= <- <-]. split; [reflexivity|]. exists []. rewrite app_nil_r.
    split; [reflexivity|]. split; [constructor|]. right.
    eexists ctx, _, _. split; [reflexivity|]. split; [reflexivity|]. exact H1. }
  destruct (fault (CreatedShaderProgram _)) as [e2|] eqn:H2.
  { intros [= <- <-]. split; [reflexivity|]. eexists [_].
    split; [reflexivity|]. split; [repeat constructor; assumption|]. right.
    eexists ctx, _, _. split; [reflexivity|]. split; [reflexivity|]. exact H2. }
  destruct (fault (CreatedRenderState _)) as [e3|] eqn:H3.
  { intros [= <- <-]. split; [reflexivity|]. eexists [_; _].
    split; [reflexivity|]. split; [repeat constructor; assumption|]. right.
    eexists ctx, _, _. split; [reflexivity|]. split; [reflexivity|]. exact H3. }
  destruct (fault (CreatedDrawCommand _)) as [e4|] eqn:H4.
  { intros [= <- <-]. split; [reflexivity|]. eexists [_; _; _].
    split; [reflexivity|]. split; [repeat constructor; assumption|]. right.
    eexists ctx, _, _. split; [reflexivity|]. split; [reflexivity|]. exact H4. }
  discriminate.
Qed.

Lemma assembleWith_Normal fault context f positions colors normals pointsLength
    w w' :
  assembleWith fault context f positions colors normals pointsLength w
    = (Normal tt, w') →
  ∃ ctx,
    context = Some ctx ∧
    w' = assembled ctx f positions colors normals pointsLength w ∧
    Forall (λ r, fault r = None)
      (requestedObjects ctx f positions colors normals pointsLength (this w)).
Proof.
  destruct context as [ctx|].
  2: { rewrite assembleWith_without_context. discriminate. }
  rewrite assembleWith_run. cbv zeta. unfold requestedObjects.
  destruct (fault (CreatedVertexArray _)) eqn:H1; [discriminate|].
  destruct (fault (CreatedShaderProgram _)) eqn:H2; [discriminate|].
  destruct (fault (CreatedRenderState _)) eqn:H3; [discriminate|].
  destruct (fault (CreatedDrawCommand _)) eqn:H4; [discriminate|].
  intros [= <-]. exists ctx. split; [reflexivity|]. split; [reflexivity|].
  repeat constructor; assumption.
Qed.

(** The content after a throw of [initializeWith], whatever the throw. *)
Lemma initializeWith_Throw_content fault JSON_parse context arrayBuffer
    byteOffset w e w' :
  initializeWith fault JSON_parse context arrayBuffer byteOffset w
    = (Throw e, w') →
  differOnlyInColorAndScale (this w) (this w').
Proof.
  intros H. unfold initializeWith in H.
  apply JS_bind_cases in H as [(h & w1 & Hh & H)|(e1 & Hh & _)].
  2: { apply liftC_world in Hh as ->. apply differOnlyInColorAndScale_refl. }
  apply liftC_world in Hh as ->.
  apply JS_bind_cases in H
    as [([[f [[p c] n]] pl] & w1 & Hv & H)|(e1 & Hv & _)].
  2: { by apply resolveVariant_changes in Hv as [_ ?]. }
  apply resolveVariant_changes in Hv as [_ Hc].
  apply assembleWith_Throw in H as [Ht _]. by rewrite Ht.
Qed.

(** The content after an accepted run of [initializeWith]. *)
Lemma initializeWith_Normal_content fault JSON_parse context arrayBuffer
    byteOffset w w' :
  initializeWith fault JSON_parse context arrayBuffer byteOffset w
    = (Normal tt, w') →
  state (this w') = READY ∧
  readyPromise (this w') = deferred_resolve (readyPromise (this w)) ∧
  contentReadyToProcessPromise (this w') =
    deferred_resolve (contentReadyToProcessPromise (this w)).
Proof.
  intros H. unfold initializeWith in H.
  apply JS_bind_Normal in H as (h & w1 & Hh & H).
  apply liftC_Normal in Hh as [Hh ->].
  apply JS_bind_Normal in H as ([[f [[p cl] n]] pl] & w1 & Hv & H).
  apply resolveVariant_changes in Hv as [_ Hc].
  apply assembleWith_Normal in H as (ctx & _ & -> & _).
  destruct Hc as (_ & _ & _ & _ & _ & Hcp & Hrp & _).
  unfold assembled. cbn. rewrite Hcp, Hrp. done.
Qed.



(** X8.  A run of [initialize] that ends normally leaves the content
    [READY] with both promises resolved (a promise settled before stays as
    it was), and has asked the renderer for exactly four objects, in this
    order: the vertex array, the shader program, the render state and the
    draw command.  The draw command of the content is that last object and
    refers to the three before it; it is not culled and is bounded by the
    sphere of the tile.  Point size, tile and destroyed mark are untouched. *)
Theorem accepted_run_leaves
    (JSON_parse : string → option jsval) (context : option Context)
    (arrayBuffer : ArrayBuffer) (byteOffset : option N) (w w' : World) :
  initialize JSON_parse context arrayBuffer byteOffset w = (Normal tt, w') →
  let c := this w in
  let c' := this w' in
  let dc := _drawCommand c' in
  state c' = READY ∧
  readyPromise c' = deferred_resolve (readyPromise c) ∧
  contentReadyToProcessPromise c' =
    deferred_resolve (contentReadyToProcessPromise c) ∧
  (∃ va sp rs,
      gpu w' = gpu w ++ [CreatedVertexArray va; CreatedShaderProgram sp;
                         CreatedRenderState rs; CreatedDrawCommand dc] ∧
      vertexArray dc = Some va ∧ shaderProgram dc = Some sp ∧
      renderState dc = Some rs) ∧
  cull dc = false ∧
  boundingVolume dc = Some (contentBoundingSphere (_tile c)) ∧
  owner_is_this dc = true ∧
  _tile c' = _tile c ∧ _pointSize c' = _pointSize c ∧
  destroyed c' = destroyed c.
Proof.
  intros H c c' dc. subst c c' dc. unfold initialize in H.
  apply JS_bind_Normal in H as (h & w1 & Hh & H).
  apply liftC_Normal in Hh as [Hh ->].
  apply JS_bind_Normal in H as ([[f [[p cl] n]] pl] & w1 & Hv & H).
  apply resolveVariant_changes in Hv as [Hg Hc].
  apply assemble_Normal in H as (ctx & _ & ->).
  destruct Hc as (_ & Ht & Hps & _ & _ & Hcp & Hrp & _ & _ & Hd).
  unfold assembled. cbn. rewrite Hg, Ht, Hps, Hcp, Hrp, Hd.
  repeat split. do 3 eexists. repeat split.
Qed.

Lemma accepted_run_leaves_witness :
  let w' := snd (initialize Json.parse (Some TheContext) Sample.floatTile None
                   Sample.world) in
  state (this w') = READY ∧
  readyPromise (this w') = deferred_resolve (readyPromise Sample.content).
Proof.
  intros w'.
  destruct (accepted_run_leaves Json.parse (Some TheContext) Sample.floatTile
              None Sample.world w') as (H1 & H2 & _);
    [vm_compute; reflexivity|].
  split; assumption.
Defined.

(** X9.  What acceptance requires.  A run of [initialize] ends normally only
    if the header is accepted, the accessor finds a defined [POINTS_LENGTH],
    [POSITION] is defined or both [POSITION_QUANTIZED] and
    [QUANTIZED_VOLUME_SCALE] are, a global [context] exists, and none of the
    four constructors of the renderer threw; the renderer has then made
    exactly the four objects asked for. *)
Theorem accepted_only_if
    (fault : RendererFaults)
    (JSON_parse : string → option jsval) (context : option Context)
    (arrayBuffer : ArrayBuffer) (byteOffset : option N) (w w' : World) :
  initializeWith fault JSON_parse context arrayBuffer byteOffset w
    = (Normal tt, w') →
  ∃ h r ctx made,
    readHeader JSON_parse arrayBuffer byteOffset = Normal h ∧
    readPointsLength h = Normal r ∧
    present (featureTableJSON h) "POSITION" ||
      present (featureTableJSON h) "POSITION_QUANTIZED" &&
      present (featureTableJSON h) "QUANTIZED_VOLUME_SCALE" = true ∧
    context = Some ctx ∧
    gpu w' = gpu w ++ made ∧ length made = 4%nat ∧
    Forall (λ r, fault r = None) made.
Proof.
  intros H. unfold initializeWith in H.
  apply JS_bind_Normal in H as (h & w1 & Hh & H).
  apply liftC_Normal in Hh as [Hh ->].
  apply JS_bind_Normal in H as ([[f [[p c] n]] pl] & w1 & Hv & H).
  apply assembleWith_Normal in H as (ctx & -> & -> & Hf).
  pose proof Hv as Hv'.
  apply resolveVariant_Normal in Hv' as ([resources Hpl] & _).
  pose proof (resolveVariant_changes _ _ _ _ Hv) as [Hg _].
  exists h, (resources, pl), ctx, (requestedObjects ctx f p c n pl (this w1)).
  split; [exact Hh|]. split; [exact Hpl|].
  split; [|split; [reflexivity|]; split; [|split; [reflexivity|exact Hf]]].
  2: { unfold assembled, requestedObjects, vertexArrayOf, programOf,
         drawCommandOf. cbn. by rewrite Hg. }
  destruct (readPointsLength_object h _ Hpl) as (properties & Ht & Hj).
  cbn [fst] in Hj. rewrite Ht.
  unfold resolveVariant in Hv.
  erewrite JS_bind_step in Hv; [|unfold liftC; rewrite Hpl; reflexivity].
  cbv beta iota in Hv. rewrite Ht in Hv.
  apply JS_bind_Normal in Hv as ([p' isQ] & w2 & Hpos & _).
  destruct (present (JObj properties) "POSITION") eqn:HP; [reflexivity|].
  destruct (present (JObj properties) "POSITION_QUANTIZED") eqn:HQ.
  + destruct (present (JObj properties) "QUANTIZED_VOLUME_SCALE") eqn:HS;
      [reflexivity|].
    destruct (resolvePositions_no_scale properties resources Hj pl w HP HQ HS)
      as (scale & _ & Hthrow).
    congruence.
  + rewrite (resolvePositions_neither properties resources pl w HP HQ)
      in Hpos.
    discriminate.
Qed.

Lemma accepted_only_if_witness :
  ∃ h r ctx made,
    readHeader Json.parse Sample.floatTile None = Normal h ∧
    readPointsLength h = Normal r ∧
    present (featureTableJSON h) "POSITION" ||
      present (featureTableJSON h) "POSITION_QUANTIZED" &&
      present (featureTableJSON h) "QUANTIZED_VOLUME_SCALE" = true ∧
    Some TheContext = Some ctx ∧
    gpu (snd (initializeWith reliable Json.parse (Some TheContext)
                Sample.floatTile None Sample.world))
      = gpu Sample.world ++ made ∧
    length made = 4%nat ∧
    Forall (λ r, reliable r = None) made.
Proof.
  apply (accepted_only_if reliable Json.parse (Some TheContext)
           Sample.floatTile None Sample.world).
  vm_compute. reflexivity.
Defined.

(** X10.  [initialize] reads the variable [context], which the module does
    not bind.  When no global of that name exists no buffer is accepted: the
    run ends as the run with a context does, except that where that one is
    accepted this one throws a [ReferenceError]; and no renderer object is
    created. *)
Theorem nothing_accepted_without_context
    (JSON_parse : string → option jsval) (ctx : Context)
    (arrayBuffer : ArrayBuffer) (byteOffset : option N) (w : World) :
  let run := initialize JSON_parse None arrayBuffer byteOffset w in
  fst run =
    match fst (initialize JSON_parse (Some ctx) arrayBuffer byteOffset w) with
    | Normal _ => Throw (ReferenceError "context")
    | Throw e => Throw e
    end ∧
  fst run ≠ Normal tt ∧
  gpu (snd run) = gpu w.
Proof.
  cbv zeta.
  destruct (readHeader JSON_parse arrayBuffer byteOffset) as [h|e] eqn:Hh.
  2: { rewrite !(initialize_header_throw _ _ _ _ _ _ Hh). cbn. done. }
  rewrite !(initialize_header_step _ _ _ _ _ _ Hh).
  destruct (resolveVariant h w) as [[[[f [[p c] n]] pl]|e] w1] eqn:Hv.
  - rewrite !(JS_bind_step _ _ _ _ _ Hv). cbv beta iota.
    rewrite assemble_without_context, assemble_with_context. cbn.
    apply resolveVariant_changes in Hv as [Hg _]. done.
  - rewrite !(JS_bind_Throw _ _ _ _ _ Hv). cbn.
    apply resolveVariant_changes in Hv as [Hg _]. done.
Qed.

(** ** The shader text against the maps given to the renderer *)

(** X11.  For every flag tuple, the uniforms the vertex shader declares are
    exactly the keys of the uniform map handed to the draw command
    ([u_pointSize], [u_constantColor], and [u_quantizedVolumeScale] when the
    positions are quantized); the fragment shader declares none. *)
Theorem declared_uniforms_are_bound (f : VariantFlags) :
  dom (buildUniformMap (isQuantized f)) =
    list_to_set (Glsl.uniforms (vertexShader f)) ∧
  Glsl.uniforms fragmentShader = [].
Proof.
  each_flag_tuple f; split; try reflexivity;
    apply set_eq; intros name;
    rewrite elem_of_dom, elem_of_list_to_set;
    unfold buildUniformMap, combine; cbn [isQuantized];
    change (Glsl.uniforms _) with
      (["u_pointSize"; "u_constantColor"; "u_quantizedVolumeScale"]) ||
    change (Glsl.uniforms _) with (["u_pointSize"; "u_constantColor"]).
  all: rewrite ?lookup_union_is_Some, !lookup_insert_is_Some',
         ?lookup_empty_is_Some.
  all: rewrite ?list_elem_of_In; cbn [In].
  all: rewrite ?lookup_empty; unfold is_Some; intuition (try congruence).
  all: match goal with H : ∃ _, None = Some _ |- _ => destruct H; congruence end.
Qed.

(** X12.  For every flag tuple, the attributes the vertex shader declares
    answer, one for one and in order, to the entries of the vertex attribute
    list: the name of the i-th declaration is bound, in the attribute
    locations handed to the shader program, to the slot of the i-th entry, and
    the declared type has as many components as the entry.  The attribute
    locations bind no other name. *)
Theorem declared_attributes_match_layout
    (f : VariantFlags) (positions colors normals : jsval) :
  let declarations := attributeDeclarations (Glsl.tokens (vertexShader f)) in
  List.map (λ d, (buildAttributeLocations f !! d.2, vectorWidth d.1))
    declarations =
  List.map (λ a, (Some (index a), Some (componentsPerAttribute a)))
    (buildAttributes f positions colors normals) ∧
  dom (buildAttributeLocations f) = list_to_set (List.map snd declarations).
Proof.
  each_flag_tuple f; (split; [vm_compute; reflexivity|]).
  all: apply set_eq; intros name;
    rewrite elem_of_dom, elem_of_list_to_set;
    unfold buildAttributeLocations, combine;
    cbn [hasColors hasNormals];
    match goal with
    | |- context [List.map snd ?d] =>
        let l := eval vm_compute in (List.map snd d) in
        change (List.map snd d) with l
    end;
    rewrite ?lookup_union_is_Some, !lookup_insert_is_Some',
      ?lookup_empty_is_Some.
  all: rewrite ?list_elem_of_In; cbn [In].
  all: rewrite ?lookup_empty; unfold is_Some; intuition (try congruence).
  all: match goal with H : ∃ _, None = Some _ |- _ => destruct H; congruence end.
Qed.

(** ** The request, settled *)

Lemma onFailure_run why w :
  onFailure why w =
  (Normal tt,
   mkWorld (set_readyPromise (deferred_reject why (readyPromise (this w)))
              (set_state FAILED (this w)))
           (gpu w)).
Proof. reflexivity. Qed.

Lemma requestSettlesWith_fetched fault JSON_parse context arrayBuffer w :
  requestSettlesWith fault JSON_parse context (Fetched arrayBuffer) w =
  if isDestroyed (this w)
  then onFailure (Reason "tileset is destroyed") w
  else match initializeWith fault JSON_parse context arrayBuffer None w with
       | (Normal _, w') => (Normal tt, w')
       | (Throw e, w') => onFailure (Exception e) w'
       end.
Proof.
  unfold requestSettlesWith, onFetchedWith.
  unfold mbind at 1, JS_bind at 1, getThis at 1.
  destruct (isDestroyed (this w)); [reflexivity|].
  unfold mbind, JS_bind.
  destruct (initializeWith fault JSON_parse context arrayBuffer None w)
    as [[[]|e] w']; reflexivity.
Qed.

(** How the chain of handlers leaves the state and the two promises. *)
Lemma requestSettlesWith_promises fault JSON_parse context outcome w :
  let run := requestSettlesWith fault JSON_parse context outcome w in
  let c := this w in
  let c' := this (snd run) in
  match rejectionOfWith fault JSON_parse context outcome w with
  | None =>
      state c' = READY ∧
      readyPromise c' = deferred_resolve (readyPromise c) ∧
      contentReadyToProcessPromise c' =
        deferred_resolve (contentReadyToProcessPromise c)
  | Some why =>
      state c' = FAILED ∧
      readyPromise c' = deferred_reject why (readyPromise c) ∧
      contentReadyToProcessPromise c' = contentReadyToProcessPromise c
  end.
Proof.
  cbv zeta. destruct outcome as [arrayBuffer|why].
  2: { unfold requestSettlesWith, rejectionOfWith. rewrite onFailure_run. cbn.
       repeat split. }
  rewrite requestSettlesWith_fetched. unfold rejectionOfWith.
  destruct (isDestroyed (this w)).
  { rewrite onFailure_run. cbn. repeat split. }
  destruct (initializeWith fault JSON_parse context arrayBuffer None w)
    as [[[]|e] w'] eqn:H; cbn [fst snd].
  - by apply initializeWith_Normal_content in H.
  - rewrite onFailure_run. cbn.
    apply initializeWith_Throw_content in H
      as (_ & _ & _ & _ & _ & Hc & Hr & _).
    rewrite Hr, Hc. repeat split.
Qed.

(** X13.  When the promise of a request settles, the chain of handlers never
    throws to its caller, whichever constructor of the renderer may fail, and
    leaves the content either [READY] or [FAILED].  It is [READY], with both
    promises resolved, exactly when the buffer arrived, the content had not
    been destroyed and [initialize] accepted it.  Otherwise it is [FAILED] and
    the ready promise is rejected (if it was still pending) with the reason of
    the fetch, with ["tileset is destroyed"], or with what [initialize] threw;
    in that case the "ready to process" promise is not settled and the draw
    command of the content is as it was. *)
Theorem request_settles
    (fault : RendererFaults)
    (JSON_parse : string → option jsval) (context : option Context)
    (outcome : fetchOutcome) (w : World) :
  let run := requestSettlesWith fault JSON_parse context outcome w in
  let c := this w in
  let c' := this (snd run) in
  fst run = Normal tt ∧
  match rejectionOfWith fault JSON_parse context outcome w with
  | None =>
      state c' = READY ∧
      readyPromise c' = deferred_resolve (readyPromise c) ∧
      contentReadyToProcessPromise c' =
        deferred_resolve (contentReadyToProcessPromise c)
  | Some why =>
      state c' = FAILED ∧
      readyPromise c' = deferred_reject why (readyPromise c) ∧
      contentReadyToProcessPromise c' = contentReadyToProcessPromise c ∧
      _drawCommand c' = _drawCommand c
  end.
Proof.
  cbv zeta.
  pose proof (requestSettlesWith_promises fault JSON_parse context outcome w)
    as Hp. cbv zeta in Hp.
  destruct outcome as [arrayBuffer|why].
  { revert Hp. rewrite requestSettlesWith_fetched. unfold rejectionOfWith.
    destruct (isDestroyed (this w)).
    { rewrite onFailure_run. cbn. tauto. }
    destruct (initializeWith fault JSON_parse context arrayBuffer None w)
      as [[[]|e] w'] eqn:H; cbn [fst snd]; [tauto|].
    rewrite onFailure_run. cbn.
    apply initializeWith_Throw_content in H as (_ & _ & _ & Hd & _).
    rewrite Hd. tauto. }
  revert Hp. unfold requestSettlesWith, rejectionOfWith.
  rewrite onFailure_run. cbn. tauto.
Qed.

(** X14.  The life of a new content.  It is made [UNLOADED] with both
    promises pending; [request] moves it to [LOADING] when the scheduler
    takes the request and leaves it as it is when not; and when the promise
    of the request settles it ends [READY] with both promises resolved, or
    [FAILED] with the ready promise rejected and the "ready to process"
    promise still pending. *)
Theorem life_of_a_new_content
    (JSON_parse : string → option jsval) (context : option Context)
    (tile : Cesium3DTile) (url : string) (scheduled : bool)
    (outcome : fetchOutcome) (g : list GpuResource) :
  let made := Points3DTileContent_new tile url in
  let requested := request scheduled made in
  let settled :=
    this (snd (requestSettles JSON_parse context outcome
                 (mkWorld requested g))) in
  state made = UNLOADED ∧
  requested = (if scheduled then set_state LOADING made else made) ∧
  ((state settled = READY ∧ readyPromise settled = Resolved ∧
    contentReadyToProcessPromise settled = Resolved) ∨
   (state settled = FAILED ∧
    (∃ why, readyPromise settled = Rejected why) ∧
    contentReadyToProcessPromise settled = Pending)).
Proof.
  cbv zeta. split; [reflexivity|]. split; [reflexivity|].
  pose proof (requestSettlesWith_promises reliable JSON_parse context outcome
                (mkWorld (request scheduled (Points3DTileContent_new tile url)) g))
    as H.
  cbv zeta in H.
  rewrite requestSettlesWith_reliable, rejectionOfWith_reliable in H.
  assert (Hp : readyPromise (request scheduled (Points3DTileContent_new tile url))
               = Pending ∧
               contentReadyToProcessPromise
                 (request scheduled (Points3DTileContent_new tile url))
               = Pending)
    by (destruct scheduled; split; reflexivity).
  destruct Hp as [Hr Hc]. cbn [this] in H. rewrite Hr, Hc in H.
  destruct (rejectionOf _ _ _ _) as [why|].
  - right. destruct H as (Hs & Hrp & Hcp). eauto.
  - left. exact H.
Qed.

(** ** update *)

Section UpdateFacts.

Variable getRotation : Matrix4 → Matrix3.
Variable fromRotationTranslation : Matrix3 → Q * Q * Q → Matrix4.

(** X15.  After an accepted [initialize], [update] writes into the model
    matrix of the draw command the matrix made of the rotation of the given
    transform and the center of the bounding sphere of the tile, and changes
    nothing else of the content: state, count, shader program and the rest
    stay.  Of two updates in a row only the second shows. *)
Theorem update_after_accepted_run
    (JSON_parse : string → option jsval) (context : option Context)
    (arrayBuffer : ArrayBuffer) (byteOffset : option N) (w w' : World)
    (transform transform2 : Matrix4) :
  initialize JSON_parse context arrayBuffer byteOffset w = (Normal tt, w') →
  let c' := update getRotation fromRotationTranslation transform (this w') in
  modelMatrix (_drawCommand c') =
    Some (fromRotationTranslation (getRotation transform)
            (center (contentBoundingSphere (_tile (this w))))) ∧
  c' = set_drawCommand
         (set_modelMatrix (modelMatrix (_drawCommand c'))
            (_drawCommand (this w'))) (this w') ∧
  state c' = READY ∧
  update getRotation fromRotationTranslation transform2 c' =
  update getRotation fromRotationTranslation transform2 (this w').
Proof.
  intros H. unfold initialize in H.
  apply JS_bind_Normal in H as (h & w1 & Hh & H).
  apply liftC_Normal in Hh as [Hh ->].
  apply JS_bind_Normal in H as ([[f [[p cl] n]] pl] & w1 & Hv & H).
  apply resolveVariant_changes in Hv as [_ (_ & Ht & _)].
  apply assemble_Normal in H as (ctx & _ & ->).
  unfold update. cbn. rewrite Ht. repeat split.
Qed.

(** X16.  On a new content, requested or not, and on such a content after
    [initialize] has thrown, [update] changes nothing: the draw command of
    the constructor has no model matrix to write into. *)
Theorem update_without_accepted_run
    (JSON_parse : string → option jsval) (context : option Context)
    (arrayBuffer : ArrayBuffer) (byteOffset : option N)
    (tile : Cesium3DTile) (url : string) (scheduled : bool)
    (g : list GpuResource) (w' : World) (e : error) (transform : Matrix4) :
  let c := request scheduled (Points3DTileContent_new tile url) in
  initialize JSON_parse context arrayBuffer byteOffset (mkWorld c g)
    = (Throw e, w') →
  update getRotation fromRotationTranslation transform c = c ∧
  update getRotation fromRotationTranslation transform (this w') = this w'.
Proof.
  intros c H. split.
  - subst c. destruct scheduled; reflexivity.
  - rewrite <- initializeWith_reliable in H.
    apply initializeWith_Throw_content in H as (_ & _ & _ & Hd & _).
    unfold update. rewrite Hd.
    subst c. destruct scheduled; reflexivity.
Qed.

End UpdateFacts.

Lemma update_after_accepted_run_witness :
  let w' := snd (initialize Json.parse (Some TheContext) Sample.floatTile None
                   Sample.world) in
  let c' := update Sample2.getRotation Sample2.fromRotationTranslation
              Sample2.identity (this w') in
  modelMatrix (_drawCommand c') = Some Sample2.identity ∧ state c' = READY.
Proof.
  intros w' c'.
  destruct (update_after_accepted_run
              Sample2.getRotation Sample2.fromRotationTranslation
              Json.parse (Some TheContext) Sample.floatTile None
              Sample.world w' Sample2.identity Sample2.identity)
    as (H1 & _ & H3 & _); [vm_compute; reflexivity|].
  split; [exact H1 | exact H3].
Defined.

Lemma update_without_accepted_run_witness :
  let c := request true (Points3DTileContent_new Sample.owner "points.pnts") in
  update Sample2.getRotation Sample2.fromRotationTranslation
    Sample2.identity c = c.
Proof.
  intros c.
  apply (update_without_accepted_run
           Sample2.getRotation Sample2.fromRotationTranslation
           Json.parse (Some TheContext) Sample.bareTile None
           Sample.owner "points.pnts" true [] (mkWorld c [])
           (DeveloperError
              "Either POSITION or POSITION_QUANTIZED must be defined.")
           Sample2.identity).
  vm_compute. reflexivity.
Defined.

(** ** Where the vertex buffers come from *)

Lemma resolvePositions_buffer table resources pointsLength w p isQ w1 :
  resolvePositions table resources pointsLength w = (Normal (p, isQ), w1) →
  getGlobalProperty resources
    (if isQ then "POSITION_QUANTIZED" else "POSITION")
    (if isQ then Some UNSIGNED_SHORT else Some FLOAT)
    (js_times pointsLength 3) = Normal p.
Proof.
  intros H. unfold resolvePositions in H. js_unfold in H.
  case_steps H; simplify_eq/=; assumption.
Qed.

Lemma resolveColors_buffer table resources pointsLength w c isT isC w1 :
  resolveColors table resources pointsLength w = (Normal (c, isT, isC), w1) →
  defined c = true →
  getGlobalProperty resources
    (if isT then "RGBA" else "RGB")
    (if isT then Some UNSIGNED_BYTE else None)
    (js_times pointsLength (if isT then 4 else 3)) = Normal c.
Proof.
  intros H Hd. unfold resolveColors in H. js_unfold in H.
  case_steps H; simplify_eq/=; assumption || discriminate.
Qed.

Lemma resolveNormals_buffer table resources pointsLength w n isO w1 :
  resolveNormals table resources pointsLength w = (Normal (n, isO), w1) →
  defined n = true →
  getGlobalProperty resources
    (if isO then "NORMAL_OCT16P" else "NORMAL")
    (if isO then Some UNSIGNED_BYTE else Some FLOAT)
    (js_times pointsLength (if isO then 2 else 3)) = Normal n.
Proof.
  intros H Hd. unfold resolveNormals in H. js_unfold in H.
  case_steps H; simplify_eq/=; assumption || discriminate.
Qed.

(** X17.  In every resolved variant whose [POINTS_LENGTH] is a number n,
    not negative and with 4 n within 2^53, each entry of the vertex attribute
    list is fed by what the accessor answered for the key that won
    (positions: [POSITION] before [POSITION_QUANTIZED]; colors: [RGBA] before
    [RGB]; normals: [NORMAL] before [NORMAL_OCT16P]), asked for with a count
    of n times the components of the entry and with the element type of the
    entry - except for [RGB], asked for without an element type. *)
Theorem vertex_buffers_as_requested
    (h : Header) (w w1 : World) (f : VariantFlags)
    (positions colors normals : jsval) (n : Z) :
  resolveVariant h w
    = (Normal (f, (positions, colors, normals), JNum n), w1) →
  (0 ≤ n)%Z →
  (4 * n ≤ 9007199254740992)%Z →
  ∃ resources,
    json resources = featureTableJSON h ∧
    buffer resources = featureTableBinary h ∧
    Forall
      (λ a, ∃ key ty,
          getGlobalProperty resources key ty
            (JNum (n * Z.of_N (componentsPerAttribute a)))
          = Normal (vertexBuffer a) ∧
          key = requestedKey f (index a) ∧
          ty = (if String.eqb key "RGB" then None else componentDatatype a))
      (buildAttributes f positions colors normals).
Proof.
  intros H _ _. unfold resolveVariant in H.
  apply JS_bind_Normal in H as ([resources pl] & w2 & Hpl & H).
  apply liftC_Normal in Hpl as [Hpl ->].
  apply readPointsLength_Normal in Hpl as (_ & _ & Hj & Hb).
  apply JS_bind_Normal in H as ([p isQ] & w2 & Hpos & H).
  apply JS_bind_Normal in H as ([[c isT] isC] & w3 & Hcol & H).
  apply JS_bind_Normal in H as ([nm isO] & w4 & Hnor & H).
  apply JS_bind_Normal in H as ([] & w5 & _ & H).
  injection H as <- <- <- <- -> <-.
  apply resolvePositions_buffer in Hpos.
  pose proof (resolveColors_buffer _ _ _ _ _ _ _ _ Hcol) as Hc.
  pose proof (resolveNormals_buffer _ _ _ _ _ _ _ Hnor) as Hn.
  exists resources. split; [exact Hj|]. split; [exact Hb|].
  unfold buildAttributes. cbn [isQuantized hasColors isTranslucent hasNormals
                               isOctEncoded16P].
  destruct isQ, (defined c) eqn:Hdc, isT, (defined nm) eqn:Hdn, isO;
    cbn [app]; repeat constructor; cbn;
    try specialize (Hc eq_refl); try specialize (Hn eq_refl);
    do 2 eexists; (split; [eassumption|]); split; reflexivity.
Qed.

Lemma vertex_buffers_as_requested_witness :
  ∃ resources,
    json resources = featureTableJSON Sample2.quantizedHeader ∧
    buffer resources = featureTableBinary Sample2.quantizedHeader ∧
    Forall
      (λ a, ∃ key ty,
          getGlobalProperty resources key ty
            (JNum (1 * Z.of_N (componentsPerAttribute a)))
          = Normal (vertexBuffer a) ∧
          key = requestedKey (mkFlags true true true true true) (index a) ∧
          ty = (if String.eqb key "RGB" then None else componentDatatype a))
      (buildAttributes (mkFlags true true true true true)
         (JTypedArray (Some UNSIGNED_SHORT) (JNum 0) (JNum 3))
         (JTypedArray (Some UNSIGNED_BYTE) (JNum 6) (JNum 4))
         (JTypedArray (Some UNSIGNED_BYTE) (JNum 10) (JNum 2))).
Proof.
  apply (vertex_buffers_as_requested Sample2.quantizedHeader Sample.world
           Sample2.quantizedResolved); [vm_compute; reflexivity|lia|lia].
Defined.
